(** * Removing users and groups from the role bindings of a project

    A shallow embedding of [RemoveFromProjectOptions.Run] (the engine behind
    [oc policy remove-user] and [oc policy remove-group]) together with its
    helpers [subjectsStrings] and [roleBindingSorter].

    Go strings are [string]; slices are lists; [sets.String] is a
    [gset string] whose [List] method returns the elements in increasing
    byte order; the role binding client, the printer and the output stream
    are effects, threaded through a small state/trace/error monad. *)

From Stdlib Require OrderedTypeEx.
From Stdlib Require Import Ascii.
From stdpp Require Import base list strings gmap sorting.

(** ** The Kubernetes RBAC types, as far as the engine reads them *)

Module rbacv1.
Definition GroupKind : string := "Group".
Definition ServiceAccountKind : string := "ServiceAccount".
Definition UserKind : string := "User".
Definition GroupName : string := "rbac.authorization.k8s.io".
End rbacv1.

Module Subject.
Record t : Type := mk
  { Kind : string; APIGroup : string; Name : string; Namespace : string }.

Definition setNamespace (s : t) (ns : string) : t :=
  {| Kind := Kind s; APIGroup := APIGroup s; Name := Name s;
     Namespace := ns |}.
End Subject.

Module RoleRef.
Record t : Type := mk { APIGroup : string; Kind : string; Name : string }.
End RoleRef.

Module RoleBinding.
Record t : Type := mk
  { Name : string;
    Namespace : string;
    Subjects : list Subject.t;
    RoleRef : RoleRef.t }.

(** [currBinding.Subjects = s] on the loop's copy of the binding. *)
Definition setSubjects (b : t) (s : list Subject.t) : t :=
  {| Name := Name b; Namespace := Namespace b; Subjects := s;
     RoleRef := RoleRef b |}.
End RoleBinding.

Module RoleBindingList.
Record t : Type := mk
  { Kind : string; APIVersion : string; Items : list RoleBinding.t }.
End RoleBindingList.

Global Instance Subject_eq_dec : EqDecision Subject.t.
Proof. solve_decision. Defined.
Global Instance RoleRef_eq_dec : EqDecision RoleRef.t.
Proof. solve_decision. Defined.
Global Instance RoleBinding_eq_dec : EqDecision RoleBinding.t.
Proof. solve_decision. Defined.
Global Instance RoleBindingList_eq_dec : EqDecision RoleBindingList.t.
Proof. solve_decision. Defined.

(** [kcmdutil.DryRunStrategy] *)
Inductive DryRunStrategy : Type := DryRunNone | DryRunClient | DryRunServer.

Global Instance DryRunStrategy_eq_dec : EqDecision DryRunStrategy.
Proof. solve_decision. Defined.

(** The fields of [RemoveFromProjectOptions] that are plain data.  [Client],
    [Printer] and [Out] are the effects below. *)
Record RemoveFromProjectOptions : Type := mkOptions
  { BindingNamespace : string;
    Groups : list string;
    Users : list string;
    DryRun : DryRunStrategy;
    Output : string }.

(** ** Go library behaviour used by the engine *)

(** Go compares strings byte by byte. *)
Definition string_le (a b : string) : Prop := String.leb a b = true.
Definition string_lt (a b : string) : Prop := String.ltb a b = true.

Global Instance string_le_dec a b : Decision (string_le a b).
Proof. unfold string_le. apply _. Defined.
Global Instance string_lt_dec a b : Decision (string_lt a b).
Proof. unfold string_lt. apply _. Defined.

Module fmt.
Definition newline : string := String (Ascii.ascii_of_nat 10) "".

(** The verb [%v] applied to a [[]string]. *)
Definition v_strings (l : list string) : string :=
  "[" +:+ String.concat " " l +:+ "]".
End fmt.

(** [k8s.io/apimachinery/pkg/util/sets.String] *)
Module sets.
Definition NewString (items : list string) : gset string := list_to_set items.
Definition Difference (s1 s2 : gset string) : gset string := s1 ∖ s2.
Definition Insert (s : gset string) (items : list string) : gset string :=
  s ∪ list_to_set items.
Definition Len (s : gset string) : nat := size s.
(** [List] returns the contents as a sorted slice. *)
Definition List (s : gset string) : list string :=
  merge_sort string_le (elements s).
End sets.

(** [sort.Sort] over a [Less] function.  The result is a permutation in
    which no element is [Less] than one before it ([inOrder]).  The Go sort
    is not stable; on bindings with pairwise distinct names, as within one
    namespace, every such permutation is the same list (lemma
    [descending_unique] below). *)
Definition inOrder {A : Type} (Less : A → A → bool) (x y : A) : Prop :=
  Less y x = false.

Global Instance inOrder_dec {A} (Less : A → A → bool) x y :
  Decision (inOrder Less x y).
Proof. unfold inOrder. apply _. Defined.

Definition sort_Sort {A : Type} (Less : A → A → bool) (l : list A) : list A :=
  merge_sort (inOrder Less) l.

(** [sort.Reverse]: [Less(i, j)] of the wrapped value is [Less(j, i)]. *)
Definition sort_Reverse {A : Type} (Less : A → A → bool) : A → A → bool :=
  λ x y, Less y x.

(** ** Collaborators *)

Definition error : Type := string.

(** [rbacv1client.RoleBindingInterface], restricted to the three calls the
    engine makes.  A client is a state; each call returns the next state
    and the call's result.  The binding returned by [Update] is discarded by
    the engine, so only its error is kept. *)
Class RoleBindingInterface (C : Type) : Type :=
  { client_List : string → C → C * (error + list RoleBinding.t);
    client_Update : string → RoleBinding.t → C → C * option error;
    client_Delete : string → string → C → C * option error }.

(** [printers.ResourcePrinter] *)
Class ResourcePrinter : Type :=
  { PrintObj : RoleBindingList.t → option error }.

(** Helpers of the command that live outside this file. *)
Class SubjectHelpers : Type :=
  { BuildRBACSubjects : list string → list string → list Subject.t;
    removeSubjects :
      list Subject.t → list Subject.t → list Subject.t * nat }.

(** What the engine does to the outside world, in order. *)
Inductive Event : Type :=
  | CallList (ns : string)
  | CallUpdate (ns : string) (b : RoleBinding.t)
  | CallDelete (ns name : string)
  | Fprintf (text : string)
  | CallPrintObj (l : RoleBindingList.t).

Global Instance Event_eq_dec : EqDecision Event.
Proof. solve_decision. Defined.

Definition isMutation (e : Event) : bool :=
  match e with CallUpdate _ _ | CallDelete _ _ => true | _ => false end.

Definition mutationCalls (tr : list Event) : list Event := filter isMutation tr.

Definition written (tr : list Event) : list string :=
  omap (λ e, match e with Fprintf s => Some s | _ => None end) tr.

(** ** [subjectsStrings] and [roleBindingSorter] *)

Definition subjectsStrings (subjects : list Subject.t)
  : list string * list string * list string * list string :=
  foldl
    (λ '(users, groups, sas, others) subject,
       if decide (Subject.Kind subject = rbacv1.ServiceAccountKind) then
         (users, groups,
          sas ++ [Subject.Namespace subject +:+ "/" +:+ Subject.Name subject],
          others)
       else if decide (Subject.Kind subject = rbacv1.UserKind) then
         (users ++ [Subject.Name subject], groups, sas, others)
       else if decide (Subject.Kind subject = rbacv1.GroupKind) then
         (users, groups ++ [Subject.Name subject], sas, others)
       else
         (users, groups, sas,
          others ++ [Subject.Kind subject +:+ "/" +:+ Subject.Namespace subject
                       +:+ "/" +:+ Subject.Name subject]))
    ([], [], [], []) subjects.

Module roleBindingSorter.
Definition Less (a b : RoleBinding.t) : bool :=
  String.ltb (RoleBinding.Name a) (RoleBinding.Name b).
End roleBindingSorter.

(** ** The engine *)

Section Engine.
Context {C : Type} `{!RoleBindingInterface C} `{!ResourcePrinter}
        `{!SubjectHelpers}.

(** A computation reads and updates the client, emits events and either
    fails with a Go [error] or returns a value. *)
Definition Eff (A : Type) : Type := C → C * list Event * (error + A).

Definition ret {A} (a : A) : Eff A := λ c, (c, [], inr a).

Definition bind {A B} (m : Eff A) (k : A → Eff B) : Eff B :=
  λ c,
    match m c with
    | (c1, ev1, inl e) => (c1, ev1, inl e)
    | (c1, ev1, inr a) =>
        match k a c1 with (c2, ev2, r) => (c2, ev1 ++ ev2, r) end
    end.

Local Notation "x <~ m ;; k" := (bind m (λ x, k))
  (at level 100, m at next level, right associativity).
Local Notation "m ;;; k" := (bind m (λ _, k))
  (at level 100, right associativity).

Definition doList (ns : string) : Eff (list RoleBinding.t) :=
  λ c, match client_List ns c with (c', r) => (c', [CallList ns], r) end.

Definition ofError (r : option error) : error + unit :=
  match r with Some e => inl e | None => inr () end.

Definition doUpdate (ns : string) (b : RoleBinding.t) : Eff unit :=
  λ c, match client_Update ns b c with
       | (c', r) => (c', [CallUpdate ns b], ofError r)
       end.

Definition doDelete (ns name : string) : Eff unit :=
  λ c, match client_Delete ns name c with
       | (c', r) => (c', [CallDelete ns name], ofError r)
       end.

Definition doFprintf (text : string) : Eff unit :=
  λ c, (c, [Fprintf text], inr ()).

Definition doPrintObj (l : RoleBindingList.t) : Eff unit :=
  λ c, (c, [CallPrintObj l], ofError (PrintObj l)).

(** The four accumulating sets and [updatedBindings]. *)
Record Accum : Type := mkAccum
  { usersRemoved : gset string;
    groupsRemoved : gset string;
    sasRemoved : gset string;
    othersRemoved : gset string;
    updatedBindings : RoleBindingList.t }.

Definition initAccum : Accum :=
  {| usersRemoved := ∅; groupsRemoved := ∅; sasRemoved := ∅;
     othersRemoved := ∅;
     updatedBindings :=
       {| RoleBindingList.Kind := "List"; RoleBindingList.APIVersion := "v1";
          RoleBindingList.Items := [] |} |}.

Definition removingLine (roleDisplayName category : string)
    (names : list string) (ns dryRunText : string) : string :=
  "Removing " +:+ roleDisplayName +:+ " from " +:+ category +:+ " "
    +:+ fmt.v_strings names +:+ " in project " +:+ ns +:+ dryRunText
    +:+ "." +:+ fmt.newline.

Definition notBoundLine (category : string) (names : list string)
    (ns dryRunText : string) : string :=
  category +:+ " " +:+ fmt.v_strings names
    +:+ " were not bound to roles in project " +:+ ns +:+ dryRunText
    +:+ "." +:+ fmt.newline.

(** One of the four [if diff := old.Difference(new); len(diff) != 0]
    blocks of the loop; they differ in the category word and the sets. *)
Definition reportRemoved (o : RemoveFromProjectOptions)
    (dryRunText roleDisplayName category : string)
    (oldSet newSet removed : gset string) : Eff (gset string) :=
  let diff := sets.Difference oldSet newSet in
  if decide (sets.Len diff ≠ 0) then
    doFprintf (removingLine roleDisplayName category (sets.List diff)
                 (BindingNamespace o) dryRunText) ;;;
    ret (sets.Insert removed (sets.List diff))
  else ret removed.

(** One of the two blocks after the loop. *)
Definition reportNotBound (o : RemoveFromProjectOptions)
    (dryRunText category : string) (requested : list string)
    (removed : gset string) : Eff unit :=
  let diff := sets.Difference (sets.NewString requested) removed in
  if decide (sets.Len diff ≠ 0) then
    doFprintf (notBoundLine category (sets.List diff)
                 (BindingNamespace o) dryRunText)
  else ret ().

Definition roleDisplayNameOf (b : RoleBinding.t) : string :=
  if decide (RoleRef.Kind (RoleBinding.RoleRef b) = "ClusterRole")
  then RoleRef.Name (RoleBinding.RoleRef b)
  else RoleBinding.Namespace b +:+ "/"
         +:+ RoleRef.Name (RoleBinding.RoleRef b).

(** The body of [for _, currBinding := range roleBindings.Items]. *)
Definition iteration (o : RemoveFromProjectOptions) (dryRunText : string)
    (subjectsToRemove : list Subject.t) (binding : RoleBinding.t)
    (acc : Accum) : Eff Accum :=
  let originalSubjects := RoleBinding.Subjects binding in
  let '(oldUsers, oldGroups, oldSAs, oldOthers) :=
    subjectsStrings originalSubjects in
  let oldUsersSet := sets.NewString oldUsers in
  let oldGroupsSet := sets.NewString oldGroups in
  let oldSAsSet := sets.NewString oldSAs in
  let oldOtherSet := sets.NewString oldOthers in
  let currBinding :=
    RoleBinding.setSubjects binding
      (fst (removeSubjects (RoleBinding.Subjects binding) subjectsToRemove)) in
  let '(newUsers, newGroups, newSAs, newOthers) :=
    subjectsStrings (RoleBinding.Subjects currBinding) in
  let newUsersSet := sets.NewString newUsers in
  let newGroupsSet := sets.NewString newGroups in
  let newSAsSet := sets.NewString newSAs in
  let newOtherSet := sets.NewString newOthers in
  if decide (length (RoleBinding.Subjects currBinding)
             = length originalSubjects) then
    ret acc
  else if decide (0 < String.length (Output o)) then
    ret {| usersRemoved := usersRemoved acc;
           groupsRemoved := groupsRemoved acc;
           sasRemoved := sasRemoved acc;
           othersRemoved := othersRemoved acc;
           updatedBindings :=
             {| RoleBindingList.Kind :=
                  RoleBindingList.Kind (updatedBindings acc);
                RoleBindingList.APIVersion :=
                  RoleBindingList.APIVersion (updatedBindings acc);
                RoleBindingList.Items :=
                  RoleBindingList.Items (updatedBindings acc)
                    ++ [currBinding] |} |}
  else
    (if decide (DryRun o ≠ DryRunClient) then
       if decide (0 < length (RoleBinding.Subjects currBinding)) then
         doUpdate (BindingNamespace o) currBinding
       else
         doDelete (BindingNamespace o) (RoleBinding.Name currBinding)
     else ret ()) ;;;
    let roleDisplayName := roleDisplayNameOf currBinding in
    users <~ reportRemoved o dryRunText roleDisplayName "users"
               oldUsersSet newUsersSet (usersRemoved acc) ;;
    groups <~ reportRemoved o dryRunText roleDisplayName "groups"
                oldGroupsSet newGroupsSet (groupsRemoved acc) ;;
    sas <~ reportRemoved o dryRunText roleDisplayName "serviceaccounts"
             oldSAsSet newSAsSet (sasRemoved acc) ;;
    others <~ reportRemoved o dryRunText roleDisplayName "subjects"
                oldOtherSet newOtherSet (othersRemoved acc) ;;
    ret {| usersRemoved := users; groupsRemoved := groups;
           sasRemoved := sas; othersRemoved := others;
           updatedBindings := updatedBindings acc |}.

Fixpoint loop (o : RemoveFromProjectOptions) (dryRunText : string)
    (subjectsToRemove : list Subject.t) (items : list RoleBinding.t)
    (acc : Accum) : Eff Accum :=
  match items with
  | [] => ret acc
  | currBinding :: rest =>
      acc' <~ iteration o dryRunText subjectsToRemove currBinding acc ;;
      loop o dryRunText subjectsToRemove rest acc'
  end.

Definition dryRunTextOf (o : RemoveFromProjectOptions) : string :=
  if decide (DryRun o = DryRunClient) then " (dry client run)" else "".

Definition sortedItems (items : list RoleBinding.t) : list RoleBinding.t :=
  sort_Sort (sort_Reverse roleBindingSorter.Less) items.

Definition Run (o : RemoveFromProjectOptions) : Eff unit :=
  roleBindings <~ doList (BindingNamespace o) ;;
  let items := sortedItems roleBindings in
  let dryRunText := dryRunTextOf o in
  let subjectsToRemove := BuildRBACSubjects (Users o) (Groups o) in
  acc <~ loop o dryRunText subjectsToRemove items initAccum ;;
  if decide (0 < String.length (Output o)) then
    doPrintObj (updatedBindings acc)
  else
    reportNotBound o dryRunText "Users" (Users o) (usersRemoved acc) ;;;
    reportNotBound o dryRunText "Groups" (Groups o) (groupsRemoved acc) ;;;
    ret ().

End Engine.

(** ** Derived notions used to state the properties *)

Section Derived.
Context {C : Type} `{!RoleBindingInterface C} `{!SubjectHelpers}.

(** The subjects the loop leaves on a binding (line 159). *)
Definition remainingSubjects (subjectsToRemove : list Subject.t)
    (b : RoleBinding.t) : list Subject.t :=
  fst (removeSubjects (RoleBinding.Subjects b) subjectsToRemove).

(** The loop's copy of the binding after line 159. *)
Definition filteredBinding (subjectsToRemove : list Subject.t)
    (b : RoleBinding.t) : RoleBinding.t :=
  RoleBinding.setSubjects b (remainingSubjects subjectsToRemove b).

(** The test of line 163, negated. *)
Definition hasDiff (subjectsToRemove : list Subject.t) (b : RoleBinding.t)
  : Prop :=
  length (remainingSubjects subjectsToRemove b)
    ≠ length (RoleBinding.Subjects b).

Global Instance hasDiff_dec str b : Decision (hasDiff str b).
Proof. unfold hasDiff. apply _. Defined.

(** The names a category loses on one binding: [old.Difference(new)]. *)
Definition usersOf (l : list Subject.t) : gset string :=
  sets.NewString (subjectsStrings l).1.1.1.
Definition groupsOf (l : list Subject.t) : gset string :=
  sets.NewString (subjectsStrings l).1.1.2.
Definition sasOf (l : list Subject.t) : gset string :=
  sets.NewString (subjectsStrings l).1.2.
Definition othersOf (l : list Subject.t) : gset string :=
  sets.NewString (subjectsStrings l).2.

Definition lostBy (cat : list Subject.t → gset string)
    (subjectsToRemove : list Subject.t) (b : RoleBinding.t) : gset string :=
  sets.Difference (cat (RoleBinding.Subjects b))
    (cat (remainingSubjects subjectsToRemove b)).

Definition categoryLines (ns dryRunText roleDisplayName category : string)
    (diff : gset string) : list string :=
  if decide (sets.Len diff ≠ 0)
  then [removingLine roleDisplayName category (sets.List diff) ns dryRunText]
  else [].

(** The report lines of one binding that has a diff, in the order the
    loop writes them. *)
Definition bindingLines (ns dryRunText : string)
    (subjectsToRemove : list Subject.t) (b : RoleBinding.t) : list string :=
  let name := roleDisplayNameOf b in
  categoryLines ns dryRunText name "users" (lostBy usersOf subjectsToRemove b)
  ++ categoryLines ns dryRunText name "groups"
       (lostBy groupsOf subjectsToRemove b)
  ++ categoryLines ns dryRunText name "serviceaccounts"
       (lostBy sasOf subjectsToRemove b)
  ++ categoryLines ns dryRunText name "subjects"
       (lostBy othersOf subjectsToRemove b).

(** The mutation a binding with a diff calls for. *)
Definition mutationFor (ns : string) (subjectsToRemove : list Subject.t)
    (b : RoleBinding.t) : Event :=
  if decide (0 < length (remainingSubjects subjectsToRemove b))
  then CallUpdate ns (filteredBinding subjectsToRemove b)
  else CallDelete ns (RoleBinding.Name b).

(** Union of what a category loses over the bindings that have a diff. *)
Definition lostOverall (cat : list Subject.t → gset string)
    (subjectsToRemove : list Subject.t) (items : list RoleBinding.t)
  : gset string :=
  ⋃ (map (lostBy cat subjectsToRemove)
       (filter (hasDiff subjectsToRemove) items)).

Definition notBoundLines (ns dryRunText category : string)
    (requested : list string) (removed : gset string) : list string :=
  let diff := sets.Difference (sets.NewString requested) removed in
  if decide (sets.Len diff ≠ 0)
  then [notBoundLine category (sets.List diff) ns dryRunText]
  else [].

(** The client's answer to a mutation call. *)
Definition dispatch (e : Event) (c : C) : C * option error :=
  match e with
  | CallUpdate ns b => client_Update ns b c
  | CallDelete ns name => client_Delete ns name c
  | _ => (c, None)
  end.

(** Live mode: textual report, mutations sent to the client. *)
Definition live (o : RemoveFromProjectOptions) : Prop :=
  Output o = "" ∧ DryRun o ≠ DryRunClient.

Global Instance live_dec o : Decision (live o).
Proof. unfold live. apply _. Defined.

(** The accumulators after the report of one binding that has a diff. *)
Definition accAfter (subjectsToRemove : list Subject.t) (b : RoleBinding.t)
    (acc : Accum) : Accum :=
  {| usersRemoved := usersRemoved acc ∪ lostBy usersOf subjectsToRemove b;
     groupsRemoved := groupsRemoved acc ∪ lostBy groupsOf subjectsToRemove b;
     sasRemoved := sasRemoved acc ∪ lostBy sasOf subjectsToRemove b;
     othersRemoved := othersRemoved acc ∪ lostBy othersOf subjectsToRemove b;
     updatedBindings := updatedBindings acc |}.

(** The accumulators after a binding with a diff when an output format
    was asked for (lines 167-170). *)
Definition appendItem (l : RoleBindingList.t) (b : RoleBinding.t)
  : RoleBindingList.t :=
  {| RoleBindingList.Kind := RoleBindingList.Kind l;
     RoleBindingList.APIVersion := RoleBindingList.APIVersion l;
     RoleBindingList.Items := RoleBindingList.Items l ++ [b] |}.

Definition accCollect (subjectsToRemove : list Subject.t)
    (b : RoleBinding.t) (acc : Accum) : Accum :=
  {| usersRemoved := usersRemoved acc;
     groupsRemoved := groupsRemoved acc;
     sasRemoved := sasRemoved acc;
     othersRemoved := othersRemoved acc;
     updatedBindings :=
       appendItem (updatedBindings acc)
         (filteredBinding subjectsToRemove b) |}.

(** Everything a successful iteration does for a binding with a diff when
    the report is textual. *)
Definition bindingEvents (o : RemoveFromProjectOptions)
    (subjectsToRemove : list Subject.t) (b : RoleBinding.t) : list Event :=
  (if decide (DryRun o ≠ DryRunClient)
   then [mutationFor (BindingNamespace o) subjectsToRemove b] else [])
  ++ map Fprintf
       (bindingLines (BindingNamespace o) (dryRunTextOf o) subjectsToRemove b).

(** The accumulators after the whole loop, in the two reporting modes. *)
Definition accTextual (subjectsToRemove : list Subject.t)
    (items : list RoleBinding.t) (acc : Accum) : Accum :=
  foldl (λ acc b, accAfter subjectsToRemove b acc) acc
    (filter (hasDiff subjectsToRemove) items).

Definition accOutput (subjectsToRemove : list Subject.t)
    (items : list RoleBinding.t) (acc : Accum) : Accum :=
  foldl (λ acc b, accCollect subjectsToRemove b acc) acc
    (filter (hasDiff subjectsToRemove) items).

(** The same options with another dry-run strategy. *)
Definition withDryRun (d : DryRunStrategy) (o : RemoveFromProjectOptions)
  : RemoveFromProjectOptions :=
  {| BindingNamespace := BindingNamespace o; Groups := Groups o;
     Users := Users o; DryRun := d; Output := Output o |}.
End Derived.

(** The name a mutation call is addressed to. *)
Definition mutationTarget (e : Event) : option string :=
  match e with
  | CallUpdate _ b => Some (RoleBinding.Name b)
  | CallDelete _ name => Some name
  | _ => None
  end.

(** Bindings in strictly descending order of name. *)
Definition nameAbove (a b : RoleBinding.t) : Prop :=
  string_lt (RoleBinding.Name b) (RoleBinding.Name a).

(** A dry-run line is the live line with the marker before the full stop. *)
Definition dryRunVariant (live dry : string) : Prop :=
  ∃ body, live = body +:+ "." +:+ fmt.newline
          ∧ dry = body +:+ " (dry client run)" +:+ "." +:+ fmt.newline.


(** What a subject list contributes to each of the four categories. *)
Definition otherKind (s : Subject.t) : Prop :=
  Subject.Kind s ≠ rbacv1.ServiceAccountKind
  ∧ Subject.Kind s ≠ rbacv1.UserKind ∧ Subject.Kind s ≠ rbacv1.GroupKind.

Global Instance otherKind_dec s : Decision (otherKind s).
Proof. unfold otherKind. apply _. Defined.

(** The subjects a removal request names: users and groups, by name. *)
Definition requested (users groups : list string) (s : Subject.t) : Prop :=
  (Subject.Kind s = rbacv1.UserKind ∧ Subject.Name s ∈ users)
  ∨ (Subject.Kind s = rbacv1.GroupKind ∧ Subject.Name s ∈ groups).

Global Instance requested_dec users groups s :
  Decision (requested users groups s).
Proof. unfold requested. apply _. Defined.

(** Subjects that are neither users nor groups. *)
Definition notUserOrGroup (s : Subject.t) : Prop :=
  Subject.Kind s ≠ rbacv1.UserKind ∧ Subject.Kind s ≠ rbacv1.GroupKind.

Global Instance notUserOrGroup_dec s : Decision (notUserOrGroup s).
Proof. unfold notUserOrGroup. apply _. Defined.

(** ** Helpers that are not part of the source at hand *)

Module SpecModel.
(** Modelled from the spec: [authorizationutil.BuildRBACSubjects], called
    at line 151, is not among the source files.  The removal request names
    users and groups; "these kinds have no namespace component". *)
Definition BuildRBACSubjects (users groups : list string)
  : list Subject.t :=
  map (λ user, Subject.mk rbacv1.UserKind "" user "") users
  ++ map (λ group, Subject.mk rbacv1.GroupKind "" group "") groups.

(** Modelled from the spec: the matching test of the absent
    [removeSubjects].  A subject is targeted when its (kind, name) is that
    of a requested subject; "namespace is irrelevant for User/Group
    matching". *)
Definition targets (toRemove existing : Subject.t) : bool :=
  bool_decide (Subject.Kind existing = Subject.Kind toRemove)
  && bool_decide (Subject.Name existing = Subject.Name toRemove).

(** Modelled from the spec: [removeSubjects], called at line 159, is not
    among the source files.  Section 4.2: "produce a new subject sequence
    containing every original subject except those whose (kind, name)
    matches a requested user or group name", every occurrence, in the
    original order.  The second result, discarded by the caller, counts
    the subjects dropped. *)
Fixpoint removeSubjects (haystack needles : list Subject.t)
  : list Subject.t * nat :=
  match haystack with
  | [] => ([], 0)
  | existingSubject :: rest =>
      let '(newSubjects, found) := removeSubjects rest needles in
      if existsb (λ toRemove, targets toRemove existingSubject) needles
      then (newSubjects, S found)
      else (existingSubject :: newSubjects, found)
  end.

Global Instance helpers : SubjectHelpers :=
  Build_SubjectHelpers BuildRBACSubjects removeSubjects.
End SpecModel.

(** ** An in-memory client and printer, for concrete runs *)

Module Fake.
Record t : Type := mk
  { store : list RoleBinding.t;
    listError : option error;
    rejected : list string }.

Definition List (ns : string) (c : t) : t * (error + list RoleBinding.t) :=
  (c, match listError c with
      | Some e => inl e
      | None => inr (filter (λ b, RoleBinding.Namespace b = ns) (store c))
      end).

Definition Update (ns : string) (b : RoleBinding.t) (c : t)
  : t * option error :=
  if decide (RoleBinding.Name b ∈ rejected c) then (c, Some "update refused")
  else
    ({| store :=
          map (λ old, if decide (RoleBinding.Name old = RoleBinding.Name b)
                      then b else old) (store c);
        listError := listError c; rejected := rejected c |}, None).

Definition Delete (ns name : string) (c : t) : t * option error :=
  if decide (name ∈ rejected c) then (c, Some "delete refused")
  else
    ({| store := filter (λ old, RoleBinding.Name old ≠ name) (store c);
        listError := listError c; rejected := rejected c |}, None).

Global Instance client : RoleBindingInterface t :=
  {| client_List := List; client_Update := Update; client_Delete := Delete |}.

Global Instance printer : ResourcePrinter := {| PrintObj := λ _, None |}.

Definition user (name : string) : Subject.t :=
  Subject.mk rbacv1.UserKind rbacv1.GroupName name "".
Definition group (name : string) : Subject.t :=
  Subject.mk rbacv1.GroupKind rbacv1.GroupName name "".
Definition serviceAccount (ns name : string) : Subject.t :=
  Subject.mk rbacv1.ServiceAccountKind "" name ns.

Definition binding (name role : string) (subjects : list Subject.t)
  : RoleBinding.t :=
  RoleBinding.mk name "demo" subjects
    (RoleRef.mk rbacv1.GroupName "ClusterRole" role).

Definition localBinding (name role : string) (subjects : list Subject.t)
  : RoleBinding.t :=
  RoleBinding.mk name "demo" subjects
    (RoleRef.mk rbacv1.GroupName "Role" role).

Definition cluster (bs : list RoleBinding.t) : t := mk bs None [].

Definition options (users groups : list string) (d : DryRunStrategy)
    (output : string) : RemoveFromProjectOptions :=
  mkOptions "demo" groups users d output.

(** A small project: three bindings, listed out of order. *)
Definition viewers : RoleBinding.t :=
  binding "a" "view" [user "alice"; user "bob"].
Definition admins : RoleBinding.t :=
  localBinding "b" "admin"
    [group "devs"; serviceAccount "demo" "builder"; user "carol"].
Definition editors : RoleBinding.t :=
  binding "c" "edit" [user "alice"; user "alice"].

Definition project : t := cluster [viewers; editors; admins].

(** The same project with a client that refuses to touch binding "b". *)
Definition guarded : t := mk [viewers; editors; admins] None ["b"].

(** A project whose listing fails. *)
Definition unreachable : t :=
  mk [viewers; editors; admins] (Some "connection refused") [].

Definition removeAliceAndDevs (d : DryRunStrategy) (output : string)
  : RemoveFromProjectOptions :=
  options ["alice"] ["devs"; "ops"] d output.

Definition request : list Subject.t :=
  BuildRBACSubjects ["alice"] ["devs"; "ops"].

(** A request for a user who is bound to nothing in the project. *)
Definition removeZoe (d : DryRunStrategy) : RemoveFromProjectOptions :=
  options ["zoe"] [] d "".
End Fake.

(** ** The two commands around [Run] *)

(** Where [Complete] appends the arguments: [&o.Groups] for remove-group,
    [&o.Users] for remove-user. *)
Inductive Target : Type := GroupsTarget | UsersTarget.

(** What the command's flags, the print flags, the factory and the
    kubeconfig loader answer to [Complete], in the order it asks. *)
Record CommandLine : Type := mkCommandLine
  { outputFlag : string;
    dryRunFlag : DryRunStrategy * option error;
    toPrinter : option error;
    toRESTConfig : option error;
    newForConfig : option error;
    kubeconfigNamespace : string * option error }.

(** [NewRemoveFromProjectOptions]: every data field has its zero value. *)
Definition NewRemoveFromProjectOptions : RemoveFromProjectOptions :=
  {| BindingNamespace := ""; Groups := []; Users := [];
     DryRun := DryRunNone; Output := "" |}.

Definition setOutput (o : RemoveFromProjectOptions) (v : string)
  : RemoveFromProjectOptions :=
  {| BindingNamespace := BindingNamespace o; Groups := Groups o;
     Users := Users o; DryRun := DryRun o; Output := v |}.

Definition setBindingNamespace (o : RemoveFromProjectOptions) (v : string)
  : RemoveFromProjectOptions :=
  {| BindingNamespace := v; Groups := Groups o; Users := Users o;
     DryRun := DryRun o; Output := Output o |}.

(** [*target = append( *target, args...)] *)
Definition appendTarget (o : RemoveFromProjectOptions) (target : Target)
    (args : list string) : RemoveFromProjectOptions :=
  match target with
  | GroupsTarget =>
      {| BindingNamespace := BindingNamespace o; Groups := Groups o ++ args;
         Users := Users o; DryRun := DryRun o; Output := Output o |}
  | UsersTarget =>
      {| BindingNamespace := BindingNamespace o; Groups := Groups o;
         Users := Users o ++ args; DryRun := DryRun o; Output := Output o |}
  end.

(** [Complete] returns the options as it leaves them and its error. *)
Definition Complete (cl : CommandLine) (o : RemoveFromProjectOptions)
    (args : list string) (target : Target) (targetName : string)
  : RemoveFromProjectOptions * option error :=
  if decide (length args < 1) then
    (o, Some ("you must specify at least one argument: <" +:+ targetName
                +:+ "> [" +:+ targetName +:+ "]..."))
  else
    let o := setOutput o (outputFlag cl) in
    let o := withDryRun (dryRunFlag cl).1 o in
    match (dryRunFlag cl).2 with
    | Some err => (o, Some err)
    | None =>
        match toPrinter cl with
        | Some err => (o, Some err)
        | None =>
            let o := appendTarget o target args in
            match toRESTConfig cl with
            | Some err => (o, Some err)
            | None =>
                match newForConfig cl with
                | Some err => (o, Some err)
                | None =>
                    let o := setBindingNamespace o (kubeconfigNamespace cl).1 in
                    match (kubeconfigNamespace cl).2 with
                    | Some err => (o, Some err)
                    | None => (o, None)
                    end
                end
            end
        end
    end.

Definition Validate (o : RemoveFromProjectOptions) : option error := None.

Section Commands.
Context {C : Type} `{!RoleBindingInterface C} `{!ResourcePrinter}
        `{!SubjectHelpers}.

(** [kcmdutil.CheckErr] on a non-nil error ends the command. *)
Definition raise {A} (err : error) : @Eff C A := λ c, (c, [], inl err).

(** The [Run] closure of the cobra command: [Complete], [Validate], [Run],
    each under [kcmdutil.CheckErr]. *)
Definition command (target : Target) (targetName : string)
    (cl : CommandLine) (args : list string) : @Eff C unit :=
  let o := NewRemoveFromProjectOptions in
  match Complete cl o args target targetName with
  | (_, Some err) => raise err
  | (o, None) =>
      match Validate o with
      | Some err => raise err
      | None => Run o
      end
  end.

(** [NewCmdRemoveGroupFromProject] and [NewCmdRemoveUserFromProject]. *)
Definition RemoveGroupFromProject
  : CommandLine → list string → @Eff C unit :=
  command GroupsTarget "group".
Definition RemoveUserFromProject
  : CommandLine → list string → @Eff C unit :=
  command UsersTarget "user".
End Commands.

(** A command line on which every collaborator of [Complete] succeeds. *)
Definition plainCommandLine (d : DryRunStrategy) (output : string)
  : CommandLine :=
  {| outputFlag := output; dryRunFlag := (d, None); toPrinter := None;
     toRESTConfig := None; newForConfig := None;
     kubeconfigNamespace := ("demo", None) |}.

(** A client over [Fake.t] that can answer its first listing in reverse
    order, to compare runs on differently ordered listings. *)
Module Mirror.
Record t : Type := mk { inner : Fake.t; reversed : bool }.

Definition lift {A} (r : Fake.t * A) (c : t) : t * A :=
  ({| inner := r.1; reversed := reversed c |}, r.2).

Definition List (ns : string) (c : t) : t * (error + list RoleBinding.t) :=
  match Fake.List ns (inner c) with
  | (c', r) =>
      ({| inner := c'; reversed := false |},
       if reversed c
       then match r with inl e => inl e | inr l => inr (reverse l) end
       else r)
  end.

Global Instance client : RoleBindingInterface t :=
  {| client_List := List;
     client_Update := λ ns b c, lift (Fake.Update ns b (inner c)) c;
     client_Delete := λ ns name c, lift (Fake.Delete ns name (inner c)) c |}.
End Mirror.

(** * The tools command ([pkg/cli/tools])

    [ToolsOptions] and [ToolsClient].  The operating system, the network,
    the JSON decoder and the path and URL libraries are collaborators; what
    the command does to files, to the network and to its table writer is
    recorded as a trace of effects.  Closing a response body or a file is
    not recorded. *)

Module tools.

Definition apiSubdomain : string := "api.".
Definition appsSubdomain : string := "apps.".
Definition controllerRoute : string := "api-openshift-cli-manager.".
Definition controllerPingKey : string := "name".
Definition controllerPingVal : string := "openshift-cli-manager".

Definition tab : string := String (Ascii.ascii_of_nat 9) "".

(** [strings.HasPrefix], [strings.TrimPrefix], [strings.HasSuffix] and
    [strings.TrimSuffix], on byte strings. *)
Definition HasPrefix (s prefix : string) : bool :=
  bool_decide (String.length prefix ≤ String.length s)
  && String.eqb (String.substring 0 (String.length prefix) s) prefix.

Definition TrimPrefix (s prefix : string) : string :=
  if HasPrefix s prefix
  then String.substring (String.length prefix)
         (String.length s - String.length prefix) s
  else s.

Definition HasSuffix (s suffix : string) : bool :=
  bool_decide (String.length suffix ≤ String.length s)
  && String.eqb
       (String.substring (String.length s - String.length suffix)
          (String.length suffix) s)
       suffix.

Definition TrimSuffix (s suffix : string) : string :=
  if HasSuffix s suffix
  then String.substring 0 (String.length s - String.length suffix) s
  else s.

Module CLIToolBinary.
Record t : Type := mk
  { OS : string; Architecture : string; Image : string;
    ImagePullSecret : string; Path : string }.
End CLIToolBinary.

Module CLIToolSpec.
Record t : Type := mk
  { Description : string; Binaries : list CLIToolBinary.t }.
End CLIToolSpec.

Module CLITool.
Record t : Type := mk
  { Name : string; Namespace : string; Spec : CLIToolSpec.t }.
End CLITool.

Module CLIToolList.
Record t : Type := mk { Items : list CLITool.t }.
End CLIToolList.

(** The fields of [http.Response] that are read. *)
Record Response : Type := mkResponse
  { StatusCode : Z; ContentLength : Z; Body : string }.

(** [fs.DirEntry]: [Name()] and [IsDir()]. *)
Record DirEntry : Type := mkDirEntry
  { EntryName : string; EntryIsDir : bool }.

(** The platform and the libraries underneath the command.  [W] is the
    state of the machine and of the network. *)
Class Host (W : Type) : Type :=
  { GOOS : string;
    GOARCH : string;
    filepath_Join : string → string → string;
    filepath_Base : string → string;
    URL : Type;
    url_ParseRequestURI : string → error + URL;
    url_Hostname : URL → string;
    url_SetHost : URL → string → URL;
    url_String : URL → string;
    http_NewRequest : string → option error;
    rt_RoundTrip : string → W → W * (error + Response);
    json_DecodeList : string → error + CLIToolList.t;
    json_DecodeError : string → error + string;
    json_DecodeMap : string → error + gmap string string;
    fmt_Errorf : string → error;
    os_UserHomeDir : W → W * (error + string);
    os_Stat : string → W → W * option error;
    os_IsNotExist : error → bool;
    os_MkdirAll : string → W → W * option error;
    os_ReadDir : string → W → W * (error + list DirEntry);
    os_Remove : string → W → W * option error;
    os_OpenFile : string → W → W * option error;
    io_Copy : string → string → W → W * option error }.

(** [kcmdutil.Factory] and [rest.Config] as [NewToolsClient] uses them. *)
Record Factory : Type := mkFactory
  { ToRESTConfig : error + string;
    TransportConfig : option error;
    transport_New : option error }.

Inductive Effect : Type :=
  | HttpGet (url : string)
  | UserHomeDir
  | Stat (path : string)
  | MkdirAll (path : string)
  | ReadDir (path : string)
  | Remove (path : string)
  | OpenFile (path : string)
  | Copy (path body : string)
  | TabWrite (text : string)
  | TabFlush.

Record ToolsClient : Type := mkToolsClient
  { endpoint : string; configHost : string }.

Record ToolsOptions : Type := mkToolsOptions
  { Available : bool;
    Install : string;
    Remove_ : string;
    BinaryPath : string;
    Address : string;
    client : option ToolsClient }.

Definition setBinaryPath (o : ToolsOptions) (path : string) : ToolsOptions :=
  {| Available := Available o; Install := Install o; Remove_ := Remove_ o;
     BinaryPath := path; Address := Address o; client := client o |}.

Definition setClient (o : ToolsOptions) (c : option ToolsClient)
  : ToolsOptions :=
  {| Available := Available o; Install := Install o; Remove_ := Remove_ o;
     BinaryPath := BinaryPath o; Address := Address o; client := c |}.

Definition row (tool : CLITool.t) : string :=
  tab +:+ CLITool.Name tool +:+ tab
    +:+ CLIToolSpec.Description (CLITool.Spec tool) +:+ fmt.newline.

Definition header : string :=
  tab +:+ "NAME" +:+ tab +:+ "DESCRIPTION" +:+ fmt.newline.

Section Tools.
Context {W : Type} `{!Host W}.

Definition Act (A : Type) : Type := W → W * list Effect * (error + A).

Definition pure {A} (a : A) : Act A := λ w, (w, [], inr a).
Definition fail {A} (err : error) : Act A := λ w, (w, [], inl err).

Definition andThen {A B} (m : Act A) (k : A → Act B) : Act B :=
  λ w,
    match m w with
    | (w1, ev1, inl e) => (w1, ev1, inl e)
    | (w1, ev1, inr a) =>
        match k a w1 with (w2, ev2, r) => (w2, ev1 ++ ev2, r) end
    end.

Local Notation "x <~ m ;; k" := (andThen m (λ x, k))
  (at level 100, m at next level, right associativity).
Local Notation "m ;;; k" := (andThen m (λ _, k))
  (at level 100, right associativity).

(** An operation that can fail, with the effect it leaves. *)
Definition attempt (e : Effect) (op : W → W * option error) : Act unit :=
  λ w, match op w with (w', r) => (w', [e], ofError r) end.

(** An operation whose error is a value for the caller to look at. *)
Definition observe (e : Effect) (op : W → W * option error)
  : Act (option error) :=
  λ w, match op w with (w', r) => (w', [e], inr r) end.

Definition request {A} (e : Effect) (op : W → W * (error + A)) : Act A :=
  λ w, match op w with (w', r) => (w', [e], r) end.

Definition tabWrite (text : string) : Act unit :=
  λ w, (w, [TabWrite text], inr ()).
Definition tabFlush : Act unit := λ w, (w, [TabFlush], inr ()).

(** A nil [o.client] is dereferenced by [List] and [Download]; the panic
    is shown as an error. *)
Definition nilClient : error :=
  "runtime error: invalid memory address or nil pointer dereference".

Definition detectionFailedErr : error :=
  "unable to auto-detect openshift-cli-manager address, please set `--address` manually".

(** [fmt.Errorf("%v: %v", detectionFailedErr, err)] *)
Definition detectionFailed (err : error) : error :=
  detectionFailedErr +:+ ": " +:+ err.

Definition detectAddress (c : ToolsClient) : Act ToolsClient :=
  match url_ParseRequestURI (configHost c) with
  | inl err => fail (detectionFailed err)
  | inr apiURL =>
      let apiURL :=
        url_SetHost apiURL
          (controllerRoute +:+ appsSubdomain
             +:+ TrimPrefix (url_Hostname apiURL) apiSubdomain) in
      let c := {| endpoint := url_String apiURL;
                  configHost := configHost c |} in
      let target := endpoint c +:+ "/v1/" in
      match http_NewRequest target with
      | Some err => fail (detectionFailed err)
      | None =>
          λ w,
            match rt_RoundTrip target w with
            | (w', inl err) => (w', [HttpGet target], inl (detectionFailed err))
            | (w', inr resp) =>
                match json_DecodeMap (Body resp) with
                | inl err =>
                    (w', [HttpGet target], inl (detectionFailed err))
                | inr m =>
                    if decide (default "" (m !! controllerPingKey)
                               = controllerPingVal)
                    then (w', [HttpGet target], inr c)
                    else (w', [HttpGet target], inl detectionFailedErr)
                end
            end
      end
  end.

Definition NewToolsClient (f : Factory) (address : string)
  : Act ToolsClient :=
  match ToRESTConfig f with
  | inl err => fail err
  | inr host =>
      let c := {| endpoint := ""; configHost := host |} in
      match TransportConfig f with
      | Some err => fail err
      | None =>
          match transport_New f with
          | Some err => fail err
          | None =>
              if decide (String.length address = 0) then detectAddress c
              else pure {| endpoint := address; configHost := configHost c |}
          end
      end
  end.

Definition List (c : ToolsClient) : Act CLIToolList.t :=
  let target := endpoint c +:+ "/v1/tools/" in
  match http_NewRequest target with
  | Some err => fail err
  | None =>
      resp <~ request (HttpGet target) (rt_RoundTrip target) ;;
      match json_DecodeList (Body resp) with
      | inl err => fail err
      | inr list => pure list
      end
  end.

Definition downloadURL (c : ToolsClient) (tool : CLITool.t)
    (operatingSystem architecture : string) : string :=
  endpoint c +:+ "/v1/tools/download/?namespace=" +:+ CLITool.Namespace tool
    +:+ "&name=" +:+ CLITool.Name tool +:+ "&os=" +:+ operatingSystem
    +:+ "&arch=" +:+ architecture.

Definition Download (c : ToolsClient) (tool : CLITool.t)
    (operatingSystem architecture destination : string) : Act unit :=
  let target := downloadURL c tool operatingSystem architecture in
  match http_NewRequest target with
  | Some err => fail err
  | None =>
      resp <~ request (HttpGet target) (rt_RoundTrip target) ;;
      if decide (400 ≤ StatusCode resp)%Z then
        match json_DecodeError (Body resp) with
        | inl err => fail err
        | inr message => fail (fmt_Errorf message)
        end
      else if decide (ContentLength resp = 0)%Z then
        fail "binary was not found or could not be extracted"
      else
        λ w,
          match os_OpenFile destination w with
          | (w', Some err) =>
              (w', [OpenFile destination],
               inl ("could not open destination file for writing: " +:+ err))
          | (w', None) =>
              match io_Copy destination (Body resp) w' with
              | (w'', r) =>
                  (w'', [OpenFile destination; Copy destination (Body resp)],
                   ofError r)
              end
          end
  end.

Definition withClient {A} (o : ToolsOptions) (k : ToolsClient → Act A)
  : Act A :=
  match client o with
  | None => fail nilClient
  | Some c => k c
  end.

Definition Complete (f : Factory) (o : ToolsOptions) : Act ToolsOptions :=
  o <~ (if decide (String.length (BinaryPath o) = 0) then
          homeDir <~ request UserHomeDir os_UserHomeDir ;;
          let o := setBinaryPath o (filepath_Join homeDir "bin") in
          err <~ observe (Stat (BinaryPath o)) (os_Stat (BinaryPath o)) ;;
          if match err with Some e => os_IsNotExist e | None => false end
          then attempt (MkdirAll (BinaryPath o)) (os_MkdirAll (BinaryPath o))
               ;;; pure o
          else pure o
        else pure o) ;;
  attempt (Stat (BinaryPath o)) (os_Stat (BinaryPath o)) ;;;
  λ w,
    match NewToolsClient f (Address o) w with
    | (w', ev, inl err) => (w', ev, inl err)
    | (w', ev, inr c) => (w', ev, inr (setClient o (Some c)))
    end.

(** The inner loop of [available]: the first binary for this platform
    prints the tool and ends the loop. *)
Fixpoint availableRow (tool : CLITool.t) (binaries : list CLIToolBinary.t)
  : Act unit :=
  match binaries with
  | [] => pure ()
  | bin :: rest =>
      if decide (CLIToolBinary.Architecture bin = GOARCH
                 ∧ CLIToolBinary.OS bin = GOOS)
      then tabWrite (row tool)
      else availableRow tool rest
  end.

Fixpoint availableRows (items : list CLITool.t) : Act unit :=
  match items with
  | [] => pure ()
  | tool :: rest =>
      availableRow tool (CLIToolSpec.Binaries (CLITool.Spec tool)) ;;;
      availableRows rest
  end.

Definition available (o : ToolsOptions) : Act unit :=
  list <~ withClient o List ;;
  tabWrite header ;;;
  availableRows (CLIToolList.Items list) ;;;
  tabFlush.

(** [tools[tool.Name] = tool] for each listed tool, in order. *)
Definition toolsByName (items : list CLITool.t) : gmap string CLITool.t :=
  foldl (λ tools tool, <[CLITool.Name tool := tool]> tools) ∅ items.

Fixpoint installedRows (tools : gmap string CLITool.t)
    (files : list DirEntry) : Act unit :=
  match files with
  | [] => pure ()
  | file :: rest =>
      if EntryIsDir file then installedRows tools rest
      else
        let name := TrimSuffix (filepath_Base (EntryName file)) ".exe" in
        match tools !! name with
        | Some tool => tabWrite (row tool) ;;; installedRows tools rest
        | None => installedRows tools rest
        end
  end.

Definition installed (o : ToolsOptions) : Act unit :=
  list <~ withClient o List ;;
  let tools := toolsByName (CLIToolList.Items list) in
  files <~ request (ReadDir (BinaryPath o)) (os_ReadDir (BinaryPath o)) ;;
  tabWrite header ;;;
  installedRows tools files ;;;
  tabFlush.

Definition binaryPathFor (o : ToolsOptions) (name : string) : string :=
  let path := filepath_Join (BinaryPath o) name in
  if decide (GOOS = "windows") then path +:+ ".exe" else path.

Fixpoint installFrom (o : ToolsOptions) (name : string)
    (items : list CLITool.t) : Act unit :=
  match items with
  | [] => fail ("tool " +:+ name +:+ " not found")
  | tool :: rest =>
      if decide (CLITool.Name tool = name) then
        withClient o (λ c,
          Download c tool GOOS GOARCH (binaryPathFor o (CLITool.Name tool)))
      else installFrom o name rest
  end.

Definition install (o : ToolsOptions) : Act unit :=
  let name := Install o in
  list <~ withClient o List ;;
  installFrom o name (CLIToolList.Items list).

Definition remove (o : ToolsOptions) : Act unit :=
  let path := binaryPathFor o (Remove_ o) in
  attempt (Remove path) (os_Remove path).

Definition Run (o : ToolsOptions) : Act unit :=
  if decide (0 < String.length (Remove_ o)) then remove o
  else if decide (0 < String.length (Install o)) then install o
  else if Available o then available o
  else installed o.

(** The [Run] closure of [NewCmdTools] on the options the flags filled
    in: [Complete], then [Run], each under [kcmdutil.CheckErr]. *)
Definition command (f : Factory) (o : ToolsOptions) : Act unit :=
  o <~ Complete f o ;; Run o.

Definition isHttp (e : Effect) : bool :=
  match e with HttpGet _ => true | _ => false end.

Definition isFileWrite (e : Effect) : bool :=
  match e with
  | MkdirAll _ | Remove _ | OpenFile _ | Copy _ _ => true
  | _ => false
  end.

Definition tabWritten (tr : list Effect) : list string :=
  omap (λ e, match e with TabWrite s => Some s | _ => None end) tr.

(** A tool has a binary for this platform. *)
Definition supported (tool : CLITool.t) : Prop :=
  Exists (λ bin, CLIToolBinary.Architecture bin = GOARCH
                 ∧ CLIToolBinary.OS bin = GOOS)
    (CLIToolSpec.Binaries (CLITool.Spec tool)).

Global Instance supported_dec tool : Decision (supported tool).
Proof. unfold supported. apply _. Defined.

(** The tool a file of the binary directory stands for: none for a
    directory, otherwise the last listed tool named like the file without
    its ".exe" suffix. *)
Definition toolOfFile (items : list CLITool.t) (file : DirEntry)
  : option CLITool.t :=
  if EntryIsDir file then None
  else
    last (filter
            (λ tool, CLITool.Name tool
                     = TrimSuffix (filepath_Base (EntryName file)) ".exe")
            items).

Definition effectsOf {A} (r : W * list Effect * (error + A)) : list Effect :=
  r.1.2.
End Tools.
End tools.

(** ** A machine and a tool service in memory, for concrete runs *)

Module Machine.
Record t : Type := mk
  { home : error + string;
    present : list string;
    entries : list tools.DirEntry;
    online : bool;
    status : Z;
    removed : list string;
    saved : list (string * string) }.

Definition notExist : error := "no such file or directory".

Definition kubectl : tools.CLITool.t :=
  tools.CLITool.mk "kubectl" "tools"
    (tools.CLIToolSpec.mk "Kubernetes command line"
       [tools.CLIToolBinary.mk "darwin" "arm64" "img" "" "/mac/kubectl";
        tools.CLIToolBinary.mk "linux" "amd64" "img" "" "/usr/bin/kubectl";
        tools.CLIToolBinary.mk "linux" "amd64" "img2" "" "/bin/kubectl"]).

Definition helm : tools.CLITool.t :=
  tools.CLITool.mk "helm" "tools"
    (tools.CLIToolSpec.mk "Package manager"
       [tools.CLIToolBinary.mk "windows" "amd64" "img" "" "/helm.exe"]).

Definition odo : tools.CLITool.t :=
  tools.CLITool.mk "odo" "tools"
    (tools.CLIToolSpec.mk "Developer CLI"
       [tools.CLIToolBinary.mk "linux" "amd64" "img" "" "/odo"]).

(** A second entry under the name of [odo]. *)
Definition odo2 : tools.CLITool.t :=
  tools.CLITool.mk "odo" "extra"
    (tools.CLIToolSpec.mk "Developer CLI, rebuilt"
       [tools.CLIToolBinary.mk "linux" "amd64" "img" "" "/odo2"]).

Definition catalogue : tools.CLIToolList.t :=
  tools.CLIToolList.mk [kubectl; helm; odo; odo2].

Definition answer (target : string) (w : t) : tools.Response :=
  {| tools.StatusCode := status w;
     tools.ContentLength := 6;
     tools.Body :=
       if tools.HasSuffix target "/v1/tools/" then "LIST"
       else if tools.HasSuffix target "/v1/" then "PING"
       else "BINARY" |}.

Definition withPresent (w : t) (paths : list string) : t :=
  {| home := home w; present := paths; entries := entries w;
     online := online w; status := status w; removed := removed w;
     saved := saved w |}.

(** The part of a string before the first [c], and the part from it on. *)
Fixpoint before (c : Ascii.ascii) (s : string) : string :=
  match s with
  | EmptyString => ""
  | String x rest => if decide (x = c) then "" else String x (before c rest)
  end.

Fixpoint from (c : Ascii.ascii) (s : string) : string :=
  match s with
  | EmptyString => ""
  | String x rest => if decide (x = c) then s else from c rest
  end.

Definition quote : string := String (Ascii.ascii_of_nat 34) "".

(** URLs of the shape scheme://host[:port][/path], or a rooted path, kept
    as their text. *)
Definition schemeOf (u : string) : string :=
  let scheme := before ":"%char u in
  if tools.HasPrefix (from ":"%char u) "://" && bool_decide (from "/"%char scheme = "")
  then scheme else "".

Definition afterScheme (u : string) : string :=
  if decide (schemeOf u = "") then u
  else tools.TrimPrefix (from ":"%char u) "://".

Definition hostport (u : string) : string :=
  if decide (schemeOf u = "") then "" else before "/"%char (afterScheme u).

Definition pathOf (u : string) : string :=
  if decide (schemeOf u = "") then u else from "/"%char (afterScheme u).

Definition ParseRequestURI (s : string) : error + string :=
  if decide (s = "") then
    inl ("parse " +:+ quote +:+ quote +:+ ": empty url")
  else if tools.HasPrefix s "/" || negb (bool_decide (schemeOf s = ""))
  then inr s
  else inl ("parse " +:+ quote +:+ s +:+ quote
              +:+ ": invalid URI for request").

(** [URL.Hostname]: the host without its port, and without the brackets
    of an IPv6 literal. *)
Definition Hostname (u : string) : string :=
  let hp := hostport u in
  if decide (from ":"%char hp = "") then hp
  else if decide (from "]"%char hp = "") then before ":"%char hp
  else tools.TrimPrefix (before "]"%char hp) "[".

Definition SetHost (u h : string) : string :=
  (if decide (schemeOf u = "") then "" else schemeOf u +:+ ":")
    +:+ "//" +:+ h +:+ pathOf u.

(** [filepath.Join] of two elements without dots or doubled separators,
    and [filepath.Base]. *)
Definition Join (a b : string) : string :=
  if decide (a = "") then b
  else if decide (b = "") then a
  else tools.TrimSuffix a "/" +:+ "/" +:+ b.

Fixpoint lastElement (current : string) (s : string) : string :=
  match s with
  | EmptyString => current
  | String x rest =>
      if decide (x = "/"%char) then
        lastElement (if decide (rest = "") then current else "") rest
      else lastElement (current +:+ String x "") rest
  end.

Fixpoint trimSlashes (s : string) : string :=
  match s with
  | EmptyString => ""
  | String x rest =>
      let rest' := trimSlashes rest in
      if bool_decide (x = "/"%char) && bool_decide (rest' = "") then ""
      else String x rest'
  end.

Definition Base (path : string) : string :=
  if decide (path = "") then "."
  else if decide (trimSlashes path = "") then "/"
  else lastElement "" (trimSlashes path).

(** [os.ReadDir] returns the entries sorted by file name. *)
Definition entryOrder (a b : tools.DirEntry) : Prop :=
  string_le (tools.EntryName a) (tools.EntryName b).

Global Instance entryOrder_dec a b : Decision (entryOrder a b).
Proof. unfold entryOrder. apply _. Defined.

Definition pathError (op path : string) : error :=
  op +:+ " " +:+ path +:+ ": " +:+ notExist.

Global Instance host : tools.Host t :=
  {| tools.GOOS := "linux";
     tools.GOARCH := "amd64";
     tools.filepath_Join := Join;
     tools.filepath_Base := Base;
     tools.URL := string;
     tools.url_ParseRequestURI := ParseRequestURI;
     tools.url_Hostname := Hostname;
     tools.url_SetHost := SetHost;
     tools.url_String := λ u, u;
     tools.http_NewRequest := λ _, None;
     tools.rt_RoundTrip :=
       λ target w,
         (w, if online w then inr (answer target w)
             else inl "connection refused");
     tools.json_DecodeList :=
       λ body, if decide (body = "LIST") then inr catalogue
               else inl "invalid character";
     tools.json_DecodeError := λ _, inr "tool is not available";
     tools.json_DecodeMap :=
       λ body, if decide (body = "PING")
               then inr {[ "name" := "openshift-cli-manager" ]}
               else inl "invalid character";
     tools.fmt_Errorf := λ message, message;
     tools.os_UserHomeDir := λ w, (w, home w);
     tools.os_Stat :=
       λ path w, (w, if decide (path ∈ present w) then None
                     else Some (pathError "stat" path));
     tools.os_IsNotExist := λ err, tools.HasSuffix err notExist;
     tools.os_MkdirAll := λ path w, (withPresent w (path :: present w), None);
     tools.os_ReadDir :=
       λ path w, (w, if decide (path ∈ present w)
                     then inr (merge_sort entryOrder (entries w))
                     else inl (pathError "open" path));
     tools.os_Remove :=
       λ path w,
         ({| home := home w; present := present w; entries := entries w;
             online := online w; status := status w;
             removed := path :: removed w; saved := saved w |}, None);
     tools.os_OpenFile := λ path w, (w, None);
     tools.io_Copy :=
       λ path body w,
         ({| home := home w; present := present w; entries := entries w;
             online := online w; status := status w; removed := removed w;
             saved := (path, body) :: saved w |}, None) |}.

(** A fresh machine: a home directory without bin, the service up. *)
Definition fresh : t :=
  {| home := inr "/home/dev"; present := ["/home/dev"]; entries := [];
     online := true; status := 200; removed := []; saved := [] |}.

(** A machine with an /opt/bin holding two binaries, a directory and an
    unrelated file. *)
Definition used : t :=
  {| home := inr "/home/dev"; present := ["/home/dev"; "/opt/bin"];
     entries :=
       [tools.mkDirEntry "odo.exe" false; tools.mkDirEntry "helm" true;
        tools.mkDirEntry "notes.txt" false;
        tools.mkDirEntry "kubectl" false];
     online := true; status := 200; removed := []; saved := [] |}.

(** The same machine when the service answers with an error status. *)
Definition refused : t :=
  {| home := inr "/home/dev"; present := ["/home/dev"; "/opt/bin"];
     entries := []; online := true; status := 404; removed := [];
     saved := [] |}.

Definition service : tools.ToolsClient :=
  tools.mkToolsClient "https://tools.example.com"
    "https://api.example.com:6443".

Definition options (available : bool) (install remove : string)
  : tools.ToolsOptions :=
  tools.mkToolsOptions available install remove "/opt/bin" "" (Some service).

Definition factory : tools.Factory :=
  tools.mkFactory (inr "https://api.example.com:6443") None None.
End Machine.

(** ** The later [ToolsClient] ([handleResponseError], [ListOptions], ...)

    The list and info types it decodes into are declared elsewhere; they
    are parameters here, with the decoder, [url.QueryEscape] and
    [fmt.Sprintf] on a one-operand format. *)

Module revised.
Class Codec (L I : Type) : Type :=
  { url_QueryEscape : string → string;
    fmt_Sprintf1 : string → string → string;
    json_DecodeHTTPList : string → error + L;
    json_DecodeHTTPInfo : string → error + I }.

Record ListOptions : Type := mkListOptions { Platform : string }.
Record DownloadOptions : Type := mkDownloadOptions { Version : string }.

Section Revised.
Context {W L I : Type} `{!tools.Host W} `{!Codec L I}.

(** [handleResponseError] reads the body only for a status of 400 or
    more. *)
Definition handleResponseError (resp : tools.Response) : option error :=
  if decide (400 ≤ tools.StatusCode resp)%Z then
    match tools.json_DecodeError (tools.Body resp) with
    | inl err => Some err
    | inr message => Some (tools.fmt_Errorf message)
    end
  else None.

(** The common shape of [List] and [InfoFromDigest]: request, status
    check, decoding. *)
Definition fetch {A} (target : string) (decode : string → error + A)
  : tools.Act A :=
  match tools.http_NewRequest target with
  | Some err => tools.fail err
  | None =>
      tools.andThen
        (tools.request (tools.HttpGet target) (tools.rt_RoundTrip target))
        (λ resp,
           match handleResponseError resp with
           | Some err => tools.fail err
           | None =>
               match decode (tools.Body resp) with
               | inl err => tools.fail err
               | inr a => tools.pure a
               end
           end)
  end.

Definition List (c : tools.ToolsClient) (opts : option ListOptions)
  : tools.Act L :=
  let opts := default {| Platform := "" |} opts in
  fetch
    (fmt_Sprintf1
       ("%s/v1/tools/?platform=" +:+ url_QueryEscape (Platform opts))
       (tools.endpoint c))
    json_DecodeHTTPList.

Definition InfoFromDigest (c : tools.ToolsClient) (digest : string)
  : tools.Act I :=
  fetch (tools.endpoint c +:+ "/v1/tools/info/?digest=" +:+ digest)
    json_DecodeHTTPInfo.

Definition downloadURL (c : tools.ToolsClient)
    (namespace name platform version : string) : string :=
  tools.endpoint c +:+ "/v1/tools/download/?namespace="
    +:+ url_QueryEscape namespace +:+ "&name=" +:+ url_QueryEscape name
    +:+ "&platform=" +:+ url_QueryEscape platform +:+ "&version="
    +:+ url_QueryEscape version.

Definition Download (c : tools.ToolsClient)
    (namespace name platform destination : string)
    (opts : option DownloadOptions) : tools.Act unit :=
  let opts := default {| Version := "" |} opts in
  let target := downloadURL c namespace name platform (Version opts) in
  match tools.http_NewRequest target with
  | Some err => tools.fail err
  | None =>
      tools.andThen
        (tools.request (tools.HttpGet target) (tools.rt_RoundTrip target))
        (λ resp,
           match handleResponseError resp with
           | Some err => tools.fail err
           | None =>
               if decide (tools.ContentLength resp = 0)%Z then
                 tools.fail "binary was not found or could not be extracted"
               else
                 λ w,
                   match tools.os_OpenFile destination w with
                   | (w', Some err) =>
                       (w', [tools.OpenFile destination],
                        inl ("could not open destination file for writing: "
                               +:+ err))
                   | (w', None) =>
                       match tools.io_Copy destination (tools.Body resp) w'
                       with
                       | (w'', r) =>
                           (w'',
                            [tools.OpenFile destination;
                             tools.Copy destination (tools.Body resp)],
                            ofError r)
                       end
                   end
           end)
  end.
End Revised.

(** [url.QueryEscape]: letters, digits and [-_.~] stay, a space becomes
    [+], every other byte becomes [%] and two upper-case hexadecimal
    digits. *)
Definition hexDigit (n : nat) : Ascii.ascii :=
  default "0"%char (String.get n "0123456789ABCDEF").

Definition unreserved (c : Ascii.ascii) : bool :=
  let n := Ascii.nat_of_ascii c in
  bool_decide (48 ≤ n ≤ 57) || bool_decide (65 ≤ n ≤ 90)
  || bool_decide (97 ≤ n ≤ 122)
  || bool_decide (c = "-"%char) || bool_decide (c = "_"%char)
  || bool_decide (c = "."%char) || bool_decide (c = "~"%char).

Fixpoint QueryEscape (s : string) : string :=
  match s with
  | EmptyString => ""
  | String c rest =>
      if unreserved c then String c (QueryEscape rest)
      else if decide (c = " "%char) then String "+" (QueryEscape rest)
      else
        let n := Ascii.nat_of_ascii c in
        String "%"
          (String (hexDigit (n / 16))
             (String (hexDigit (n mod 16)) (QueryEscape rest)))
  end.

(** [fmt.Sprintf] with one string operand, widths and precisions read but
    not applied: the first verb takes the operand, a later one finds none
    and is printed as missing. *)
Definition isFlag (c : Ascii.ascii) : bool :=
  let n := Ascii.nat_of_ascii c in
  bool_decide (48 ≤ n ≤ 57) || bool_decide (c = "+"%char)
  || bool_decide (c = "-"%char) || bool_decide (c = "#"%char)
  || bool_decide (c = " "%char) || bool_decide (c = "."%char).

Fixpoint sprintf (inVerb : bool) (operand : option string) (format : string)
  : string :=
  match format with
  | EmptyString =>
      (if inVerb then "%!(NOVERB)" else "")
        +:+ match operand with
            | Some s => "%!(EXTRA string=" +:+ s +:+ ")"
            | None => ""
            end
  | String c rest =>
      if inVerb then
        if isFlag c then sprintf true operand rest
        else if decide (c = "%"%char) then
          String "%" (sprintf false operand rest)
        else
          match operand with
          | Some s =>
              (if decide (c = "s"%char ∨ c = "v"%char) then s
               else "%!" +:+ String c "" +:+ "(string=" +:+ s +:+ ")")
                +:+ sprintf false None rest
          | None =>
              "%!" +:+ String c "" +:+ "(MISSING)"
                +:+ sprintf false None rest
          end
      else if decide (c = "%"%char) then sprintf true operand rest
      else String c (sprintf false operand rest)
  end.

(** A codec for concrete runs: lists and infos are their raw bodies. *)
Global Instance rawCodec : Codec string string :=
  {| url_QueryEscape := QueryEscape;
     fmt_Sprintf1 := λ format operand, sprintf false (Some operand) format;
     json_DecodeHTTPList := λ body, inr body;
     json_DecodeHTTPInfo := λ body, inr body |}.
End revised.

(** * Properties *)

(** Instantiate a proved statement at concrete data, evaluate both it and
    the goal, and use it. *)
Ltac by_computing H :=
  let H' := fresh "H" in
  pose proof H as H'; vm_compute in H'; vm_compute; apply H'.

(** ** Go string order *)

Lemma string_lt_compare a b : string_lt a b ↔ String.compare a b = Lt.
Proof.
  unfold string_lt, String.ltb. destruct (String.compare a b); naive_solver.
Qed.

Lemma string_lt_irrefl a : ¬ string_lt a a.
Proof.
  rewrite string_lt_compare.
  assert (String.compare a a = Eq) as ->; [|done].
  by apply OrderedTypeEx.String_as_OT.cmp_eq.
Qed.

Lemma string_lt_trans a b c : string_lt a b → string_lt b c → string_lt a c.
Proof.
  rewrite !string_lt_compare.
  change String.compare with OrderedTypeEx.String_as_OT.cmp.
  rewrite !OrderedTypeEx.String_as_OT.cmp_lt.
  apply OrderedTypeEx.String_as_OT.lt_trans.
Qed.

Lemma string_lt_trichotomy a b : string_lt a b ∨ a = b ∨ string_lt b a.
Proof.
  rewrite !string_lt_compare.
  destruct (String.compare a b) eqn:E; [right; left | left | right; right].
  - by apply OrderedTypeEx.String_as_OT.cmp_eq.
  - done.
  - rewrite OrderedTypeEx.String_as_OT.cmp_antisym.
    unfold OrderedTypeEx.String_as_OT.cmp. by rewrite E.
Qed.

Lemma string_ltb_false a b : String.ltb a b = false ↔ ¬ string_lt a b.
Proof. unfold string_lt. destruct (String.ltb a b); naive_solver. Qed.

(** ** The processing order *)

Lemma inOrder_descending a b :
  inOrder (sort_Reverse roleBindingSorter.Less) a b
  ↔ ¬ string_lt (RoleBinding.Name a) (RoleBinding.Name b).
Proof.
  unfold inOrder, sort_Reverse, roleBindingSorter.Less.
  apply string_ltb_false.
Qed.

Lemma inOrder_total :
  Total (inOrder (sort_Reverse roleBindingSorter.Less)).
Proof.
  intros a b. rewrite !inOrder_descending.
  destruct (string_lt_trichotomy (RoleBinding.Name a) (RoleBinding.Name b))
    as [H | [H | H]].
  - right. intros H'. eapply string_lt_irrefl, string_lt_trans; eauto.
  - left. rewrite H. apply string_lt_irrefl.
  - left. intros H'. eapply string_lt_irrefl, string_lt_trans; eauto.
Qed.

Lemma inOrder_trans :
  Transitive (inOrder (sort_Reverse roleBindingSorter.Less)).
Proof.
  intros a b c. rewrite !inOrder_descending. intros Hab Hbc Hac.
  destruct (string_lt_trichotomy (RoleBinding.Name a) (RoleBinding.Name b))
    as [H | [H | H]]; [done | |].
  - rewrite H in Hac. done.
  - apply Hbc. eapply string_lt_trans; eauto.
Qed.

Lemma sortedItems_perm items : sortedItems items ≡ₚ items.
Proof. apply merge_sort_Permutation. Qed.

Lemma sortedItems_inOrder items :
  StronglySorted (inOrder (sort_Reverse roleBindingSorter.Less))
    (sortedItems items).
Proof.
  pose proof inOrder_total. pose proof inOrder_trans.
  apply (StronglySorted_merge_sort _).
Qed.

Lemma nameAbove_asym a b : nameAbove a b → nameAbove b a → a = b.
Proof.
  unfold nameAbove. intros H1 H2.
  destruct (string_lt_irrefl (RoleBinding.Name a)).
  eapply string_lt_trans; eauto.
Qed.

Lemma inOrder_strict (l : list RoleBinding.t) :
  NoDup (map RoleBinding.Name l) →
  StronglySorted (inOrder (sort_Reverse roleBindingSorter.Less)) l →
  StronglySorted nameAbove l.
Proof.
  induction l as [|a l IH]; intros Hnd Hs; [constructor|].
  apply NoDup_cons in Hnd as [Hnotin Hnd].
  apply StronglySorted_inv in Hs as [Hs Hall].
  constructor; [by apply IH|].
  rewrite Forall_forall in Hall |- *. intros b Hb.
  specialize (Hall b Hb). apply inOrder_descending in Hall.
  destruct (string_lt_trichotomy (RoleBinding.Name a) (RoleBinding.Name b))
    as [H | [H | H]]; [done | | done].
  destruct Hnotin. rewrite H. apply list_elem_of_fmap. eauto.
Qed.

Lemma sortedItems_strict items :
  NoDup (map RoleBinding.Name items) →
  StronglySorted nameAbove (sortedItems items).
Proof.
  intros Hnd. apply inOrder_strict; [|apply sortedItems_inOrder].
  by rewrite sortedItems_perm.
Qed.

(** Any strictly descending arrangement of the listed bindings is the one
    the engine walks through, whatever the sorting algorithm. *)
Lemma descending_unique items l :
  l ≡ₚ items → StronglySorted nameAbove l →
  NoDup (map RoleBinding.Name items) → l = sortedItems items.
Proof.
  intros Hp Hs Hnd.
  apply (StronglySorted_unique_strong nameAbove); [|done| |].
  - intros. by apply nameAbove_asym.
  - by apply sortedItems_strict.
  - by rewrite Hp, sortedItems_perm.
Qed.


(** ** [subjectsStrings] by category *)

Lemma subjectsStrings_categories (l : list Subject.t) :
  subjectsStrings l
  = (map Subject.Name (filter (λ s, Subject.Kind s = rbacv1.UserKind) l),
     map Subject.Name (filter (λ s, Subject.Kind s = rbacv1.GroupKind) l),
     map (λ s, Subject.Namespace s +:+ "/" +:+ Subject.Name s)
       (filter (λ s, Subject.Kind s = rbacv1.ServiceAccountKind) l),
     map (λ s, Subject.Kind s +:+ "/" +:+ Subject.Namespace s +:+ "/"
                 +:+ Subject.Name s)
       (filter otherKind l)).
Proof.
  unfold subjectsStrings.
  enough (∀ u g s o,
    foldl
      (λ '(users, groups, sas, others) subject,
         if decide (Subject.Kind subject = rbacv1.ServiceAccountKind) then
           (users, groups,
            sas ++ [Subject.Namespace subject +:+ "/" +:+ Subject.Name subject],
            others)
         else if decide (Subject.Kind subject = rbacv1.UserKind) then
           (users ++ [Subject.Name subject], groups, sas, others)
         else if decide (Subject.Kind subject = rbacv1.GroupKind) then
           (users, groups ++ [Subject.Name subject], sas, others)
         else
           (users, groups, sas,
            others ++ [Subject.Kind subject +:+ "/" +:+ Subject.Namespace subject
                         +:+ "/" +:+ Subject.Name subject]))
      (u, g, s, o) l
    = (u ++ map Subject.Name (filter (λ s, Subject.Kind s = rbacv1.UserKind) l),
       g ++ map Subject.Name (filter (λ s, Subject.Kind s = rbacv1.GroupKind) l),
       s ++ map (λ s, Subject.Namespace s +:+ "/" +:+ Subject.Name s)
              (filter (λ s, Subject.Kind s = rbacv1.ServiceAccountKind) l),
       o ++ map (λ s, Subject.Kind s +:+ "/" +:+ Subject.Namespace s +:+ "/"
                        +:+ Subject.Name s)
              (filter otherKind l))) as Hgen by apply (Hgen [] [] [] []).
  induction l as [|a l IH]; intros u g s o; simpl.
  { by rewrite !app_nil_r. }
  rewrite !filter_cons.
  repeat case_decide; rewrite IH; simpl; rewrite <- ?app_assoc; try done;
    unfold otherKind, rbacv1.ServiceAccountKind, rbacv1.UserKind,
      rbacv1.GroupKind in *;
    exfalso; intuition congruence.
Qed.

Lemma elem_of_usersOf (l : list Subject.t) u :
  u ∈ usersOf l
  ↔ ∃ s, s ∈ l ∧ Subject.Kind s = rbacv1.UserKind ∧ Subject.Name s = u.
Proof.
  unfold usersOf, sets.NewString. rewrite subjectsStrings_categories. simpl.
  rewrite elem_of_list_to_set, list_elem_of_fmap. split.
  - intros (s & -> & Hs). apply list_elem_of_filter in Hs as [Hk Hs]. eauto.
  - intros (s & Hs & Hk & <-). exists s. split; [done|].
    by apply list_elem_of_filter.
Qed.


(** ** The subject set remover *)

Lemma targets_requested users groups s :
  existsb (λ toRemove, SpecModel.targets toRemove s)
    (SpecModel.BuildRBACSubjects users groups) = true
  ↔ requested users groups s.
Proof.
  rewrite existsb_exists. unfold SpecModel.BuildRBACSubjects, requested.
  split.
  - intros (r & Hin & Ht). apply andb_true_iff in Ht as [Hk Hn].
    apply bool_decide_eq_true in Hk, Hn.
    apply in_app_or in Hin as [Hin|Hin];
      apply in_map_iff in Hin as (x & <- & Hx); simpl in *;
      apply list_elem_of_In in Hx; rewrite Hk, Hn; auto.
  - intros [[Hk Hn]|[Hk Hn]]; apply list_elem_of_In in Hn.
    + exists (Subject.mk rbacv1.UserKind "" (Subject.Name s) "").
      split; [apply in_or_app; left; apply in_map_iff; eauto|].
      unfold SpecModel.targets. simpl.
      apply andb_true_iff; split; by apply bool_decide_eq_true.
    + exists (Subject.mk rbacv1.GroupKind "" (Subject.Name s) "").
      split; [apply in_or_app; right; apply in_map_iff; eauto|].
      unfold SpecModel.targets. simpl.
      apply andb_true_iff; split; by apply bool_decide_eq_true.
Qed.

Lemma removeSubjects_filter subjects users groups :
  (SpecModel.removeSubjects subjects
     (SpecModel.BuildRBACSubjects users groups)).1
  = filter (λ s, ¬ requested users groups s) subjects.
Proof.
  induction subjects as [|s l IH]; [done|]. simpl.
  destruct (SpecModel.removeSubjects l _) as [kept found]. simpl in IH.
  rewrite filter_cons.
  destruct (existsb _ _) eqn:He.
  - apply targets_requested in He. rewrite decide_False by tauto. done.
  - rewrite decide_True; [by rewrite <- IH|].
    intros Hr. apply targets_requested in Hr. congruence.
Qed.

Lemma removeSubjects_count subjects users groups :
  (SpecModel.removeSubjects subjects
     (SpecModel.BuildRBACSubjects users groups)).2
  = length (filter (requested users groups) subjects).
Proof.
  induction subjects as [|s l IH]; [done|]. simpl.
  destruct (SpecModel.removeSubjects l _) as [kept found]. simpl in IH.
  rewrite filter_cons.
  destruct (existsb _ _) eqn:He.
  - apply targets_requested in He. rewrite decide_True by done.
    simpl. by rewrite IH.
  - rewrite decide_False; [done|].
    intros Hr. apply targets_requested in Hr. congruence.
Qed.

Lemma remaining_filter users groups b :
  remainingSubjects (SpecModel.BuildRBACSubjects users groups) b
  = filter (λ s, ¬ requested users groups s) (RoleBinding.Subjects b).
Proof. apply removeSubjects_filter. Qed.

Lemma hasDiff_requested users groups b :
  hasDiff (SpecModel.BuildRBACSubjects users groups) b
  ↔ ∃ s, s ∈ RoleBinding.Subjects b ∧ requested users groups s.
Proof.
  unfold hasDiff. rewrite remaining_filter. split.
  - intros Hlen.
    destruct (decide (Exists (requested users groups) (RoleBinding.Subjects b)))
      as [Hex|Hno]; [by apply Exists_exists in Hex|].
    destruct Hlen. f_equal.
    apply not_Exists_Forall in Hno; [|apply _].
    induction Hno as [|x l Hx Hl IH]; [done|].
    by rewrite filter_cons_True, IH.
  - intros (s & Hin & Hr) Hlen.
    assert (length (filter (λ s, ¬ requested users groups s)
                      (RoleBinding.Subjects b))
            < length (RoleBinding.Subjects b)) as Hlt; [|lia].
    apply (length_filter_lt _ _ s); [done | tauto].
Qed.

Lemma requested_notUserOrGroup users groups s :
  notUserOrGroup s → ¬ requested users groups s.
Proof. unfold notUserOrGroup, requested. tauto. Qed.

Lemma remaining_keeps_category users groups b (P : Subject.t → Prop)
    `{!∀ s, Decision (P s)} :
  (∀ s, P s → notUserOrGroup s) →
  filter P (remainingSubjects (SpecModel.BuildRBACSubjects users groups) b)
  = filter P (RoleBinding.Subjects b).
Proof.
  intros HP. rewrite remaining_filter. apply list_filter_filter_l.
  intros s Hs. by apply requested_notUserOrGroup, HP.
Qed.

Lemma sas_never_lost users groups b :
  lostBy sasOf (SpecModel.BuildRBACSubjects users groups) b = ∅.
Proof.
  unfold lostBy, sasOf, sets.Difference.
  rewrite !subjectsStrings_categories. simpl.
  rewrite remaining_keeps_category; [apply difference_diag_L|].
  unfold notUserOrGroup. intros s ->. done.
Qed.

Lemma others_never_lost users groups b :
  lostBy othersOf (SpecModel.BuildRBACSubjects users groups) b = ∅.
Proof.
  unfold lostBy, othersOf, sets.Difference.
  rewrite !subjectsStrings_categories. simpl.
  rewrite remaining_keeps_category; [apply difference_diag_L|].
  unfold otherKind, notUserOrGroup. tauto.
Qed.

(** C2: the subject set remover returns the original subjects minus every
    occurrence of a requested user or group, matched by kind and name
    whatever the namespace, with the survivors in their original order. *)
Theorem C2_subject_set_remover subjects users groups :
  let result :=
    (SpecModel.removeSubjects subjects
       (SpecModel.BuildRBACSubjects users groups)).1 in
  (∀ s, s ∈ result ↔ s ∈ subjects ∧ ¬ requested users groups s)
  ∧ (∀ s, requested users groups s → s ∉ result)
  ∧ (∀ s ns,
       requested users groups (Subject.setNamespace s ns)
       ↔ requested users groups s)
  ∧ sublist result subjects
  ∧ result = filter (λ s, ¬ requested users groups s) subjects.
Proof.
  intros result. subst result. rewrite removeSubjects_filter.
  split; [|split; [|split; [|split]]].
  - intros s. rewrite list_elem_of_filter. tauto.
  - intros s Hr Hin. by apply list_elem_of_filter in Hin as [? _].
  - intros s ns. done.
  - apply sublist_filter.
  - done.
Qed.

(** A binding that lists the same user twice keeps no occurrence of it. *)
Example remover_drops_duplicates :
  (SpecModel.removeSubjects
     [Fake.user "alice"; Fake.group "devs"; Fake.user "alice";
      Subject.setNamespace (Fake.user "alice") "elsewhere"; Fake.user "bob"]
     (SpecModel.BuildRBACSubjects ["alice"] [])).1
  = [Fake.group "devs"; Fake.user "bob"].
Proof. reflexivity. Qed.

(** ** One iteration of the loop *)

Section EngineFacts.
Context {C : Type} `{!RoleBindingInterface C} `{!ResourcePrinter}
        `{!SubjectHelpers}.

Implicit Types (o : RemoveFromProjectOptions) (c : C) (acc : Accum)
               (b : RoleBinding.t) (e : error).

Lemma output_empty o : ¬ 0 < String.length (Output o) ↔ Output o = "".
Proof. destruct (Output o); simpl; split; (done || lia). Qed.

Lemma sets_Insert_List (s diff : gset string) :
  sets.Insert s (sets.List diff) = s ∪ diff.
Proof.
  unfold sets.Insert, sets.List. f_equal.
  rewrite (list_to_set_perm_L _ (elements diff)).
  - apply list_to_set_elements_L.
  - apply merge_sort_Permutation.
Qed.

Lemma sets_Len_0 (s : gset string) : sets.Len s = 0 ↔ s = ∅.
Proof. unfold sets.Len. rewrite size_empty_iff. by unfold_leibniz. Qed.

Lemma reportRemoved_run o drt rdn cat (old new removed : gset string) c :
  reportRemoved o drt rdn cat old new removed c
  = (c,
     map Fprintf (categoryLines (BindingNamespace o) drt rdn cat
                    (sets.Difference old new)),
     inr (removed ∪ sets.Difference old new)).
Proof.
  unfold reportRemoved, categoryLines.
  destruct (decide (sets.Len (sets.Difference old new) ≠ 0)) as [Hne|He].
  - unfold bind, doFprintf, ret. simpl. by rewrite sets_Insert_List.
  - unfold ret. simpl. apply dec_stable in He. apply sets_Len_0 in He.
    rewrite He. by rewrite (right_id_L ∅ (∪)).
Qed.

Lemma subjectsStrings_split (l : list Subject.t) :
  subjectsStrings l
  = ((subjectsStrings l).1.1.1, (subjectsStrings l).1.1.2,
     (subjectsStrings l).1.2, (subjectsStrings l).2).
Proof. by destruct (subjectsStrings l) as [[[??]?]?]. Qed.

Lemma iteration_nodiff o drt str b acc c :
  ¬ hasDiff str b → iteration o drt str b acc c = (c, [], inr acc).
Proof.
  intros Hnd. unfold iteration.
  destruct (subjectsStrings (RoleBinding.Subjects b)) as [[[??]?]?].
  destruct (subjectsStrings _) as [[[??]?]?].
  apply dec_stable in Hnd. unfold hasDiff, remainingSubjects in Hnd.
  simpl. rewrite decide_True by done. done.
Qed.

Lemma iteration_output o drt str b acc c :
  hasDiff str b → 0 < String.length (Output o) →
  iteration o drt str b acc c = (c, [], inr (accCollect str b acc)).
Proof.
  intros Hd Hout. unfold iteration.
  rewrite (subjectsStrings_split (RoleBinding.Subjects b)).
  rewrite (subjectsStrings_split (RoleBinding.Subjects (RoleBinding.setSubjects _ _))).
  simpl. rewrite decide_False by exact Hd.
  rewrite decide_True by exact Hout. done.
Qed.

Lemma iteration_textual o str b acc c :
  hasDiff str b → Output o = "" →
  iteration o (dryRunTextOf o) str b acc c
  = if decide (DryRun o ≠ DryRunClient) then
      match dispatch (mutationFor (BindingNamespace o) str b) c with
      | (c', Some e) =>
          (c', [mutationFor (BindingNamespace o) str b], inl e)
      | (c', None) =>
          (c', bindingEvents o str b, inr (accAfter str b acc))
      end
    else (c, bindingEvents o str b, inr (accAfter str b acc)).
Proof.
  intros Hd Hout. apply output_empty in Hout. unfold iteration.
  rewrite (subjectsStrings_split (RoleBinding.Subjects b)).
  rewrite (subjectsStrings_split (RoleBinding.Subjects (RoleBinding.setSubjects _ _))).
  simpl. rewrite decide_False by exact Hd.
  rewrite decide_False by exact Hout.
  unfold bindingEvents, mutationFor, bindingLines.
  change (roleDisplayNameOf (RoleBinding.setSubjects b ?s))
    with (roleDisplayNameOf b).
  fold (remainingSubjects str b). fold (filteredBinding str b).
  set (rest := bind (reportRemoved _ _ _ "users" _ _ _) _).
  assert (Hrest : ∀ c0, rest c0
    = (c0, map Fprintf (bindingLines (BindingNamespace o) (dryRunTextOf o) str b),
       inr (accAfter str b acc))).
  { intros c0. subst rest. unfold bind. rewrite !reportRemoved_run.
    unfold ret, bindingLines, accAfter, lostBy, usersOf, groupsOf, sasOf,
      othersOf. simpl. rewrite !map_app, !app_nil_r. done. }
  clearbody rest.
  destruct (decide (DryRun o ≠ DryRunClient)) as [Hlive|Hdry].
  - destruct (decide (0 < length (remainingSubjects str b))); simpl;
      unfold bind, doUpdate, doDelete;
      [destruct (client_Update _ _ c) as [c' [e|]]
      |destruct (client_Delete _ _ c) as [c' [e|]]]; simpl; try done;
      by rewrite Hrest.
  - unfold bind, ret. by rewrite Hrest.
Qed.

(** ** The loop and the whole run *)

Lemma bind_assoc {A B D} (m : Eff A) (k : A → Eff B) (k' : B → Eff D) c :
  bind (bind m k) k' c = bind m (λ a, bind (k a) k') c.
Proof.
  unfold bind. destruct (m c) as [[c1 ev1] [e|a]]; [done|].
  destruct (k a c1) as [[c2 ev2] [e|x]]; [done|].
  destruct (k' x c2) as [[c3 ev3] r]. by rewrite app_assoc.
Qed.

Lemma bind_ext {A B} (m : Eff A) (k k' : A → Eff B) c :
  (∀ a c1, k a c1 = k' a c1) → bind m k c = bind m k' c.
Proof.
  intros Hk. unfold bind. destruct (m c) as [[c1 ev1] [e|a]]; [done|].
  by rewrite Hk.
Qed.

Lemma loop_app o drt str l1 l2 acc c :
  loop o drt str (l1 ++ l2) acc c
  = bind (loop o drt str l1 acc) (λ acc', loop o drt str l2 acc') c.
Proof.
  revert acc c. induction l1 as [|b l1 IH]; intros acc c; simpl.
  - unfold bind, ret.
    destruct (loop o drt str l2 acc c) as [[c2 ev2] r]. reflexivity.
  - rewrite bind_assoc. apply bind_ext. intros acc1 c1. apply IH.
Qed.

Lemma loop_output o drt str items acc c :
  0 < String.length (Output o) →
  loop o drt str items acc c = (c, [], inr (accOutput str items acc)).
Proof.
  intros Hout. revert acc. unfold accOutput.
  induction items as [|b items IH]; intros acc; simpl; [done|].
  unfold bind. rewrite filter_cons.
  destruct (decide (hasDiff str b)) as [Hd|Hd].
  - rewrite iteration_output by done. by rewrite IH.
  - rewrite iteration_nodiff by done. by rewrite IH.
Qed.

Lemma loop_dry o str items acc c :
  Output o = "" → DryRun o = DryRunClient →
  loop o (dryRunTextOf o) str items acc c
  = (c, flat_map (bindingEvents o str) (filter (hasDiff str) items),
     inr (accTextual str items acc)).
Proof.
  intros Hout Hdry. revert acc. unfold accTextual.
  induction items as [|b items IH]; intros acc; simpl; [done|].
  unfold bind. rewrite filter_cons.
  destruct (decide (hasDiff str b)) as [Hd|Hd].
  - rewrite iteration_textual by done.
    rewrite decide_False by (by intros []).
    by rewrite IH.
  - rewrite iteration_nodiff by done. by rewrite IH.
Qed.

(** A loop that ends without error has gone through every binding with a
    diff, in order. *)
Lemma loop_textual_ok o str items acc c c' tr acc' :
  Output o = "" →
  loop o (dryRunTextOf o) str items acc c = (c', tr, inr acc') →
  tr = flat_map (bindingEvents o str) (filter (hasDiff str) items)
  ∧ acc' = accTextual str items acc.
Proof.
  intros Hout. revert acc c tr. unfold accTextual.
  induction items as [|b items IH]; intros acc c tr; simpl.
  - unfold ret. by intros [= <- <- <-].
  - unfold bind. rewrite filter_cons.
    destruct (decide (hasDiff str b)) as [Hd|Hd].
    + rewrite iteration_textual by done.
      destruct (decide (DryRun o ≠ DryRunClient)).
      * destruct (dispatch _ c) as [c1 [e|]]; [done|].
        destruct (loop _ _ _ items _ c1) as [[c2 ev2] r] eqn:Hl.
        intros [= <- <- ->]. apply IH in Hl as [-> ->]. done.
      * destruct (loop _ _ _ items _ c) as [[c2 ev2] r] eqn:Hl.
        intros [= <- <- ->]. apply IH in Hl as [-> ->]. done.
    + rewrite iteration_nodiff by done.
      destruct (loop _ _ _ items _ c) as [[c2 ev2] r] eqn:Hl.
      intros [= <- <- ->]. apply IH in Hl as [-> ->]. done.
Qed.

Lemma reportNotBound_run o drt cat requested removed c :
  reportNotBound o drt cat requested removed c
  = (c, map Fprintf
          (notBoundLines (BindingNamespace o) drt cat requested removed),
     inr ()).
Proof.
  unfold reportNotBound, notBoundLines.
  by destruct (decide (sets.Len _ ≠ 0)).
Qed.

Lemma Run_list_error o c c0 e :
  client_List (BindingNamespace o) c = (c0, inl e) →
  Run o c = (c0, [CallList (BindingNamespace o)], inl e).
Proof. intros Hl. unfold Run, bind, doList. by rewrite Hl. Qed.

Lemma Run_listed o c c0 listed :
  client_List (BindingNamespace o) c = (c0, inr listed) →
  Run o c
  = match loop o (dryRunTextOf o) (BuildRBACSubjects (Users o) (Groups o))
            (sortedItems listed) initAccum c0 with
    | (c1, tr, inl e) => (c1, CallList (BindingNamespace o) :: tr, inl e)
    | (c1, tr, inr acc) =>
        if decide (0 < String.length (Output o)) then
          (c1,
           CallList (BindingNamespace o) :: tr
             ++ [CallPrintObj (updatedBindings acc)],
           ofError (PrintObj (updatedBindings acc)))
        else
          (c1,
           CallList (BindingNamespace o) :: tr
             ++ map Fprintf
                  (notBoundLines (BindingNamespace o) (dryRunTextOf o)
                     "Users" (Users o) (usersRemoved acc)
                   ++ notBoundLines (BindingNamespace o) (dryRunTextOf o)
                        "Groups" (Groups o) (groupsRemoved acc)),
           inr ())
    end.
Proof.
  intros Hl. unfold Run, bind at 1, doList. rewrite Hl. simpl.
  unfold bind at 1.
  destruct (loop _ _ _ _ _ c0) as [[c1 tr] [e|acc]]; [done|].
  destruct (decide (0 < String.length (Output o))).
  - unfold doPrintObj. done.
  - unfold bind. rewrite !reportNotBound_run. unfold ret.
    by rewrite map_app, app_nil_r.
Qed.

(** ** Projections of a trace *)

Lemma mutationCalls_app (t1 t2 : list Event) :
  mutationCalls (t1 ++ t2) = mutationCalls t1 ++ mutationCalls t2.
Proof. unfold mutationCalls. apply filter_app. Qed.

Lemma mutationCalls_Fprintf (lines : list string) :
  mutationCalls (map Fprintf lines) = [].
Proof. by induction lines. Qed.

Lemma written_app (t1 t2 : list Event) :
  written (t1 ++ t2) = written t1 ++ written t2.
Proof. unfold written. apply omap_app. Qed.

Lemma written_Fprintf (lines : list string) :
  written (map Fprintf lines) = lines.
Proof. induction lines as [|x l IH]; [done|]. simpl. by rewrite IH. Qed.

Lemma targets_app (t1 t2 : list Event) :
  omap mutationTarget (t1 ++ t2)
  = omap mutationTarget t1 ++ omap mutationTarget t2.
Proof. apply omap_app. Qed.

Lemma targets_Fprintf (lines : list string) :
  omap mutationTarget (map Fprintf lines) = [].
Proof. by induction lines. Qed.

Lemma mutationFor_isMutation ns str b : isMutation (mutationFor ns str b) = true.
Proof. unfold mutationFor. by case_decide. Qed.

Lemma mutationFor_target ns str b :
  mutationTarget (mutationFor ns str b) = Some (RoleBinding.Name b).
Proof. unfold mutationFor. by case_decide. Qed.

Lemma mutationCalls_mutationFor ns str b :
  mutationCalls [mutationFor ns str b] = [mutationFor ns str b].
Proof. unfold mutationFor, mutationCalls. by case_decide. Qed.

Lemma mutationCalls_bindingEvents o str b :
  mutationCalls (bindingEvents o str b)
  = if decide (DryRun o ≠ DryRunClient)
    then [mutationFor (BindingNamespace o) str b] else [].
Proof.
  unfold bindingEvents. rewrite mutationCalls_app, mutationCalls_Fprintf.
  rewrite app_nil_r. case_decide; [apply mutationCalls_mutationFor | done].
Qed.

Lemma written_bindingEvents o str b :
  written (bindingEvents o str b)
  = bindingLines (BindingNamespace o) (dryRunTextOf o) str b.
Proof.
  unfold bindingEvents. rewrite written_app, written_Fprintf.
  case_decide; [|done]. unfold mutationFor. by case_decide.
Qed.

Lemma written_flat_bindingEvents o str (l : list RoleBinding.t) :
  written (flat_map (bindingEvents o str) l)
  = flat_map (bindingLines (BindingNamespace o) (dryRunTextOf o) str) l.
Proof.
  induction l as [|b l IH]; [done|]. simpl.
  by rewrite written_app, written_bindingEvents, IH.
Qed.

Lemma mutationCalls_flat_bindingEvents o str (l : list RoleBinding.t) :
  mutationCalls (flat_map (bindingEvents o str) l)
  = if decide (DryRun o ≠ DryRunClient)
    then map (mutationFor (BindingNamespace o) str) l else [].
Proof.
  induction l as [|b l IH]; simpl; [by case_decide|].
  rewrite mutationCalls_app, mutationCalls_bindingEvents, IH.
  by case_decide.
Qed.

Lemma targets_flat_bindingEvents o str (l : list RoleBinding.t) :
  omap mutationTarget (flat_map (bindingEvents o str) l)
  = if decide (DryRun o ≠ DryRunClient)
    then map RoleBinding.Name l else [].
Proof.
  induction l as [|b l IH]; simpl; [by case_decide|].
  rewrite targets_app, IH. unfold bindingEvents.
  rewrite targets_app, targets_Fprintf, app_nil_r.
  case_decide; [|done]. simpl. by rewrite mutationFor_target.
Qed.

(** ** The accumulated sets *)

Lemma accTextual_sets str items acc :
  usersRemoved (accTextual str items acc)
    = usersRemoved acc ∪ lostOverall usersOf str items
  ∧ groupsRemoved (accTextual str items acc)
    = groupsRemoved acc ∪ lostOverall groupsOf str items
  ∧ sasRemoved (accTextual str items acc)
    = sasRemoved acc ∪ lostOverall sasOf str items
  ∧ othersRemoved (accTextual str items acc)
    = othersRemoved acc ∪ lostOverall othersOf str items
  ∧ updatedBindings (accTextual str items acc) = updatedBindings acc.
Proof.
  unfold accTextual, lostOverall. revert acc.
  induction (filter (hasDiff str) items) as [|b l IH]; intros acc; simpl.
  - by rewrite !(right_id_L ∅ (∪)).
  - destruct (IH (accAfter str b acc)) as (-> & -> & -> & -> & ->).
    simpl. by rewrite !(assoc_L (∪)).
Qed.

Lemma accOutput_list str items acc :
  updatedBindings (accOutput str items acc)
  = {| RoleBindingList.Kind := RoleBindingList.Kind (updatedBindings acc);
       RoleBindingList.APIVersion :=
         RoleBindingList.APIVersion (updatedBindings acc);
       RoleBindingList.Items :=
         RoleBindingList.Items (updatedBindings acc)
           ++ map (filteredBinding str) (filter (hasDiff str) items) |}.
Proof.
  unfold accOutput. revert acc.
  induction (filter (hasDiff str) items) as [|b l IH]; intros acc; simpl.
  - rewrite app_nil_r. by destruct (updatedBindings acc).
  - rewrite IH. simpl. by rewrite <- app_assoc.
Qed.

(** A loop that stops on an error stops at the mutation of a binding
    with a diff, after the complete events of the ones before it. *)
Lemma loop_textual_fail o str items acc c c' tr e :
  Output o = "" →
  loop o (dryRunTextOf o) str items acc c = (c', tr, inl e) →
  DryRun o ≠ DryRunClient
  ∧ ∃ pre b post,
      filter (hasDiff str) items = pre ++ b :: post
      ∧ tr = flat_map (bindingEvents o str) pre
               ++ [mutationFor (BindingNamespace o) str b].
Proof.
  intros Hout. revert acc c tr.
  induction items as [|b items IH]; intros acc c tr; simpl; [done|].
  unfold bind. rewrite filter_cons.
  destruct (decide (hasDiff str b)) as [Hd|Hd].
  - rewrite iteration_textual by done.
    destruct (decide (DryRun o ≠ DryRunClient)) as [Hlive|Hdry].
    + destruct (dispatch _ c) as [c1 [e1|]].
      * intros [= <- <- <-]. split; [done|]. by exists [], b, (filter (hasDiff str) items).
      * destruct (loop _ _ _ items _ c1) as [[c2 ev2] r] eqn:Hl.
        intros [= <- <- ->]. apply IH in Hl as [_ (pre & b' & post & -> & ->)].
        split; [done|]. exists (b :: pre), b', post. simpl.
        by rewrite <- app_assoc.
    + destruct (loop _ _ _ items _ c) as [[c2 ev2] r] eqn:Hl.
      intros [= <- <- ->]. apply IH in Hl as [Hlive _]. done.
  - rewrite iteration_nodiff by done.
    destruct (loop _ _ _ items _ c) as [[c2 ev2] r] eqn:Hl.
    intros [= <- <- ->]. by apply IH in Hl.
Qed.

(** ** The action taken on one binding *)

Lemma iteration_mutations o str b acc c :
  hasDiff str b →
  mutationCalls (iteration o (dryRunTextOf o) str b acc c).1.2
  = if decide (live o) then [mutationFor (BindingNamespace o) str b] else [].
Proof.
  intros Hd. destruct (decide (0 < String.length (Output o))) as [Hout|Hout].
  - rewrite iteration_output by done. simpl.
    rewrite decide_False; [done|]. intros [Hempty _].
    rewrite Hempty in Hout. simpl in Hout. lia.
  - apply output_empty in Hout. rewrite iteration_textual by done.
    destruct (decide (DryRun o ≠ DryRunClient)) as [Hlive|Hdry].
    + rewrite decide_True by done.
      destruct (dispatch _ c) as [c1 [e|]]; simpl.
      * apply mutationCalls_mutationFor.
      * rewrite mutationCalls_bindingEvents. by rewrite decide_True.
    + rewrite decide_False by (intros [_ ?]; done). simpl.
      rewrite mutationCalls_bindingEvents. by rewrite decide_False.
Qed.

(** C1: the action on a binding depends only on how the number of remaining
    subjects compares with the original number.  Equal counts: the binding
    is skipped, with no call, no output and unchanged accumulators, in every
    mode.  No subject left out of a non-empty list: the only mutation is a
    delete by binding name.  Some but not all subjects left: the only
    mutation is an update with the filtered binding.  The mutation is sent
    in live mode and suppressed in the two override modes. *)
Theorem C1_action_by_counts o str b acc c :
  let original := RoleBinding.Subjects b in
  let remaining := remainingSubjects str b in
  let step := iteration o (dryRunTextOf o) str b acc c in
  (length remaining = length original → step = (c, [], inr acc))
  ∧ (length remaining = 0 → original ≠ [] →
     mutationCalls step.1.2
     = if decide (live o)
       then [CallDelete (BindingNamespace o) (RoleBinding.Name b)] else [])
  ∧ (0 < length remaining < length original →
     mutationCalls step.1.2
     = if decide (live o)
       then [CallUpdate (BindingNamespace o) (filteredBinding str b)]
       else []).
Proof.
  intros original remaining step. subst original remaining step.
  split; [|split].
  - intros Heq. apply iteration_nodiff. unfold hasDiff. by intros [].
  - intros Hzero Hne. rewrite iteration_mutations.
    + unfold mutationFor.
      destruct (decide (0 < length (remainingSubjects str b))); [lia|done].
    + unfold hasDiff. rewrite Hzero.
      destruct (RoleBinding.Subjects b); [done | simpl; lia].
  - intros Hlt. rewrite iteration_mutations.
    + unfold mutationFor.
      destruct (decide (0 < length (remainingSubjects str b))); [done|lia].
    + unfold hasDiff. lia.
Qed.

(** ** Accumulate-only mode *)

Lemma output_nonempty o : Output o ≠ "" ↔ 0 < String.length (Output o).
Proof. destruct (Output o); simpl; split; (done || lia). Qed.

(** C6: when an output format is requested, the run makes no update or
    delete call and writes no report line; after the listing its only
    action is to hand the printer one list object holding, in processing
    order, every binding whose subject count changed, each with its
    filtered subjects (empty ones included). *)
Theorem C6_accumulate_only o c :
  Output o ≠ "" →
  let str := BuildRBACSubjects (Users o) (Groups o) in
  mutationCalls (Run o c).1.2 = []
  ∧ written (Run o c).1.2 = []
  ∧ ∀ c0 listed,
      client_List (BindingNamespace o) c = (c0, inr listed) →
      let collected :=
        {| RoleBindingList.Kind := "List";
           RoleBindingList.APIVersion := "v1";
           RoleBindingList.Items :=
             map (filteredBinding str)
               (filter (hasDiff str) (sortedItems listed)) |} in
      Run o c
      = (c0, [CallList (BindingNamespace o); CallPrintObj collected],
         ofError (PrintObj collected)).
Proof.
  intros Hout str. apply output_nonempty in Hout.
  assert (∀ c0 listed,
      client_List (BindingNamespace o) c = (c0, inr listed) →
      Run o c
      = (c0,
         [CallList (BindingNamespace o);
          CallPrintObj
            {| RoleBindingList.Kind := "List";
               RoleBindingList.APIVersion := "v1";
               RoleBindingList.Items :=
                 map (filteredBinding str)
                   (filter (hasDiff str) (sortedItems listed)) |}],
         ofError
           (PrintObj
              {| RoleBindingList.Kind := "List";
                 RoleBindingList.APIVersion := "v1";
                 RoleBindingList.Items :=
                   map (filteredBinding str)
                     (filter (hasDiff str) (sortedItems listed)) |})))
    as Hrun.
  { intros c0 listed Hl. rewrite (Run_listed _ _ _ _ Hl).
    rewrite loop_output by done. rewrite decide_True by done.
    by rewrite accOutput_list. }
  destruct (client_List (BindingNamespace o) c) as [c0 [e|listed]] eqn:Hl.
  - rewrite (Run_list_error _ _ _ _ Hl). by repeat split.
  - rewrite (Hrun _ _ eq_refl). repeat split; try done.
    intros ?? [= <- <-]. done.
Qed.

(** ** Failures *)

Lemma loop_fails_at o str pre b post acc c c1 tr1 acc1 c2 e :
  live o →
  loop o (dryRunTextOf o) str pre acc c = (c1, tr1, inr acc1) →
  hasDiff str b →
  dispatch (mutationFor (BindingNamespace o) str b) c1 = (c2, Some e) →
  loop o (dryRunTextOf o) str (pre ++ b :: post) acc c
  = (c2, tr1 ++ [mutationFor (BindingNamespace o) str b], inl e).
Proof.
  intros [Hout Hlive] Hpre Hd Hcall. rewrite loop_app. unfold bind at 1.
  rewrite Hpre. simpl. unfold bind.
  rewrite iteration_textual by done. rewrite decide_True by done.
  by rewrite Hcall.
Qed.

(** C7: a failed listing ends the run with that error after the list call
    alone, the client being left as the listing left it.  A failed update or
    delete ends the run with that error at once: the trace stops at the
    failing call, the mutations of the earlier bindings have all been sent
    and the client is left in the state they produced, with no further
    call. *)
Theorem C7_failures_abort o c :
  let ns := BindingNamespace o in
  let str := BuildRBACSubjects (Users o) (Groups o) in
  (∀ c0 e,
     client_List ns c = (c0, inl e) →
     Run o c = (c0, [CallList ns], inl e))
  ∧ (∀ c0 listed pre b post c1 tr1 acc1 c2 e,
       live o →
       client_List ns c = (c0, inr listed) →
       sortedItems listed = pre ++ b :: post →
       loop o (dryRunTextOf o) str pre initAccum c0 = (c1, tr1, inr acc1) →
       hasDiff str b →
       dispatch (mutationFor ns str b) c1 = (c2, Some e) →
       Run o c = (c2, CallList ns :: tr1 ++ [mutationFor ns str b], inl e)
       ∧ mutationCalls tr1
         = map (mutationFor ns str) (filter (hasDiff str) pre)).
Proof.
  intros ns str. split.
  - intros c0 e Hl. by apply Run_list_error.
  - intros c0 listed pre b post c1 tr1 acc1 c2 e Hlive Hl Hsort Hpre Hd Hcall.
    split.
    + rewrite (Run_listed _ _ _ _ Hl). rewrite Hsort.
      by rewrite (loop_fails_at _ _ _ _ _ _ _ _ _ _ _ _ Hlive Hpre Hd Hcall).
    + destruct Hlive as [Hout Hlive].
      apply loop_textual_ok in Hpre as [-> _]; [|done].
      rewrite mutationCalls_flat_bindingEvents. by rewrite decide_True.
Qed.

(** C10: in live mode the update or delete of a binding with a diff is
    sent before any of its report lines; if the call fails the iteration
    ends there, so a failed run's trace ends with the failing call and holds
    no line for that binding. *)
Theorem C10_mutation_before_report o c :
  live o →
  let ns := BindingNamespace o in
  (∀ str b acc c1,
     hasDiff str b →
     let call := mutationFor ns str b in
     iteration o (dryRunTextOf o) str b acc c1
     = match dispatch call c1 with
       | (c2, Some e) => (c2, [call], inl e)
       | (c2, None) =>
           (c2,
            call :: map Fprintf (bindingLines ns (dryRunTextOf o) str b),
            inr (accAfter str b acc))
       end)
  ∧ (∀ c0 listed c' tr e,
       client_List ns c = (c0, inr listed) →
       Run o c = (c', tr, inl e) →
       let str := BuildRBACSubjects (Users o) (Groups o) in
       ∃ pre b post,
         filter (hasDiff str) (sortedItems listed) = pre ++ b :: post
         ∧ tr = CallList ns :: flat_map (bindingEvents o str) pre
                  ++ [mutationFor ns str b]).
Proof.
  intros [Hout Hlive] ns. split.
  - intros str b acc c1 Hd call. rewrite iteration_textual by done.
    rewrite decide_True by done. unfold bindingEvents.
    by rewrite decide_True.
  - intros c0 listed c' tr e Hl Hrun str.
    rewrite (Run_listed _ _ _ _ Hl) in Hrun.
    destruct (loop _ _ _ _ _ c0) as [[c1 tr1] [e1|acc1]] eqn:Hloop.
    + injection Hrun as <- <- <-.
      apply loop_textual_fail in Hloop as [_ (pre & b & post & Hf & ->)];
        [|done].
      by exists pre, b, post.
    + rewrite decide_False in Hrun by (by apply output_empty). done.
Qed.

(** ** Runs with a textual report *)

Lemma Run_textual_ok o c c0 listed c' tr :
  Output o = "" →
  client_List (BindingNamespace o) c = (c0, inr listed) →
  Run o c = (c', tr, inr ()) →
  let str := BuildRBACSubjects (Users o) (Groups o) in
  let order := sortedItems listed in
  tr = CallList (BindingNamespace o)
         :: flat_map (bindingEvents o str) (filter (hasDiff str) order)
         ++ map Fprintf
              (notBoundLines (BindingNamespace o) (dryRunTextOf o) "Users"
                 (Users o) (lostOverall usersOf str order)
               ++ notBoundLines (BindingNamespace o) (dryRunTextOf o)
                    "Groups" (Groups o) (lostOverall groupsOf str order)).
Proof.
  intros Hout Hl Hrun str order. rewrite (Run_listed _ _ _ _ Hl) in Hrun.
  destruct (loop _ _ _ _ _ c0) as [[c1 tr1] [e1|acc1]] eqn:Hloop; [done|].
  rewrite decide_False in Hrun by (by apply output_empty).
  injection Hrun as <- <-.
  apply loop_textual_ok in Hloop as [-> ->]; [|done].
  destruct (accTextual_sets (BuildRBACSubjects (Users o) (Groups o))
              (sortedItems listed) initAccum) as (-> & -> & _).
  simpl. by rewrite !(left_id_L ∅ (∪)).
Qed.

Lemma Run_textual_fail o c c0 listed c' tr e :
  Output o = "" →
  client_List (BindingNamespace o) c = (c0, inr listed) →
  Run o c = (c', tr, inl e) →
  let str := BuildRBACSubjects (Users o) (Groups o) in
  DryRun o ≠ DryRunClient
  ∧ ∃ pre b post,
      filter (hasDiff str) (sortedItems listed) = pre ++ b :: post
      ∧ tr = CallList (BindingNamespace o)
               :: flat_map (bindingEvents o str) pre
               ++ [mutationFor (BindingNamespace o) str b].
Proof.
  intros Hout Hl Hrun str. rewrite (Run_listed _ _ _ _ Hl) in Hrun.
  destruct (loop _ _ _ _ _ c0) as [[c1 tr1] [e1|acc1]] eqn:Hloop.
  - injection Hrun as <- <- <-.
    apply loop_textual_fail in Hloop as [Hlive (pre & b & post & Hf & ->)];
      [|done].
    split; [done|]. by exists pre, b, post.
  - rewrite decide_False in Hrun by (by apply output_empty). done.
Qed.

Lemma three_names_descending (names : list string) :
  names ≡ₚ ["a"; "b"; "c"] →
  StronglySorted (λ x y, string_lt y x) names →
  names = ["c"; "b"; "a"].
Proof.
  intros Hp Hs.
  apply (StronglySorted_unique_strong (λ x y, string_lt y x)); [|done| |].
  - intros x y _ _ H1 H2. destruct (string_lt_irrefl x).
    eapply string_lt_trans; eauto.
  - repeat constructor.
  - rewrite Hp. symmetry. apply (reverse_Permutation ["a"; "b"; "c"]).
Qed.

(** C3: the bindings are sorted once, before the loop, into strictly
    descending order of name (the only such arrangement of the listing),
    and the loop walks through them in that order: the events of a run are
    those of the bindings with a diff in that order, up to the first
    failing call.  With bindings named a, b, c,
    each with a diff, listed in any order, the mutations go to c, b, a and
    the report lines follow the same order. *)
Theorem C3_descending_order o c c0 listed :
  client_List (BindingNamespace o) c = (c0, inr listed) →
  NoDup (map RoleBinding.Name listed) →
  let ns := BindingNamespace o in
  let str := BuildRBACSubjects (Users o) (Groups o) in
  let order := sortedItems listed in
  (order ≡ₚ listed ∧ StronglySorted nameAbove order)
  ∧ (∀ l, l ≡ₚ listed → StronglySorted nameAbove l → l = order)
  ∧ (∀ c' tr,
       Output o = "" → Run o c = (c', tr, inr ()) →
       ∃ footer,
         tr = CallList ns
                :: flat_map (bindingEvents o str) (filter (hasDiff str) order)
                ++ map Fprintf footer)
  ∧ (∀ c' tr e,
       Output o = "" → Run o c = (c', tr, inl e) →
       ∃ pre b post,
         filter (hasDiff str) order = pre ++ b :: post
         ∧ tr = CallList ns :: flat_map (bindingEvents o str) pre
                  ++ [mutationFor ns str b])
  ∧ (∀ c' tr,
       live o →
       map RoleBinding.Name listed ≡ₚ ["a"; "b"; "c"] →
       Forall (hasDiff str) listed →
       Run o c = (c', tr, inr ()) →
       omap mutationTarget tr = ["c"; "b"; "a"]
       ∧ ∃ bc bb ba footer,
           order = [bc; bb; ba]
           ∧ map RoleBinding.Name order = ["c"; "b"; "a"]
           ∧ written tr
             = bindingLines ns (dryRunTextOf o) str bc
               ++ bindingLines ns (dryRunTextOf o) str bb
               ++ bindingLines ns (dryRunTextOf o) str ba ++ footer).
Proof.
  intros Hl Hnd ns str order.
  assert (StronglySorted nameAbove order) as Hsorted
    by (by apply sortedItems_strict).
  split; [split; [apply sortedItems_perm | done]|].
  split; [|split; [|split]].
  - intros l Hp Hs. by apply descending_unique.
  - intros c' tr Hout Hrun. eexists.
    by apply (Run_textual_ok _ _ _ _ _ _ Hout Hl Hrun).
  - intros c' tr e Hout Hrun.
    by destruct (Run_textual_fail _ _ _ _ _ _ _ Hout Hl Hrun) as [_ ?].
  - intros c' tr [Hout Hlive] Hnames Hall Hrun.
    assert (map RoleBinding.Name order = ["c"; "b"; "a"]) as Horder.
    { apply three_names_descending.
      - subst order. by rewrite sortedItems_perm.
      - by apply (StronglySorted_fmap _ nameAbove). }
    assert (filter (hasDiff str) order = order) as Hfilter.
    { assert (Forall (hasDiff str) order) as Hall'
        by (subst order; by rewrite sortedItems_perm).
      clear -Hall'. induction Hall' as [|x l Hx _ IH]; [done|].
      by rewrite filter_cons_True, IH. }
    rewrite (Run_textual_ok _ _ _ _ _ _ Hout Hl Hrun).
    fold str. fold order. rewrite Hfilter. split.
    + simpl. rewrite targets_app, targets_Fprintf, app_nil_r.
      rewrite targets_flat_bindingEvents, decide_True by done. done.
    + destruct order as [|bc [|bb [|ba [|? ?]]]]; try done.
      exists bc, bb, ba. eexists. split; [done|]. split; [done|].
      simpl. rewrite !written_app, !written_bindingEvents, written_Fprintf.
      rewrite app_nil_r, <- !app_assoc. done.
Qed.

(** ** Dry run against live run *)

Lemma append_assoc (a b c : string) : (a +:+ b) +:+ c = a +:+ b +:+ c.
Proof.
  induction a as [|x a IH]; [done|].
  change (String x ((a +:+ b) +:+ c) = String x (a +:+ b +:+ c)).
  by rewrite IH.
Qed.

Lemma removingLine_variant role category names ns :
  dryRunVariant (removingLine role category names ns "")
    (removingLine role category names ns " (dry client run)").
Proof.
  exists ("Removing " +:+ role +:+ " from " +:+ category +:+ " "
            +:+ fmt.v_strings names +:+ " in project " +:+ ns).
  unfold removingLine. by rewrite !append_assoc.
Qed.

Lemma notBoundLine_variant category names ns :
  dryRunVariant (notBoundLine category names ns "")
    (notBoundLine category names ns " (dry client run)").
Proof.
  exists (category +:+ " " +:+ fmt.v_strings names
            +:+ " were not bound to roles in project " +:+ ns).
  unfold notBoundLine. by rewrite !append_assoc.
Qed.

Lemma categoryLines_variant ns role category diff :
  Forall2 dryRunVariant (categoryLines ns "" role category diff)
    (categoryLines ns " (dry client run)" role category diff).
Proof.
  unfold categoryLines. case_decide; [|constructor].
  constructor; [apply removingLine_variant | constructor].
Qed.

Lemma bindingLines_variant ns str b :
  Forall2 dryRunVariant (bindingLines ns "" str b)
    (bindingLines ns " (dry client run)" str b).
Proof.
  unfold bindingLines. repeat apply Forall2_app; apply categoryLines_variant.
Qed.

Lemma notBoundLines_variant ns category wanted removed :
  Forall2 dryRunVariant (notBoundLines ns "" category wanted removed)
    (notBoundLines ns " (dry client run)" category wanted removed).
Proof.
  unfold notBoundLines. case_decide; [|constructor].
  constructor; [apply notBoundLine_variant | constructor].
Qed.

Lemma Run_dry o c c0 listed :
  Output o = "" → DryRun o = DryRunClient →
  client_List (BindingNamespace o) c = (c0, inr listed) →
  let str := BuildRBACSubjects (Users o) (Groups o) in
  let order := sortedItems listed in
  Run o c
  = (c0,
     CallList (BindingNamespace o)
       :: flat_map (bindingEvents o str) (filter (hasDiff str) order)
       ++ map Fprintf
            (notBoundLines (BindingNamespace o) (dryRunTextOf o) "Users"
               (Users o) (lostOverall usersOf str order)
             ++ notBoundLines (BindingNamespace o) (dryRunTextOf o)
                  "Groups" (Groups o) (lostOverall groupsOf str order)),
     inr ()).
Proof.
  intros Hout Hdry Hl str order. rewrite (Run_listed _ _ _ _ Hl).
  rewrite loop_dry by done.
  rewrite decide_False by (by apply output_empty).
  destruct (accTextual_sets (BuildRBACSubjects (Users o) (Groups o))
              (sortedItems listed) initAccum) as (-> & -> & _).
  simpl. by rewrite !(left_id_L ∅ (∪)).
Qed.

(** C4, as amended: a client dry run sends no update or delete and leaves
    the client as the listing left it; whenever the live run of the same
    request ends without error, the dry run also does and writes the same
    report lines, each carrying the marker " (dry client run)" before its
    full stop. *)
Theorem C4_dry_run_report o c :
  Output o = "" → DryRun o ≠ DryRunClient →
  let dry := Run (withDryRun DryRunClient o) c in
  mutationCalls dry.1.2 = []
  ∧ dry.1.1 = (client_List (BindingNamespace o) c).1
  ∧ ∀ c' tr,
      Run o c = (c', tr, inr ()) →
      dry.2 = inr () ∧ Forall2 dryRunVariant (written tr) (written dry.1.2).
Proof.
  intros Hout Hlive dry. subst dry.
  assert (dryRunTextOf o = "") as Htext
    by (unfold dryRunTextOf; by rewrite decide_False).
  destruct (client_List (BindingNamespace o) c) as [c0 [e|listed]] eqn:Hl.
  - rewrite (Run_list_error (withDryRun DryRunClient o) c c0 e) by done.
    split; [done|]. split; [done|].
    intros c' tr Hrun. by rewrite (Run_list_error o c c0 e) in Hrun.
  - rewrite (Run_dry (withDryRun DryRunClient o) c c0 listed) by done.
    simpl. split; [|split; [done|]].
    + change (mutationCalls
                (CallList (BindingNamespace o) :: ?t)) with (mutationCalls t).
      rewrite mutationCalls_app, mutationCalls_Fprintf, app_nil_r.
      by rewrite mutationCalls_flat_bindingEvents.
    + intros c' tr Hrun. split; [done|].
      rewrite (Run_textual_ok _ _ _ _ _ _ Hout Hl Hrun). rewrite Htext.
      change (written (CallList ?n :: ?t)) with (written t).
      rewrite !written_app, !written_Fprintf, !written_flat_bindingEvents.
      rewrite Htext.
      change (dryRunTextOf (withDryRun DryRunClient o))
        with " (dry client run)".
      change (BindingNamespace (withDryRun DryRunClient o))
        with (BindingNamespace o).
      apply Forall2_app; [|apply Forall2_app; apply notBoundLines_variant].
      induction (filter _ _) as [|b l IH]; simpl; [constructor|].
      apply Forall2_app; [apply bindingLines_variant | apply IH].
Qed.

(** ** The aggregate over all bindings *)

Lemma elem_of_lostOverall cat str (items : list RoleBinding.t) x :
  x ∈ lostOverall cat str items
  ↔ ∃ b, b ∈ items ∧ hasDiff str b ∧ x ∈ lostBy cat str b.
Proof.
  unfold lostOverall. rewrite elem_of_union_list. split.
  - intros (X & HX & Hx). apply list_elem_of_fmap in HX as (b & -> & Hb).
    apply list_elem_of_filter in Hb as [Hd Hb]. eauto.
  - intros (b & Hb & Hd & Hx). exists (lostBy cat str b). split; [|done].
    apply list_elem_of_fmap. exists b. split; [done|].
    by apply list_elem_of_filter.
Qed.

Lemma lostOverall_sorted cat str (listed : list RoleBinding.t) x :
  x ∈ lostOverall cat str (sortedItems listed)
  ↔ ∃ b, b ∈ listed ∧ hasDiff str b ∧ x ∈ lostBy cat str b.
Proof.
  rewrite elem_of_lostOverall.
  split; intros (b & Hb & Hrest); exists b; split; try done.
  - by rewrite <- (sortedItems_perm listed).
  - by rewrite (sortedItems_perm listed).
Qed.

Lemma lostOverall_nodiff cat str (items : list RoleBinding.t) :
  filter (hasDiff str) items = [] → lostOverall cat str items = ∅.
Proof. unfold lostOverall. by intros ->. Qed.

Lemma if_Len_nonempty {A} (d : gset string) (x y : A) :
  (if decide (sets.Len d ≠ 0) then x else y)
  = (if decide (d ≠ ∅) then x else y).
Proof.
  destruct (decide (d ≠ ∅)) as [Hne|He].
  - rewrite decide_True; [done|]. by rewrite sets_Len_0.
  - apply dec_stable in He. rewrite decide_False; [done|].
    intros Hn. apply Hn. by apply sets_Len_0.
Qed.

Lemma accOutput_sets str items acc :
  usersRemoved (accOutput str items acc) = usersRemoved acc
  ∧ groupsRemoved (accOutput str items acc) = groupsRemoved acc
  ∧ sasRemoved (accOutput str items acc) = sasRemoved acc
  ∧ othersRemoved (accOutput str items acc) = othersRemoved acc.
Proof.
  unfold accOutput. revert acc.
  induction (filter (hasDiff str) items) as [|b l IH]; intros acc; [done|].
  simpl. by destruct (IH (accCollect str b acc)) as (-> & -> & -> & ->).
Qed.
End EngineFacts.

Lemma C1_action_by_counts_witness :
  iteration (Fake.removeAliceAndDevs DryRunNone "") "" Fake.request
    (Fake.binding "d" "view" [Fake.user "bob"]) initAccum Fake.project
  = (Fake.project, [], inr initAccum)
  ∧ mutationCalls
      (iteration (Fake.removeAliceAndDevs DryRunNone "") "" Fake.request
         Fake.editors initAccum Fake.project).1.2
    = [CallDelete "demo" "c"]
  ∧ mutationCalls
      (iteration (Fake.removeAliceAndDevs DryRunNone "") "" Fake.request
         Fake.viewers initAccum Fake.project).1.2
    = [CallUpdate "demo" (Fake.binding "a" "view" [Fake.user "bob"])]
  ∧ mutationCalls
      (iteration (Fake.removeAliceAndDevs DryRunClient "")
         " (dry client run)" Fake.request Fake.editors initAccum
         Fake.project).1.2
    = []
  ∧ mutationCalls
      (iteration (Fake.removeAliceAndDevs DryRunNone "yaml") ""
         Fake.request Fake.viewers initAccum Fake.project).1.2
    = [].
Proof.
  split; [|split; [|split; [|split]]].
  - by_computing (proj1 (C1_action_by_counts
                           (Fake.removeAliceAndDevs DryRunNone "")
                           Fake.request
                           (Fake.binding "d" "view" [Fake.user "bob"])
                           initAccum Fake.project)).
    reflexivity.
  - by_computing (proj1 (proj2 (C1_action_by_counts
                                  (Fake.removeAliceAndDevs DryRunNone "")
                                  Fake.request Fake.editors initAccum
                                  Fake.project))).
    + reflexivity.
    + discriminate.
  - by_computing (proj2 (proj2 (C1_action_by_counts
                                  (Fake.removeAliceAndDevs DryRunNone "")
                                  Fake.request Fake.viewers initAccum
                                  Fake.project))).
    lia.
  - by_computing (proj1 (proj2 (C1_action_by_counts
                                  (Fake.removeAliceAndDevs DryRunClient "")
                                  Fake.request Fake.editors initAccum
                                  Fake.project))).
    + reflexivity.
    + discriminate.
  - by_computing (proj2 (proj2 (C1_action_by_counts
                                  (Fake.removeAliceAndDevs DryRunNone "yaml")
                                  Fake.request Fake.viewers initAccum
                                  Fake.project))).
    lia.
Defined.

(** A binding left without subjects under the client dry-run strategy, and
    one left with fewer subjects when an output format is asked for, are
    processed without any call to the client; whole runs in these two modes
    send no mutation and leave the store as it was. *)
Lemma C1_action_by_counts_counterexample :
  length (remainingSubjects Fake.request Fake.editors) = 0
  ∧ length (RoleBinding.Subjects Fake.editors) = 2
  ∧ (iteration (Fake.removeAliceAndDevs DryRunClient "") " (dry client run)"
       Fake.request Fake.editors initAccum Fake.project).1
    = (Fake.project,
       [Fprintf
          ("Removing edit from users [alice] in project demo (dry client run)."
             +:+ fmt.newline)])
  ∧ length (remainingSubjects Fake.request Fake.viewers) = 1
  ∧ length (RoleBinding.Subjects Fake.viewers) = 2
  ∧ (iteration (Fake.removeAliceAndDevs DryRunNone "yaml") "" Fake.request
       Fake.viewers initAccum Fake.project).1
    = (Fake.project, [])
  ∧ mutationCalls
      (Run (Fake.removeAliceAndDevs DryRunClient "") Fake.project).1.2
    = []
  ∧ (Run (Fake.removeAliceAndDevs DryRunClient "") Fake.project).1.1
    = Fake.project
  ∧ mutationCalls
      (Run (Fake.removeAliceAndDevs DryRunNone "yaml") Fake.project).1.2
    = []
  ∧ (Run (Fake.removeAliceAndDevs DryRunNone "yaml") Fake.project).1.1
    = Fake.project.
Proof. repeat split; vm_compute; reflexivity. Qed.

Lemma C6_accumulate_only_witness :
  mutationCalls (Run (Fake.removeAliceAndDevs DryRunNone "yaml") Fake.project).1.2
  = []
  ∧ written (Run (Fake.removeAliceAndDevs DryRunNone "yaml") Fake.project).1.2
    = []
  ∧ Run (Fake.removeAliceAndDevs DryRunNone "yaml") Fake.project
    = (Fake.project,
       [CallList "demo";
        CallPrintObj
          {| RoleBindingList.Kind := "List";
             RoleBindingList.APIVersion := "v1";
             RoleBindingList.Items :=
               [Fake.binding "c" "edit" [];
                Fake.localBinding "b" "admin"
                  [Fake.serviceAccount "demo" "builder"; Fake.user "carol"];
                Fake.binding "a" "view" [Fake.user "bob"]] |}],
       inr ()).
Proof.
  pose proof (C6_accumulate_only (Fake.removeAliceAndDevs DryRunNone "yaml")
                Fake.project) as H.
  assert (Output (Fake.removeAliceAndDevs DryRunNone "yaml") ≠ "") as Hout
    by discriminate.
  destruct (H Hout) as (H1 & H2 & H3).
  split; [exact H1 | split; [exact H2 |]].
  by_computing (H3 Fake.project Fake.project.(Fake.store)).
  reflexivity.
Defined.

Lemma C7_failures_abort_witness :
  Run (Fake.removeAliceAndDevs DryRunNone "") Fake.unreachable
  = (Fake.unreachable, [CallList "demo"], inl "connection refused")
  ∧ Run (Fake.removeAliceAndDevs DryRunNone "") Fake.guarded
    = (Fake.mk [Fake.viewers; Fake.admins] None ["b"],
       [CallList "demo"; CallDelete "demo" "c";
        Fprintf ("Removing edit from users [alice] in project demo."
                   +:+ fmt.newline);
        CallUpdate "demo"
          (Fake.localBinding "b" "admin"
             [Fake.serviceAccount "demo" "builder"; Fake.user "carol"])],
       inl "update refused").
Proof.
  destruct (C7_failures_abort (Fake.removeAliceAndDevs DryRunNone "")
              Fake.unreachable) as [Hlist _].
  destruct (C7_failures_abort (Fake.removeAliceAndDevs DryRunNone "")
              Fake.guarded) as [_ Hmut].
  split.
  - by_computing (Hlist Fake.unreachable "connection refused").
    reflexivity.
  - pose proof
      (Hmut Fake.guarded [Fake.viewers; Fake.editors; Fake.admins]
         [Fake.editors] Fake.admins [Fake.viewers]
         (Fake.mk [Fake.viewers; Fake.admins] None ["b"])
         [CallDelete "demo" "c";
          Fprintf ("Removing edit from users [alice] in project demo."
                     +:+ fmt.newline)]
         (accAfter Fake.request Fake.editors initAccum)
         (Fake.mk [Fake.viewers; Fake.admins] None ["b"])
         "update refused") as H.
    assert (live (Fake.removeAliceAndDevs DryRunNone "")) as Hlive
      by (split; [reflexivity | discriminate]).
    assert (hasDiff Fake.request Fake.admins) as Hd by (vm_compute; lia).
    specialize (H Hlive eq_refl).
    by_computing (λ H1 H2 H3, proj1 (H H1 H2 Hd H3)); reflexivity.
Defined.

Lemma C10_mutation_before_report_witness :
  iteration (Fake.removeAliceAndDevs DryRunNone "") "" Fake.request
    Fake.editors initAccum Fake.project
  = (Fake.cluster [Fake.viewers; Fake.admins],
     [CallDelete "demo" "c";
      Fprintf ("Removing edit from users [alice] in project demo."
                 +:+ fmt.newline)],
     inr (accAfter Fake.request Fake.editors initAccum))
  ∧ iteration (Fake.removeAliceAndDevs DryRunNone "") "" Fake.request
      Fake.admins initAccum Fake.guarded
    = (Fake.guarded,
       [CallUpdate "demo"
          (Fake.localBinding "b" "admin"
             [Fake.serviceAccount "demo" "builder"; Fake.user "carol"])],
       inl "update refused").
Proof.
  assert (live (Fake.removeAliceAndDevs DryRunNone "")) as Hlive
    by (split; [reflexivity | discriminate]).
  destruct (C10_mutation_before_report
              (Fake.removeAliceAndDevs DryRunNone "") Fake.project Hlive)
    as [Hstep _].
  split.
  - by_computing (Hstep Fake.request Fake.editors initAccum Fake.project).
    lia.
  - by_computing (Hstep Fake.request Fake.admins initAccum Fake.guarded).
    lia.
Defined.

Lemma C3_descending_order_witness :
  omap mutationTarget
    (Run (Fake.removeAliceAndDevs DryRunNone "") Fake.project).1.2
  = ["c"; "b"; "a"]
  ∧ sortedItems [Fake.viewers; Fake.editors; Fake.admins]
    ≡ₚ [Fake.viewers; Fake.editors; Fake.admins].
Proof.
  assert (NoDup (map RoleBinding.Name
                   [Fake.viewers; Fake.editors; Fake.admins])) as Hnd
    by (apply (bool_decide_unpack _); vm_compute; exact I).
  assert (client_List
            (BindingNamespace (Fake.removeAliceAndDevs DryRunNone ""))
            Fake.project
          = (Fake.project, inr [Fake.viewers; Fake.editors; Fake.admins]))
    as Hlisted by (vm_compute; reflexivity).
  destruct (C3_descending_order (Fake.removeAliceAndDevs DryRunNone "")
              Fake.project Fake.project
              [Fake.viewers; Fake.editors; Fake.admins] Hlisted Hnd)
    as ([Hperm _] & _ & _ & _ & Habc).
  split; [|exact Hperm].
  assert (live (Fake.removeAliceAndDevs DryRunNone "")) as Hlive
    by (split; [reflexivity | discriminate]).
  assert (map RoleBinding.Name [Fake.viewers; Fake.editors; Fake.admins]
          ≡ₚ ["a"; "b"; "c"]) as Hnames
    by (apply (bool_decide_unpack _); vm_compute; exact I).
  assert (Forall (hasDiff (BuildRBACSubjects ["alice"] ["devs"; "ops"]))
            [Fake.viewers; Fake.editors; Fake.admins]) as Hall
    by (apply (bool_decide_unpack _); vm_compute; exact I).
  assert (Run (Fake.removeAliceAndDevs DryRunNone "") Fake.project
          = ((Run (Fake.removeAliceAndDevs DryRunNone "") Fake.project).1.1,
             (Run (Fake.removeAliceAndDevs DryRunNone "") Fake.project).1.2,
             inr ())) as Hrun by (vm_compute; reflexivity).
  destruct (Habc _ _ Hlive Hnames Hall Hrun) as [Htargets _].
  exact Htargets.
Defined.

(** The dry run and the live run of the same request on the same project
    both succeed, and their report texts differ. *)
Lemma C4_dry_run_report_counterexample :
  (Run (Fake.removeAliceAndDevs DryRunNone "") Fake.project).2 = inr ()
  ∧ (Run (Fake.removeAliceAndDevs DryRunClient "") Fake.project).2 = inr ()
  ∧ written (Run (Fake.removeAliceAndDevs DryRunClient "") Fake.project).1.2
    ≠ written (Run (Fake.removeAliceAndDevs DryRunNone "") Fake.project).1.2
  ∧ written (Run (Fake.removeAliceAndDevs DryRunNone "") Fake.project).1.2
    = [ "Removing edit from users [alice] in project demo." +:+ fmt.newline;
        "Removing demo/admin from groups [devs] in project demo."
          +:+ fmt.newline;
        "Removing view from users [alice] in project demo." +:+ fmt.newline;
        "Groups [ops] were not bound to roles in project demo."
          +:+ fmt.newline ]
  ∧ written (Run (Fake.removeAliceAndDevs DryRunClient "") Fake.project).1.2
    = [ "Removing edit from users [alice] in project demo (dry client run)."
          +:+ fmt.newline;
        "Removing demo/admin from groups [devs] in project demo (dry client run)."
          +:+ fmt.newline;
        "Removing view from users [alice] in project demo (dry client run)."
          +:+ fmt.newline;
        "Groups [ops] were not bound to roles in project demo (dry client run)."
          +:+ fmt.newline ].
Proof.
  split; [reflexivity|]. split; [reflexivity|].
  split; [vm_compute; discriminate|].
  split; reflexivity.
Qed.

Lemma C4_dry_run_report_witness :
  mutationCalls
    (Run (withDryRun DryRunClient (Fake.removeAliceAndDevs DryRunNone ""))
       Fake.project).1.2 = []
  ∧ Forall2 dryRunVariant
      (written (Run (Fake.removeAliceAndDevs DryRunNone "") Fake.project).1.2)
      (written
         (Run (withDryRun DryRunClient (Fake.removeAliceAndDevs DryRunNone ""))
            Fake.project).1.2).
Proof.
  assert (DryRun (Fake.removeAliceAndDevs DryRunNone "") ≠ DryRunClient)
    as Hlive by discriminate.
  destruct (C4_dry_run_report (Fake.removeAliceAndDevs DryRunNone "")
              Fake.project eq_refl Hlive) as (Hcalls & _ & Hlines).
  split; [exact Hcalls|].
  assert (Run (Fake.removeAliceAndDevs DryRunNone "") Fake.project
          = ((Run (Fake.removeAliceAndDevs DryRunNone "") Fake.project).1.1,
             (Run (Fake.removeAliceAndDevs DryRunNone "") Fake.project).1.2,
             inr ())) as Hrun by (vm_compute; reflexivity).
  exact (proj2 (Hlines _ _ Hrun)).
Defined.

(** ** Runs with the subject set remover of section 4.2 *)

Section RemoverFacts.
Context {C : Type} `{!RoleBindingInterface C} `{!ResourcePrinter}.

Implicit Types (o : RemoveFromProjectOptions) (c : C) (acc : Accum)
               (b : RoleBinding.t).

Lemma untouched_nodiff users groups (items : list RoleBinding.t) :
  (∀ b s, b ∈ items → s ∈ RoleBinding.Subjects b →
          ¬ requested users groups s) →
  filter (hasDiff (SpecModel.BuildRBACSubjects users groups)) items = [].
Proof.
  intros Hnone. induction items as [|b l IH]; [done|].
  rewrite filter_cons_False.
  - apply IH. intros b' s Hb'. apply Hnone. by right.
  - rewrite hasDiff_requested. intros (s & Hs & Hr).
    by apply (Hnone b s); [left|..].
Qed.

(** C5, as amended: when the report is textual and the run ends without
    error, the users (groups) reported as not found are the requested names
    minus the names removed from some binding, and each non-empty
    difference yields exactly one line, written after the per-binding lines
    and carrying the dry-run marker in client dry-run mode.  A requested
    user bound nowhere is in that difference and in no binding's removed
    set; a request that matches nothing sends no mutation and writes only
    these lines. *)
Theorem C5_not_found_report o c c0 listed c' tr :
  Output o = "" →
  client_List (BindingNamespace o) c = (c0, inr listed) →
  Run o c = (c', tr, inr ()) →
  let ns := BindingNamespace o in
  let str := SpecModel.BuildRBACSubjects (Users o) (Groups o) in
  let order := sortedItems listed in
  let removedUsers := lostOverall usersOf str order in
  let removedGroups := lostOverall groupsOf str order in
  let usersNotFound := sets.NewString (Users o) ∖ removedUsers in
  let groupsNotFound := sets.NewString (Groups o) ∖ removedGroups in
  let notBound (category : string) (names : gset string) :=
    if decide (names ≠ ∅)
    then [ category +:+ " " +:+ fmt.v_strings (sets.List names)
             +:+ " were not bound to roles in project " +:+ ns
             +:+ dryRunTextOf o +:+ "." +:+ fmt.newline ]
    else [] in
  (∀ u, u ∈ removedUsers
        ↔ ∃ b, b ∈ listed ∧ hasDiff str b
               ∧ u ∈ usersOf (RoleBinding.Subjects b)
               ∧ u ∉ usersOf (remainingSubjects str b))
  ∧ (∀ g, g ∈ removedGroups
          ↔ ∃ b, b ∈ listed ∧ hasDiff str b
                 ∧ g ∈ groupsOf (RoleBinding.Subjects b)
                 ∧ g ∉ groupsOf (remainingSubjects str b))
  ∧ written tr
    = flat_map (bindingLines ns (dryRunTextOf o) str)
        (filter (hasDiff str) order)
      ++ notBound "Users" usersNotFound ++ notBound "Groups" groupsNotFound
  ∧ (∀ u, u ∈ Users o →
          (∀ b s, b ∈ listed → s ∈ RoleBinding.Subjects b →
                  ¬ (Subject.Kind s = rbacv1.UserKind ∧ Subject.Name s = u)) →
          u ∈ usersNotFound ∧ ∀ b, b ∈ listed → u ∉ lostBy usersOf str b)
  ∧ ((∀ b s, b ∈ listed → s ∈ RoleBinding.Subjects b →
             ¬ requested (Users o) (Groups o) s) →
     mutationCalls tr = []
     ∧ written tr
       = notBound "Users" (sets.NewString (Users o))
         ++ notBound "Groups" (sets.NewString (Groups o))).
Proof.
  intros Hout Hl Hrun ns str order removedUsers removedGroups usersNotFound
    groupsNotFound notBound.
  assert (tr = CallList ns
                 :: flat_map (bindingEvents o str) (filter (hasDiff str) order)
                 ++ map Fprintf
                      (notBoundLines ns (dryRunTextOf o) "Users" (Users o)
                         removedUsers
                       ++ notBoundLines ns (dryRunTextOf o) "Groups"
                            (Groups o) removedGroups)) as Htr
    by exact (Run_textual_ok _ _ _ _ _ _ Hout Hl Hrun).
  assert (∀ category wanted removed,
            notBoundLines ns (dryRunTextOf o) category wanted removed
            = notBound category (sets.NewString wanted ∖ removed)) as Hnb.
  { intros. unfold notBoundLines, notBound, notBoundLine.
    apply if_Len_nonempty. }
  assert (written tr
          = flat_map (bindingLines ns (dryRunTextOf o) str)
              (filter (hasDiff str) order)
            ++ notBound "Users" usersNotFound
            ++ notBound "Groups" groupsNotFound) as Hwritten.
  { rewrite Htr. change (written (CallList ?n :: ?t)) with (written t).
    rewrite written_app, written_Fprintf, written_flat_bindingEvents.
    by rewrite !Hnb. }
  split; [|split; [|split; [|split]]].
  - intros u. subst removedUsers order. rewrite lostOverall_sorted.
    unfold lostBy, sets.Difference. set_solver.
  - intros g. subst removedGroups order. rewrite lostOverall_sorted.
    unfold lostBy, sets.Difference. set_solver.
  - exact Hwritten.
  - intros u Hu Hnowhere.
    assert (∀ b, b ∈ listed → u ∉ lostBy usersOf str b) as Hnot.
    { intros b Hb Hin. unfold lostBy, sets.Difference in Hin.
      apply elem_of_difference in Hin as [Hin _].
      apply elem_of_usersOf in Hin as (s & Hs & Hk & Hn).
      by apply (Hnowhere b s). }
    split; [|exact Hnot].
    subst usersNotFound removedUsers order. apply elem_of_difference.
    split; [unfold sets.NewString; by apply elem_of_list_to_set|].
    rewrite lostOverall_sorted. intros (b & Hb & _ & Hin).
    by apply (Hnot b).
  - intros Hnone.
    assert (filter (hasDiff str) order = []) as Hnodiff.
    { apply untouched_nodiff. intros b s Hb. apply Hnone.
      subst order. by rewrite <- (sortedItems_perm listed). }
    split.
    + rewrite Htr. change (mutationCalls (CallList ?n :: ?t))
        with (mutationCalls t).
      by rewrite Hnodiff, mutationCalls_app, mutationCalls_Fprintf.
    + rewrite Hwritten, Hnodiff. simpl.
      subst usersNotFound groupsNotFound removedUsers removedGroups.
      rewrite !lostOverall_nodiff by done.
      by rewrite !difference_empty_L.
Qed.

Lemma union_list_empty (l : list (gset string)) :
  Forall (λ X, X = ∅) l → ⋃ l = ∅.
Proof.
  induction 1 as [|X l -> _ IH]; [done|]. simpl. rewrite IH.
  apply (left_id_L ∅ (∪)).
Qed.

(** C8: with the remover of section 4.2, filtering a binding leaves its
    subjects of kinds other than User and Group exactly as they were, a
    subject that disappears is a user or a group, no binding ever loses a
    service account or another kind of subject, and however the loop ends
    its [sasRemoved] and [othersRemoved] sets are empty. *)
Theorem C8_only_users_and_groups o :
  let str := SpecModel.BuildRBACSubjects (Users o) (Groups o) in
  (∀ b, filter notUserOrGroup (remainingSubjects str b)
        = filter notUserOrGroup (RoleBinding.Subjects b))
  ∧ (∀ b s, s ∈ RoleBinding.Subjects b → s ∉ remainingSubjects str b →
            Subject.Kind s = rbacv1.UserKind
            ∨ Subject.Kind s = rbacv1.GroupKind)
  ∧ (∀ b, lostBy sasOf str b = ∅ ∧ lostBy othersOf str b = ∅)
  ∧ (∀ items c c' tr acc,
       loop o (dryRunTextOf o) str items initAccum c = (c', tr, inr acc) →
       sasRemoved acc = ∅ ∧ othersRemoved acc = ∅).
Proof.
  intros str. split; [|split; [|split]].
  - intros b. by apply remaining_keeps_category.
  - intros b s Hin Hnot. subst str. rewrite remaining_filter in Hnot.
    destruct (decide (requested (Users o) (Groups o) s)) as [Hr|Hr].
    + unfold requested in Hr. tauto.
    + destruct Hnot. by apply list_elem_of_filter.
  - intros b. split; [apply sas_never_lost | apply others_never_lost].
  - intros items c c' tr acc Hloop.
    destruct (decide (0 < String.length (Output o))) as [Hout|Hout].
    + rewrite loop_output in Hloop by done. injection Hloop as _ _ <-.
      by destruct (accOutput_sets str items initAccum) as (_ & _ & -> & ->).
    + apply output_empty in Hout.
      apply loop_textual_ok in Hloop as [_ ->]; [|done].
      destruct (accTextual_sets str items initAccum)
        as (_ & _ & -> & -> & _).
      simpl. rewrite !(left_id_L ∅ (∪)). unfold lostOverall.
      split; apply union_list_empty, Forall_fmap, Forall_forall; intros b _;
        [apply sas_never_lost | apply others_never_lost].
Qed.


End RemoverFacts.

(** In a client dry run the not-found line is not of the form
    "Users [zoe] were not bound to roles in project demo.". *)
Lemma C5_not_found_report_counterexample :
  (Run (Fake.removeZoe DryRunClient) Fake.project).2 = inr ()
  ∧ written (Run (Fake.removeZoe DryRunClient) Fake.project).1.2
    = [ "Users [zoe] were not bound to roles in project demo (dry client run)."
          +:+ fmt.newline ]
  ∧ ("Users [zoe] were not bound to roles in project demo." +:+ fmt.newline)
    ∉ written (Run (Fake.removeZoe DryRunClient) Fake.project).1.2.
Proof.
  split; [reflexivity|]. split; [reflexivity|].
  apply (bool_decide_unpack _). vm_compute. exact I.
Qed.

Lemma C5_not_found_report_witness :
  written (Run (Fake.removeAliceAndDevs DryRunNone "") Fake.project).1.2
  = [ "Removing edit from users [alice] in project demo." +:+ fmt.newline;
      "Removing demo/admin from groups [devs] in project demo."
        +:+ fmt.newline;
      "Removing view from users [alice] in project demo." +:+ fmt.newline;
      "Groups [ops] were not bound to roles in project demo."
        +:+ fmt.newline ]
  ∧ mutationCalls (Run (Fake.removeZoe DryRunNone) Fake.project).1.2 = []
  ∧ written (Run (Fake.removeZoe DryRunNone) Fake.project).1.2
    = [ "Users [zoe] were not bound to roles in project demo."
          +:+ fmt.newline ].
Proof.
  assert (∀ o, client_List (BindingNamespace (Fake.options (Users o) (Groups o)
                                                (DryRun o) ""))
                 Fake.project
               = (Fake.project, inr [Fake.viewers; Fake.editors; Fake.admins]))
    as Hlisted by (intros; vm_compute; reflexivity).
  split.
  - assert (Run (Fake.removeAliceAndDevs DryRunNone "") Fake.project
            = ((Run (Fake.removeAliceAndDevs DryRunNone "") Fake.project).1.1,
               (Run (Fake.removeAliceAndDevs DryRunNone "") Fake.project).1.2,
               inr ())) as Hrun by (vm_compute; reflexivity).
    destruct (C5_not_found_report (Fake.removeAliceAndDevs DryRunNone "")
                Fake.project Fake.project
                [Fake.viewers; Fake.editors; Fake.admins] _ _ eq_refl
                (Hlisted (Fake.removeAliceAndDevs DryRunNone "")) Hrun)
      as (_ & _ & Hwritten & _).
    by_computing Hwritten.
  - assert (Run (Fake.removeZoe DryRunNone) Fake.project
            = ((Run (Fake.removeZoe DryRunNone) Fake.project).1.1,
               (Run (Fake.removeZoe DryRunNone) Fake.project).1.2,
               inr ())) as Hrun by (vm_compute; reflexivity).
    destruct (C5_not_found_report (Fake.removeZoe DryRunNone)
                Fake.project Fake.project
                [Fake.viewers; Fake.editors; Fake.admins] _ _ eq_refl
                (Hlisted (Fake.removeZoe DryRunNone)) Hrun)
      as (_ & _ & _ & _ & Hnothing).
    assert (Forall (λ b, Forall (λ s, ¬ requested ["zoe"] [] s)
                           (RoleBinding.Subjects b))
              [Fake.viewers; Fake.editors; Fake.admins]) as Hnone
      by (apply (bool_decide_unpack _); vm_compute; exact I).
    destruct Hnothing as [Hcalls Hlines].
    { intros b s Hb Hs. rewrite Forall_forall in Hnone.
      specialize (Hnone b Hb). rewrite Forall_forall in Hnone.
      exact (Hnone s Hs). }
    split; [exact Hcalls|]. by_computing Hlines.
Defined.

Lemma C8_only_users_and_groups_witness :
  remainingSubjects Fake.request Fake.admins
  = [Fake.serviceAccount "demo" "builder"; Fake.user "carol"]
  ∧ sasRemoved (accTextual Fake.request
                  [Fake.editors; Fake.admins; Fake.viewers] initAccum) = ∅
  ∧ othersRemoved (accTextual Fake.request
                     [Fake.editors; Fake.admins; Fake.viewers] initAccum) = ∅.
Proof.
  destruct (C8_only_users_and_groups (C:=Fake.t)
              (Fake.removeAliceAndDevs DryRunNone ""))
    as (_ & _ & _ & Hloop).
  split; [reflexivity|].
  apply (Hloop [Fake.editors; Fake.admins; Fake.viewers] Fake.project
           (loop (Fake.removeAliceAndDevs DryRunNone "") "" Fake.request
              [Fake.editors; Fake.admins; Fake.viewers] initAccum
              Fake.project).1.1
           (loop (Fake.removeAliceAndDevs DryRunNone "") "" Fake.request
              [Fake.editors; Fake.admins; Fake.viewers] initAccum
              Fake.project).1.2).
  vm_compute. reflexivity.
Defined.



(** * Further properties of the commands and the engine *)

(** X3: [subjectsStrings] puts every subject in exactly one of its four
    lists, chosen by kind, in the original order: users and groups by name,
    service accounts as namespace/name, anything else as
    kind/namespace/name; the four lengths add up to the number of
    subjects. *)
Theorem X3_subjectsStrings_partition (subjects : list Subject.t) :
  let '(users, groups, sas, others) := subjectsStrings subjects in
  users
  = map Subject.Name
      (filter (λ s, Subject.Kind s = rbacv1.UserKind) subjects)
  ∧ groups
    = map Subject.Name
        (filter (λ s, Subject.Kind s = rbacv1.GroupKind) subjects)
  ∧ sas
    = map (λ s, Subject.Namespace s +:+ "/" +:+ Subject.Name s)
        (filter (λ s, Subject.Kind s = rbacv1.ServiceAccountKind) subjects)
  ∧ others
    = map (λ s, Subject.Kind s +:+ "/" +:+ Subject.Namespace s +:+ "/"
                  +:+ Subject.Name s)
        (filter otherKind subjects)
  ∧ length users + length groups + length sas + length others
    = length subjects.
Proof.
  rewrite subjectsStrings_categories. repeat (split; [done|]).
  rewrite !length_map.
  induction subjects as [|s l IH]; [done|].
  rewrite !filter_cons. simpl.
  repeat case_decide; simpl; try lia;
    unfold otherKind, rbacv1.ServiceAccountKind, rbacv1.UserKind,
      rbacv1.GroupKind in *;
    exfalso; intuition congruence.
Qed.

Section MoreEngineFacts.
Context {C : Type} `{!RoleBindingInterface C} `{!ResourcePrinter}
        `{!SubjectHelpers}.

Implicit Types (o : RemoveFromProjectOptions) (c : C) (acc : Accum)
               (b : RoleBinding.t) (cl : CommandLine).

(** X1: when [Complete] fails, for want of an argument or because a flag,
    the printer, the REST configuration, the client or the namespace
    lookup fails, the command ends with that error before anything is
    listed or written; with no argument the error names the expected
    argument. *)
Theorem X1_command_fails_early target targetName cl args c :
  (∀ err,
     (Complete cl NewRemoveFromProjectOptions args target targetName).2
     = Some err →
     command target targetName cl args c = (c, [], inl err))
  ∧ (args = [] →
     command target targetName cl args c
     = (c, [],
        inl ("you must specify at least one argument: <" +:+ targetName
               +:+ "> [" +:+ targetName +:+ "]..."))).
Proof.
  split.
  - intros err Herr. unfold command.
    destruct (Complete _ _ _ _ _) as [o' [e|]]; simpl in Herr; [|done].
    by injection Herr as ->.
  - intros ->. reflexivity.
Qed.

Lemma Complete_ok cl args target targetName :
  (Complete cl NewRemoveFromProjectOptions args target targetName).2 = None →
  args ≠ []
  ∧ (Complete cl NewRemoveFromProjectOptions args target targetName).1
    = {| BindingNamespace := (kubeconfigNamespace cl).1;
         Groups := match target with GroupsTarget => args | _ => [] end;
         Users := match target with UsersTarget => args | _ => [] end;
         DryRun := (dryRunFlag cl).1;
         Output := outputFlag cl |}.
Proof.
  unfold Complete. destruct args as [|a args]; [done|].
  rewrite decide_False by (simpl; lia).
  destruct (dryRunFlag cl) as [d [e|]]; [done|]. simpl.
  destruct (toPrinter cl); [done|]. destruct (toRESTConfig cl); [done|].
  destruct (newForConfig cl); [done|].
  destruct (kubeconfigNamespace cl) as [ns [e|]]; [done|]. simpl.
  intros _. split; [done|]. by destruct target.
Qed.

(** X2: remove-user hands the engine exactly its arguments as users and no
    group, remove-group its arguments as groups and no user; a successful
    textual remove-user run therefore ends with at most the "Users" line
    and never writes a "Groups ... were not bound" line (and conversely). *)
Theorem X2_command_requests_one_kind cl args c :
  (Complete cl NewRemoveFromProjectOptions args UsersTarget "user").2 = None →
  let forUsers :=
    {| BindingNamespace := (kubeconfigNamespace cl).1; Groups := [];
       Users := args; DryRun := (dryRunFlag cl).1;
       Output := outputFlag cl |} in
  let forGroups :=
    {| BindingNamespace := (kubeconfigNamespace cl).1; Groups := args;
       Users := []; DryRun := (dryRunFlag cl).1;
       Output := outputFlag cl |} in
  RemoveUserFromProject cl args c = Run forUsers c
  ∧ RemoveGroupFromProject cl args c = Run forGroups c
  ∧ (∀ c0 listed c' tr,
       outputFlag cl = "" →
       client_List (BindingNamespace forUsers) c = (c0, inr listed) →
       Run forUsers c = (c', tr, inr ()) →
       let str := BuildRBACSubjects args [] in
       let order := sortedItems listed in
       written tr
       = flat_map
           (bindingLines (BindingNamespace forUsers) (dryRunTextOf forUsers)
              str)
           (filter (hasDiff str) order)
         ++ notBoundLines (BindingNamespace forUsers) (dryRunTextOf forUsers)
              "Users" args (lostOverall usersOf str order))
  ∧ (∀ c0 listed c' tr,
       outputFlag cl = "" →
       client_List (BindingNamespace forGroups) c = (c0, inr listed) →
       Run forGroups c = (c', tr, inr ()) →
       let str := BuildRBACSubjects [] args in
       let order := sortedItems listed in
       written tr
       = flat_map
           (bindingLines (BindingNamespace forGroups)
              (dryRunTextOf forGroups) str)
           (filter (hasDiff str) order)
         ++ notBoundLines (BindingNamespace forGroups)
              (dryRunTextOf forGroups) "Groups" args
              (lostOverall groupsOf str order)).
Proof.
  intros Hok forUsers forGroups.
  assert ((Complete cl NewRemoveFromProjectOptions args GroupsTarget
             "group").2 = None) as Hok'.
  { revert Hok. unfold Complete. case_decide; [done|].
    destruct (dryRunFlag cl) as [d [e|]]; [done|]. simpl.
    destruct (toPrinter cl); [done|]. destruct (toRESTConfig cl); [done|].
    destruct (newForConfig cl); [done|].
    by destruct (kubeconfigNamespace cl) as [ns [e|]]. }
  destruct (Complete_ok _ _ _ _ Hok) as [Hne Hu].
  destruct (Complete_ok _ _ _ _ Hok') as [_ Hg].
  assert (∀ ns drt cat removed, notBoundLines ns drt cat [] removed = [])
    as Hnone.
  { intros. unfold notBoundLines, sets.Difference, sets.NewString.
    rewrite decide_False; [done|]. intros Hn. apply Hn.
    apply sets_Len_0. apply subseteq_empty_difference_L, empty_subseteq. }
  split; [|split; [|split]].
  - unfold RemoveUserFromProject, command.
    destruct (Complete _ _ _ UsersTarget _) as [o' [e|]]; [done|].
    simpl in Hu. by rewrite Hu.
  - unfold RemoveGroupFromProject, command.
    destruct (Complete _ _ _ GroupsTarget _) as [o' [e|]]; [done|].
    simpl in Hg. by rewrite Hg.
  - intros c0 listed c' tr Hout Hl Hrun str order.
    rewrite (Run_textual_ok forUsers _ _ _ _ _ Hout Hl Hrun).
    change (written (CallList ?n :: ?t)) with (written t).
    rewrite written_app, written_Fprintf, written_flat_bindingEvents.
    simpl. by rewrite Hnone, app_nil_r.
  - intros c0 listed c' tr Hout Hl Hrun str order.
    rewrite (Run_textual_ok forGroups _ _ _ _ _ Hout Hl Hrun).
    change (written (CallList ?n :: ?t)) with (written t).
    rewrite written_app, written_Fprintf, written_flat_bindingEvents.
    simpl. by rewrite Hnone.
Qed.

(** X4: the order in which the server lists the bindings does not matter:
    two listings of the same bindings, with pairwise distinct names, are
    sorted into the same list and give the same run. *)
Theorem X4_listing_order_irrelevant o c1 c2 c0 l1 l2 :
  client_List (BindingNamespace o) c1 = (c0, inr l1) →
  client_List (BindingNamespace o) c2 = (c0, inr l2) →
  l1 ≡ₚ l2 →
  NoDup (map RoleBinding.Name l1) →
  sortedItems l1 = sortedItems l2 ∧ Run o c1 = Run o c2.
Proof.
  intros H1 H2 Hp Hnd.
  assert (sortedItems l1 = sortedItems l2) as Heq.
  { apply descending_unique.
    - by rewrite sortedItems_perm.
    - by apply sortedItems_strict.
    - by rewrite <- Hp. }
  split; [done|].
  by rewrite (Run_listed _ _ _ _ H1), (Run_listed _ _ _ _ H2), Heq.
Qed.

Lemma loop_server_dry_run o drt str items acc c :
  loop (withDryRun DryRunServer o) drt str items acc c
  = loop (withDryRun DryRunNone o) drt str items acc c.
Proof.
  revert acc c. induction items as [|b items IH]; intros acc c; [done|].
  simpl. apply bind_ext. intros acc1 c1. apply IH.
Qed.

(** X5: the server dry-run strategy is not told apart from no dry run: the
    run makes the same client calls, with the same (empty) options, and
    writes the same text. *)
Theorem X5_server_dry_run_is_live o c :
  Run (withDryRun DryRunServer o) c = Run (withDryRun DryRunNone o) c.
Proof.
  unfold Run. apply bind_ext. intros listed c0. simpl.
  change (dryRunTextOf (withDryRun DryRunServer o)) with "".
  change (dryRunTextOf (withDryRun DryRunNone o)) with "".
  unfold bind. rewrite loop_server_dry_run.
  destruct (loop _ _ _ _ _ c0) as [[c1 tr1] [e|acc]]; done.
Qed.

(** X6: once an output format is asked for, the dry-run strategy plays no
    part: the run is the same for every strategy. *)
Theorem X6_output_ignores_dry_run o d c :
  Output o ≠ "" → Run (withDryRun d o) c = Run o c.
Proof.
  intros Hout. apply output_nonempty in Hout.
  destruct (client_List (BindingNamespace o) c) as [c0 [e|listed]] eqn:Hl.
  - by rewrite (Run_list_error o c c0 e),
      (Run_list_error (withDryRun d o) c c0 e).
  - rewrite (Run_listed o c c0 listed), (Run_listed (withDryRun d o) c c0 listed)
      by done.
    rewrite !loop_output by done. simpl.
    by rewrite !decide_True by done.
Qed.

Lemma Run_mutations o c c0 listed :
  client_List (BindingNamespace o) c = (c0, inr listed) →
  let str := BuildRBACSubjects (Users o) (Groups o) in
  ∃ sent,
    sublist sent (filter (hasDiff str) (sortedItems listed))
    ∧ mutationCalls (Run o c).1.2
      = map (mutationFor (BindingNamespace o) str) sent.
Proof.
  intros Hl str.
  destruct (decide (0 < String.length (Output o))) as [Hout|Hout].
  - exists []. split; [apply sublist_nil_l|].
    rewrite (Run_listed _ _ _ _ Hl), loop_output by done.
    by rewrite decide_True by done.
  - apply output_empty in Hout.
    destruct (Run o c) as [[c' tr] [e|[]]] eqn:Hrun; simpl.
    + destruct (Run_textual_fail _ _ _ _ _ _ _ Hout Hl Hrun)
        as [Hlive (pre & b & post & Hf & ->)].
      exists (pre ++ [b]). fold str in Hf. split.
      * rewrite Hf. apply sublist_app; [done|].
        apply sublist_skip, sublist_nil_l.
      * change (mutationCalls (CallList ?n :: ?t)) with (mutationCalls t).
        rewrite mutationCalls_app, mutationCalls_flat_bindingEvents.
        rewrite decide_True by done.
        by rewrite mutationCalls_mutationFor, map_app.
    + rewrite (Run_textual_ok _ _ _ _ _ _ Hout Hl Hrun).
      change (mutationCalls (CallList ?n :: ?t)) with (mutationCalls t).
      rewrite mutationCalls_app, mutationCalls_Fprintf, app_nil_r.
      rewrite mutationCalls_flat_bindingEvents. fold str.
      destruct (decide (DryRun o ≠ DryRunClient)).
      * by exists (filter (hasDiff str) (sortedItems listed)).
      * exists []. split; [apply sublist_nil_l | done].
Qed.

(** X7: whatever the mode and however the run ends, an update sent to the
    client is for the run's namespace and carries a listed binding with its
    remaining, non-empty subject list; a delete is for the run's namespace
    and names a listed binding that had subjects and keeps none.  The
    engine never updates a binding to an empty subject list. *)
Theorem X7_mutations_are_well_formed o c c0 listed :
  client_List (BindingNamespace o) c = (c0, inr listed) →
  let ns := BindingNamespace o in
  let str := BuildRBACSubjects (Users o) (Groups o) in
  let tr := (Run o c).1.2 in
  (∀ ns' b',
     CallUpdate ns' b' ∈ tr →
     ns' = ns ∧ RoleBinding.Subjects b' ≠ []
     ∧ ∃ b, b ∈ listed
            ∧ b' = RoleBinding.setSubjects b (remainingSubjects str b)
            ∧ length (RoleBinding.Subjects b')
              ≠ length (RoleBinding.Subjects b))
  ∧ (∀ ns' name,
       CallDelete ns' name ∈ tr →
       ns' = ns
       ∧ ∃ b, b ∈ listed ∧ name = RoleBinding.Name b
              ∧ remainingSubjects str b = []
              ∧ RoleBinding.Subjects b ≠ []).
Proof.
  intros Hl ns str tr.
  destruct (Run_mutations o c c0 listed Hl) as (sent & Hsub & Hcalls).
  fold str in Hsub, Hcalls. fold tr in Hcalls.
  assert (∀ e, e ∈ tr → isMutation e = true →
               ∃ b, b ∈ listed ∧ hasDiff str b ∧ e = mutationFor ns str b)
    as Hshape.
  { intros e He Hm.
    assert (e ∈ mutationCalls tr) as Hin
      by (apply list_elem_of_filter; split; [by rewrite Hm | done]).
    rewrite Hcalls in Hin. apply list_elem_of_fmap in Hin as (b & -> & Hb).
    exists b. assert (b ∈ filter (hasDiff str) (sortedItems listed)) as Hb'
      by (by eapply elem_of_sublist).
    apply list_elem_of_filter in Hb' as [Hd Hb'].
    rewrite (sortedItems_perm listed) in Hb'. done. }
  split.
  - intros ns' b' Hin.
    destruct (Hshape _ Hin eq_refl) as (b & Hb & Hd & Heq).
    unfold mutationFor in Heq.
    destruct (decide (0 < length (remainingSubjects str b))) as [Hpos|];
      [|done].
    injection Heq as -> ->. split; [done|]. split.
    + simpl. intros Hnil. rewrite Hnil in Hpos. simpl in Hpos. lia.
    + exists b. done.
  - intros ns' name Hin.
    destruct (Hshape _ Hin eq_refl) as (b & Hb & Hd & Heq).
    unfold mutationFor in Heq.
    destruct (decide (0 < length (remainingSubjects str b))) as [|Hzero];
      [done|].
    injection Heq as -> ->. split; [done|]. exists b.
    assert (remainingSubjects str b = []) as Hnil
      by (destruct (remainingSubjects str b); [done | simpl in Hzero; lia]).
    repeat split; try done.
    intros Hempty. apply Hd. by rewrite Hnil, Hempty.
Qed.

(** X8: with pairwise distinct binding names no binding is mutated twice in
    a run, and every mutation is addressed to a listed binding. *)
Theorem X8_one_mutation_per_binding o c c0 listed :
  client_List (BindingNamespace o) c = (c0, inr listed) →
  NoDup (map RoleBinding.Name listed) →
  NoDup (omap mutationTarget (mutationCalls (Run o c).1.2))
  ∧ ∀ name, name ∈ omap mutationTarget (mutationCalls (Run o c).1.2) →
            name ∈ map RoleBinding.Name listed.
Proof.
  intros Hl Hnd.
  destruct (Run_mutations o c c0 listed Hl) as (sent & Hsub & ->).
  assert (omap mutationTarget
            (map (mutationFor (BindingNamespace o)
                    (BuildRBACSubjects (Users o) (Groups o))) sent)
          = map RoleBinding.Name sent) as ->.
  { clear Hsub. induction sent as [|b l IH]; [done|]. simpl.
    rewrite mutationFor_target. simpl. f_equal. apply IH. }
  assert (sublist sent (sortedItems listed)) as Hsub'
    by (etrans; [exact Hsub | apply sublist_filter]).
  assert (NoDup (map RoleBinding.Name (sortedItems listed))) as Hnd'
    by (by rewrite sortedItems_perm).
  split.
  - eapply sublist_NoDup; [exact Hnd'|]. by apply fmap_sublist.
  - intros name Hin. apply list_elem_of_fmap in Hin as (b & -> & Hb).
    apply list_elem_of_fmap. exists b. split; [done|].
    rewrite <- (sortedItems_perm listed). by eapply elem_of_sublist.
Qed.

(** X9: on a project without role bindings the run sends no mutation; in
    textual mode it reports every requested user and every requested group
    as not bound, and with an output format it prints the empty list. *)
Theorem X9_empty_project o c c0 :
  client_List (BindingNamespace o) c = (c0, inr []) →
  let ns := BindingNamespace o in
  let emptyList :=
    {| RoleBindingList.Kind := "List"; RoleBindingList.APIVersion := "v1";
       RoleBindingList.Items := [] |} in
  Run o c
  = if decide (Output o = "") then
      (c0,
       CallList ns
         :: map Fprintf
              (notBoundLines ns (dryRunTextOf o) "Users" (Users o) ∅
               ++ notBoundLines ns (dryRunTextOf o) "Groups" (Groups o) ∅),
       inr ())
    else
      (c0, [CallList ns; CallPrintObj emptyList],
       ofError (PrintObj emptyList)).
Proof.
  intros Hl ns emptyList. rewrite (Run_listed _ _ _ _ Hl).
  change (sortedItems []) with (@nil RoleBinding.t). simpl.
  destruct (decide (Output o = "")) as [Hout|Hout].
  - by rewrite decide_False by (by apply output_empty).
  - by rewrite decide_True by (by apply output_nonempty).
Qed.
End MoreEngineFacts.

Lemma X1_command_fails_early_witness :
  command UsersTarget "user" (plainCommandLine DryRunNone "") [] Fake.project
  = (Fake.project, [],
     inl "you must specify at least one argument: <user> [user]...")
  ∧ command GroupsTarget "group"
      {| outputFlag := ""; dryRunFlag := (DryRunNone, Some "invalid dry-run");
         toPrinter := None; toRESTConfig := None; newForConfig := None;
         kubeconfigNamespace := ("demo", None) |}
      ["devs"] Fake.project
    = (Fake.project, [], inl "invalid dry-run").
Proof.
  split.
  - apply (proj2 (X1_command_fails_early UsersTarget "user"
                    (plainCommandLine DryRunNone "") [] Fake.project)).
    reflexivity.
  - apply (proj1 (X1_command_fails_early GroupsTarget "group" _ ["devs"]
                    Fake.project)).
    reflexivity.
Defined.

Lemma X2_command_requests_one_kind_witness :
  RemoveUserFromProject (plainCommandLine DryRunNone "") ["alice"; "zoe"]
    Fake.project
  = Run (Fake.options ["alice"; "zoe"] [] DryRunNone "") Fake.project
  ∧ written
      (Run (Fake.options ["alice"; "zoe"] [] DryRunNone "") Fake.project).1.2
    = [ "Removing edit from users [alice] in project demo." +:+ fmt.newline;
        "Removing view from users [alice] in project demo." +:+ fmt.newline;
        "Users [zoe] were not bound to roles in project demo."
          +:+ fmt.newline ].
Proof.
  destruct (X2_command_requests_one_kind (plainCommandLine DryRunNone "")
              ["alice"; "zoe"] Fake.project eq_refl)
    as (Hcmd & _ & Hlines & _).
  split; [exact Hcmd|].
  assert (Run (Fake.options ["alice"; "zoe"] [] DryRunNone "") Fake.project
          = ((Run (Fake.options ["alice"; "zoe"] [] DryRunNone "")
                Fake.project).1.1,
             (Run (Fake.options ["alice"; "zoe"] [] DryRunNone "")
                Fake.project).1.2,
             inr ())) as Hrun by (vm_compute; reflexivity).
  assert (client_List "demo" Fake.project
          = (Fake.project, inr [Fake.viewers; Fake.editors; Fake.admins]))
    as Hlisted by (vm_compute; reflexivity).
  by_computing (Hlines Fake.project _ _ _ eq_refl Hlisted Hrun).
Defined.

Lemma X4_listing_order_irrelevant_witness :
  Run (Fake.removeAliceAndDevs DryRunNone "") (Mirror.mk Fake.project true)
  = Run (Fake.removeAliceAndDevs DryRunNone "") (Mirror.mk Fake.project false).
Proof.
  assert (NoDup (map RoleBinding.Name
                   (reverse [Fake.viewers; Fake.editors; Fake.admins])))
    as Hnd by (apply (bool_decide_unpack _); vm_compute; exact I).
  assert (reverse [Fake.viewers; Fake.editors; Fake.admins]
          ≡ₚ [Fake.viewers; Fake.editors; Fake.admins]) as Hperm
    by apply reverse_Permutation.
  assert (client_List
            (BindingNamespace (Fake.removeAliceAndDevs DryRunNone ""))
            (Mirror.mk Fake.project true)
          = (Mirror.mk Fake.project false,
             inr (reverse [Fake.viewers; Fake.editors; Fake.admins])))
    as H1 by (vm_compute; reflexivity).
  assert (client_List
            (BindingNamespace (Fake.removeAliceAndDevs DryRunNone ""))
            (Mirror.mk Fake.project false)
          = (Mirror.mk Fake.project false,
             inr [Fake.viewers; Fake.editors; Fake.admins]))
    as H2 by (vm_compute; reflexivity).
  exact (proj2 (X4_listing_order_irrelevant _ _ _ _ _ _ H1 H2 Hperm Hnd)).
Defined.

Lemma X6_output_ignores_dry_run_witness :
  Run (withDryRun DryRunClient (Fake.removeAliceAndDevs DryRunNone "yaml"))
    Fake.project
  = Run (Fake.removeAliceAndDevs DryRunNone "yaml") Fake.project.
Proof.
  apply (X6_output_ignores_dry_run (Fake.removeAliceAndDevs DryRunNone "yaml")
           DryRunClient Fake.project).
  discriminate.
Defined.

Lemma X7_mutations_are_well_formed_witness :
  CallDelete "demo" "c"
  ∈ (Run (Fake.removeAliceAndDevs DryRunNone "") Fake.project).1.2
  ∧ ∃ b, b ∈ [Fake.viewers; Fake.editors; Fake.admins]
         ∧ "c" = RoleBinding.Name b
         ∧ remainingSubjects
             (BuildRBACSubjects
                (Users (Fake.removeAliceAndDevs DryRunNone ""))
                (Groups (Fake.removeAliceAndDevs DryRunNone ""))) b
           = []
         ∧ RoleBinding.Subjects b ≠ [].
Proof.
  assert (client_List
            (BindingNamespace (Fake.removeAliceAndDevs DryRunNone ""))
            Fake.project
          = (Fake.project, inr [Fake.viewers; Fake.editors; Fake.admins]))
    as Hlisted by (vm_compute; reflexivity).
  assert (CallDelete "demo" "c"
          ∈ (Run (Fake.removeAliceAndDevs DryRunNone "") Fake.project).1.2)
    as Hsent by (apply (bool_decide_unpack _); vm_compute; exact I).
  split; [exact Hsent|].
  destruct (X7_mutations_are_well_formed _ _ _ _ Hlisted) as [_ Hdelete].
  exact (proj2 (Hdelete "demo" "c" Hsent)).
Defined.

Lemma X8_one_mutation_per_binding_witness :
  NoDup
    (omap mutationTarget
       (mutationCalls
          (Run (Fake.removeAliceAndDevs DryRunNone "") Fake.guarded).1.2)).
Proof.
  assert (client_List
            (BindingNamespace (Fake.removeAliceAndDevs DryRunNone ""))
            Fake.guarded
          = (Fake.guarded, inr [Fake.viewers; Fake.editors; Fake.admins]))
    as Hlisted by (vm_compute; reflexivity).
  assert (NoDup (map RoleBinding.Name
                   [Fake.viewers; Fake.editors; Fake.admins])) as Hnd
    by (apply (bool_decide_unpack _); vm_compute; exact I).
  exact (proj1 (X8_one_mutation_per_binding _ _ _ _ Hlisted Hnd)).
Defined.

Lemma X9_empty_project_witness :
  Run (Fake.removeAliceAndDevs DryRunNone "") (Fake.cluster [])
  = (Fake.cluster [],
     [CallList "demo";
      Fprintf ("Users [alice] were not bound to roles in project demo."
                 +:+ fmt.newline);
      Fprintf ("Groups [devs ops] were not bound to roles in project demo."
                 +:+ fmt.newline)],
     inr ()).
Proof.
  by_computing (X9_empty_project (Fake.removeAliceAndDevs DryRunNone "")
                  (Fake.cluster []) (Fake.cluster [])).
  reflexivity.
Defined.

(** * Properties of the tools command *)

(** ** Go string trimming *)

Lemma substring_app_l (p r : string) :
  String.substring 0 (String.length p) (p +:+ r) = p.
Proof.
  induction p as [|a p IH]; simpl.
  - by destruct r.
  - change (String a p +:+ r) with (String a (p +:+ r)). simpl.
    by rewrite IH.
Qed.

Lemma substring_app_r (p r : string) :
  String.substring (String.length p) (String.length r) (p +:+ r) = r.
Proof.
  induction p as [|a p IH].
  - change ("" +:+ r) with r. simpl.
    induction r as [|b r IHr]; [done|]. simpl. by rewrite IHr.
  - change (String a p +:+ r) with (String a (p +:+ r)). simpl. apply IH.
Qed.

Lemma length_append (p r : string) :
  String.length (p +:+ r) = String.length p + String.length r.
Proof.
  induction p as [|a p IH]; [done|].
  change (String a p +:+ r) with (String a (p +:+ r)). simpl.
  by rewrite IH.
Qed.

Lemma TrimPrefix_app (p r : string) : tools.TrimPrefix (p +:+ r) p = r.
Proof.
  unfold tools.TrimPrefix, tools.HasPrefix.
  rewrite substring_app_l, String.eqb_refl, length_append.
  rewrite bool_decide_eq_true_2 by lia. simpl.
  replace (String.length p + String.length r - String.length p)
    with (String.length r) by lia.
  apply substring_app_r.
Qed.

Lemma TrimSuffix_app (r q : string) : tools.TrimSuffix (r +:+ q) q = r.
Proof.
  unfold tools.TrimSuffix, tools.HasSuffix. rewrite length_append.
  replace (String.length r + String.length q - String.length q)
    with (String.length r) by lia.
  rewrite substring_app_r, String.eqb_refl.
  rewrite bool_decide_eq_true_2 by lia. simpl.
  apply substring_app_l.
Qed.

Section ToolsFacts.
Context {W : Type} `{!tools.Host W}.

Implicit Types (w : W) (o : tools.ToolsOptions) (c : tools.ToolsClient)
               (f : tools.Factory).

Lemma andThen_ok {A B} (m : tools.Act A) (k : A → tools.Act B) w w1 ev a :
  m w = (w1, ev, inr a) →
  tools.andThen m k w
  = match k a w1 with (w2, ev2, r) => (w2, ev ++ ev2, r) end.
Proof. intros Hm. unfold tools.andThen. by rewrite Hm. Qed.

Lemma andThen_fail {A B} (m : tools.Act A) (k : A → tools.Act B) w w1 ev e :
  m w = (w1, ev, inl e) → tools.andThen m k w = (w1, ev, inl e).
Proof. intros Hm. unfold tools.andThen. by rewrite Hm. Qed.

(** ** [Run] and [remove] *)

(** X10: [--remove] takes precedence over [--install] and [--available]:
    the run then consists of a single [os.Remove] of the binary's path (the
    binary directory joined with the name, plus ".exe" on windows), returns
    its result, and never contacts the tool service, whether or not a
    client was set up. *)
Theorem X10_remove_takes_precedence o w :
  tools.Remove_ o ≠ "" →
  let path := tools.filepath_Join (tools.BinaryPath o) (tools.Remove_ o) in
  let path :=
    if decide (tools.GOOS = "windows") then path +:+ ".exe" else path in
  tools.Run o w
  = ((tools.os_Remove path w).1, [tools.Remove path],
     ofError (tools.os_Remove path w).2).
Proof.
  intros Hne path path'. unfold tools.Run.
  rewrite decide_True by (destruct (tools.Remove_ o); simpl; [done | lia]).
  unfold tools.remove, tools.attempt, tools.binaryPathFor.
  fold path. fold path'. by destruct (tools.os_Remove path' w).
Qed.

(** ** [available] *)

Lemma availableRow_run tool binaries w :
  tools.availableRow tool binaries w
  = (w,
     if decide (Exists (λ bin, tools.CLIToolBinary.Architecture bin
                               = tools.GOARCH
                               ∧ tools.CLIToolBinary.OS bin = tools.GOOS)
                  binaries)
     then [tools.TabWrite (tools.row tool)] else [],
     inr ()).
Proof.
  induction binaries as [|bin rest IH]; [done|]. cbn [tools.availableRow].
  - destruct (decide (_ ∧ _)) as [Hm|Hm].
    + rewrite decide_True; [done|]. by left.
    + rewrite IH. apply pair_equal_spec. split; [|done].
      apply pair_equal_spec. split; [done|].
      apply decide_ext. rewrite Exists_cons. tauto.
Qed.

Lemma availableRows_run (items : list tools.CLITool.t) w :
  tools.availableRows items w
  = (w,
     map tools.TabWrite (map tools.row (filter tools.supported items)),
     inr ()).
Proof.
  induction items as [|tool rest IH]; [done|]. simpl.
  unfold tools.andThen. rewrite availableRow_run, IH, filter_cons.
  unfold tools.supported at 2. by repeat case_decide.
Qed.

(** X11: [available] writes the header, then one row per listed tool that
    has at least one binary for this operating system and architecture, in
    listing order and once per tool however many of its binaries match,
    then flushes; if the listing fails it returns that error and writes
    nothing. *)
Theorem X11_available_rows o c w :
  tools.client o = Some c →
  match tools.List c w with
  | (w1, ev, inl err) => tools.available o w = (w1, ev, inl err)
  | (w1, ev, inr list) =>
      tools.available o w
      = (w1,
         ev ++ tools.TabWrite tools.header
               :: map tools.TabWrite
                    (map tools.row
                       (filter tools.supported
                          (tools.CLIToolList.Items list)))
               ++ [tools.TabFlush],
         inr ())
  end.
Proof.
  intros Hc. unfold tools.available, tools.withClient. rewrite Hc.
  destruct (tools.List c w) as [[w1 ev] [err|list]] eqn:Hl.
  - by rewrite (andThen_fail _ _ _ _ _ _ Hl).
  - rewrite (andThen_ok _ _ _ _ _ _ Hl). unfold tools.andThen.
    simpl. by rewrite availableRows_run.
Qed.

(** ** [install] *)

Lemma installFrom_absent o name (items : list tools.CLITool.t) w :
  Forall (λ tool, tools.CLITool.Name tool ≠ name) items →
  tools.installFrom o name items w
  = (w, [], inl ("tool " +:+ name +:+ " not found")).
Proof.
  induction 1 as [|tool rest Hne _ IH]; [done|]. simpl.
  by rewrite decide_False.
Qed.

Lemma installFrom_first o name (pre post : list tools.CLITool.t) tool c w :
  tools.client o = Some c →
  Forall (λ tool, tools.CLITool.Name tool ≠ name) pre →
  tools.CLITool.Name tool = name →
  tools.installFrom o name (pre ++ tool :: post) w
  = tools.Download c tool tools.GOOS tools.GOARCH
      (tools.binaryPathFor o name) w.
Proof.
  intros Hc Hpre Hname. induction Hpre as [|x pre Hne _ IH]; simpl.
  - rewrite decide_True by done. unfold tools.withClient.
    by rewrite Hc, Hname.
  - by rewrite decide_False.
Qed.

(** X12: installing a name that no listed tool bears fails with "tool NAME
    not found" after the listing alone: no download is requested and no
    file is opened. *)
Theorem X12_install_unknown_tool o c w w1 ev list :
  tools.client o = Some c →
  tools.List c w = (w1, ev, inr list) →
  Forall (λ tool, tools.CLITool.Name tool ≠ tools.Install o)
    (tools.CLIToolList.Items list) →
  tools.install o w
  = (w1, ev, inl ("tool " +:+ tools.Install o +:+ " not found")).
Proof.
  intros Hc Hl Hnone. unfold tools.install, tools.withClient. rewrite Hc.
  rewrite (andThen_ok _ _ _ _ _ _ Hl).
  rewrite installFrom_absent by done. by rewrite app_nil_r.
Qed.

(** X13: installing a listed name downloads the first tool with that name,
    for this operating system and architecture, to the binary directory
    joined with the name (plus ".exe" on windows); tools listed after it
    are not looked at, and the download's result is the command's. *)
Theorem X13_install_first_match o c w w1 ev list pre tool post :
  tools.client o = Some c →
  tools.List c w = (w1, ev, inr list) →
  tools.CLIToolList.Items list = pre ++ tool :: post →
  Forall (λ tool, tools.CLITool.Name tool ≠ tools.Install o) pre →
  tools.CLITool.Name tool = tools.Install o →
  let path :=
    tools.filepath_Join (tools.BinaryPath o) (tools.Install o) in
  let path :=
    if decide (tools.GOOS = "windows") then path +:+ ".exe" else path in
  tools.install o w
  = match tools.Download c tool tools.GOOS tools.GOARCH path w1 with
    | (w2, ev2, r) => (w2, ev ++ ev2, r)
    end.
Proof.
  intros Hc Hl Hitems Hpre Hname path path'.
  unfold tools.install, tools.withClient. rewrite Hc.
  rewrite (andThen_ok _ _ _ _ _ _ Hl), Hitems.
  by rewrite (installFrom_first _ _ _ _ _ _ _ Hc Hpre Hname).
Qed.

(** ** [installed] *)

Lemma toolsByName_lookup (items : list tools.CLITool.t) name :
  tools.toolsByName items !! name
  = last (filter (λ tool, tools.CLITool.Name tool = name) items).
Proof.
  unfold tools.toolsByName.
  enough (∀ m : gmap string tools.CLITool.t,
    foldl (λ tools tool, <[tools.CLITool.Name tool := tool]> tools) m items
      !! name
    = match last (filter (λ tool, tools.CLITool.Name tool = name) items) with
      | Some tool => Some tool
      | None => m !! name
      end) as Hgen.
  { rewrite Hgen, lookup_empty. by destruct (last _). }
  induction items as [|a rest IH]; intros m; [done|]. simpl.
  rewrite IH, filter_cons.
  destruct (decide (tools.CLITool.Name a = name)) as [Ha|Ha].
  - rewrite last_cons. destruct (last _); [done|].
    by rewrite Ha, lookup_insert_eq.
  - destruct (last _); [done|]. by rewrite lookup_insert_ne.
Qed.

Lemma installedRows_run (items : list tools.CLITool.t)
    (files : list tools.DirEntry) w :
  tools.installedRows (tools.toolsByName items) files w
  = (w,
     map tools.TabWrite (map tools.row (omap (tools.toolOfFile items) files)),
     inr ()).
Proof.
  induction files as [|file rest IH]; [done|].
  cbn [tools.installedRows omap list_omap]. unfold tools.toolOfFile at 1.
  destruct (tools.EntryIsDir file); [exact IH|].
  rewrite toolsByName_lookup. destruct (last _) as [tool|]; [|exact IH].
  unfold tools.andThen, tools.tabWrite. by rewrite IH.
Qed.

(** X14: [installed] lists the binary directory after the tools: past the
    header it writes one row per directory entry that is not itself a
    directory and whose name, without a trailing ".exe", is that of a
    listed tool (the last one listed under that name), in directory order;
    other entries are passed over.  If reading the directory fails it
    returns that error and writes nothing. *)
Theorem X14_installed_rows o c w w1 ev list :
  tools.client o = Some c →
  tools.List c w = (w1, ev, inr list) →
  let items := tools.CLIToolList.Items list in
  let dir := tools.BinaryPath o in
  match tools.os_ReadDir dir w1 with
  | (w2, inl err) =>
      tools.installed o w = (w2, ev ++ [tools.ReadDir dir], inl err)
  | (w2, inr files) =>
      tools.installed o w
      = (w2,
         ev ++ tools.ReadDir dir :: tools.TabWrite tools.header
               :: map tools.TabWrite
                    (map tools.row (omap (tools.toolOfFile items) files))
               ++ [tools.TabFlush],
         inr ())
      ∧ ∀ file name,
          file ∈ files → tools.EntryIsDir file = false →
          tools.filepath_Base (tools.EntryName file) = name +:+ ".exe" →
          tools.toolOfFile items file
          = last (filter (λ tool, tools.CLITool.Name tool = name) items)
  end.
Proof.
  intros Hc Hl items dir. unfold tools.installed, tools.withClient.
  rewrite Hc, (andThen_ok _ _ _ _ _ _ Hl).
  unfold tools.andThen, tools.request. fold dir.
  destruct (tools.os_ReadDir dir w1) as [w2 [err|files]]; [done|].
  split.
  - simpl. by rewrite installedRows_run.
  - intros file name _ Hfile Hbase. unfold tools.toolOfFile.
    by rewrite Hfile, Hbase, TrimSuffix_app.
Qed.

(** ** [NewToolsClient] and [detectAddress] *)

Lemma detectAddress_effects c w :
  Forall (λ e, tools.isHttp e = true)
    (tools.effectsOf (tools.detectAddress c w)).
Proof.
  unfold tools.detectAddress, tools.effectsOf.
  destruct (tools.url_ParseRequestURI _) as [err|u]; [constructor|].
  destruct (tools.http_NewRequest _) as [err|]; [constructor|].
  destruct (tools.rt_RoundTrip _ w) as [w' [err|resp]]; simpl;
    [by repeat constructor|].
  destruct (tools.json_DecodeMap _) as [err|m]; simpl;
    [by repeat constructor|].
  case_decide; by repeat constructor.
Qed.

Lemma NewToolsClient_effects f address w :
  Forall (λ e, tools.isHttp e = true)
    (tools.effectsOf (tools.NewToolsClient f address w)).
Proof.
  unfold tools.NewToolsClient.
  destruct (tools.ToRESTConfig f) as [err|host]; [constructor|].
  destruct (tools.TransportConfig f); [constructor|].
  destruct (tools.transport_New f); [constructor|].
  case_decide; [apply detectAddress_effects | constructor].
Qed.

(** X16: with an explicit address the client is built without any
    request: either a factory error comes back or a client whose endpoint
    is that address verbatim; only an empty address starts the
    auto-detection. *)
Theorem X16_explicit_address_no_request f address w :
  address ≠ "" →
  tools.effectsOf (tools.NewToolsClient f address w) = []
  ∧ (tools.NewToolsClient f address w).1.1 = w
  ∧ ∀ c, (tools.NewToolsClient f address w).2 = inr c →
         tools.endpoint c = address.
Proof.
  intros Hne. unfold tools.NewToolsClient, tools.effectsOf.
  destruct (tools.ToRESTConfig f) as [err|host]; [done|].
  destruct (tools.TransportConfig f); [done|].
  destruct (tools.transport_New f); [done|].
  rewrite decide_False by (destruct address; simpl; [done | lia]).
  repeat split. simpl. by intros c [= <-].
Qed.

(** X17: auto-detection succeeds only when the service at the derived
    address answers the ping with name "openshift-cli-manager": the
    endpoint is the API server URL with its host replaced by
    "api-openshift-cli-manager.apps." followed by the API host name without
    a leading "api.", one request goes to <endpoint>/v1/, and every failure
    is the fixed detection error, alone or followed by ": " and the
    cause. *)
Theorem X17_detect_address c w :
  let outcome := tools.detectAddress c w in
  (∀ c',
     outcome.2 = inr c' →
     ∃ u resp m,
       tools.url_ParseRequestURI (tools.configHost c) = inr u
       ∧ tools.endpoint c'
         = tools.url_String
             (tools.url_SetHost u
                ("api-openshift-cli-manager.apps."
                   +:+ tools.TrimPrefix (tools.url_Hostname u) "api."))
       ∧ tools.effectsOf outcome = [tools.HttpGet (tools.endpoint c' +:+ "/v1/")]
       ∧ (tools.rt_RoundTrip (tools.endpoint c' +:+ "/v1/") w).2 = inr resp
       ∧ tools.json_DecodeMap (tools.Body resp) = inr m
       ∧ m !! "name" = Some "openshift-cli-manager")
  ∧ (∀ err,
       outcome.2 = inl err →
       err = tools.detectionFailedErr
       ∨ ∃ cause, err = tools.detectionFailedErr +:+ ": " +:+ cause)
  ∧ (∀ u domain,
       tools.url_ParseRequestURI (tools.configHost c) = inr u →
       tools.url_Hostname u = "api." +:+ domain →
       tools.TrimPrefix (tools.url_Hostname u) "api." = domain).
Proof.
  intros outcome. subst outcome.
  unfold tools.detectAddress, tools.effectsOf.
  destruct (tools.url_ParseRequestURI _) as [err|u] eqn:Hu.
  { split; [done|]. split; [|done]. intros e [= <-]. right. by eexists. }
  change (tools.controllerRoute +:+ tools.appsSubdomain +:+ ?x)
    with ("api-openshift-cli-manager.apps." +:+ x).
  change tools.apiSubdomain with "api.".
  cbn [tools.endpoint].
  set (target := tools.url_String _ +:+ "/v1/").
  destruct (tools.http_NewRequest target) as [err|].
  { split; [done|]. split.
    - intros e [= <-]. right. by eexists.
    - intros u' d [= <-] Hh. rewrite Hh. apply TrimPrefix_app. }
  destruct (tools.rt_RoundTrip target w) as [w' [err|resp]] eqn:Hrt.
  { split; [done|]. split.
    - intros e [= <-]. right. by eexists.
    - intros u' d [= <-] Hh. rewrite Hh. apply TrimPrefix_app. }
  destruct (tools.json_DecodeMap _) as [err|m] eqn:Hm.
  { split; [done|]. split.
    - intros e [= <-]. right. by eexists.
    - intros u' d [= <-] Hh. rewrite Hh. apply TrimPrefix_app. }
  destruct (decide (default "" (m !! tools.controllerPingKey)
                    = tools.controllerPingVal)) as [Hping|Hping].
  - split; [|split; [done|]].
    + intros c' [= <-]. exists u, resp, m. cbn [tools.endpoint].
      fold target. rewrite Hrt. repeat split; try done.
      change tools.controllerPingKey with "name" in Hping.
      destruct (m !! "name") as [v|]; simpl in Hping; [by rewrite Hping|].
      discriminate.
    + intros u' d [= <-] Hh. rewrite Hh. apply TrimPrefix_app.
  - split; [done|]. split.
    + intros e [= <-]. by left.
    + intros u' d [= <-] Hh. rewrite Hh. apply TrimPrefix_app.
Qed.

(** ** [Complete] *)

Lemma http_not_mkdir (ev : list tools.Effect) p :
  Forall (λ e, tools.isHttp e = true) ev → tools.MkdirAll p ∉ ev.
Proof.
  intros Hall Hin. rewrite Forall_forall in Hall.
  by specialize (Hall _ Hin).
Qed.

(** X15: [Complete] creates a directory only for the default binary path:
    a [MkdirAll] happens only when no binary path was given, the home
    directory was found, and the first [Stat] of <home>/bin failed with a
    not-exist error, and it is for that path.  A binary path given by the
    user is only checked: if its [Stat] fails, that error is returned after
    this one effect, before any client is set up. *)
Theorem X15_only_default_path_is_created f o w :
  (∀ p,
     tools.MkdirAll p ∈ tools.effectsOf (tools.Complete f o w) →
     tools.BinaryPath o = ""
     ∧ ∃ w1 home w2 err,
         tools.os_UserHomeDir w = (w1, inr home)
         ∧ p = tools.filepath_Join home "bin"
         ∧ tools.os_Stat p w1 = (w2, Some err)
         ∧ tools.os_IsNotExist err = true)
  ∧ (∀ w1 err,
       tools.BinaryPath o ≠ "" →
       tools.os_Stat (tools.BinaryPath o) w = (w1, Some err) →
       tools.Complete f o w = (w1, [tools.Stat (tools.BinaryPath o)], inl err)).
Proof.
  split.
  - intros p. unfold tools.Complete, tools.effectsOf.
    destruct (decide (String.length (tools.BinaryPath o) = 0)) as [He|He].
    + assert (tools.BinaryPath o = "") as Hempty
        by (destruct (tools.BinaryPath o); [done | simpl in He; lia]).
      unfold tools.andThen at 1 2, tools.request.
      destruct (tools.os_UserHomeDir w) as [w1 [e|home]] eqn:Hhome.
      { simpl. by intros ?%list_elem_of_singleton. }
      cbn [tools.BinaryPath tools.setBinaryPath].
      set (path := tools.filepath_Join home "bin").
      unfold tools.andThen at 1, tools.observe.
      destruct (tools.os_Stat path w1) as [w2 r] eqn:Hstat.
      destruct r as [e|]; [destruct (tools.os_IsNotExist e) eqn:Hne|].
      * assert (∀ q, tools.MkdirAll q = tools.MkdirAll path →
                     tools.BinaryPath o = ""
                     ∧ ∃ w0 home0 w3 err,
                         (w1, (inr home : error + string)) = (w0, inr home0)
                         ∧ q = tools.filepath_Join home0 "bin"
                         ∧ tools.os_Stat q w0 = (w3, Some err)
                         ∧ tools.os_IsNotExist err = true) as Hthis.
        { intros q [= ->]. split; [done|]. by exists w1, home, w2, e. }
        unfold tools.pure, tools.andThen, tools.attempt.
        cbn [tools.BinaryPath tools.setBinaryPath tools.Address]. fold path.
        destruct (tools.os_MkdirAll path w2) as [w3 [e'|]]; simpl.
        { rewrite !elem_of_cons, elem_of_nil.
          intros [?|[?|[Hp|[]]]]; try done. by apply Hthis. }
        destruct (tools.os_Stat path w3) as [w4 [e'|]]; simpl.
        { rewrite !elem_of_cons, elem_of_nil.
          intros [?|[?|[Hp|[?|[]]]]]; try done. by apply Hthis. }
        pose proof (NewToolsClient_effects f (tools.Address o) w4) as Hhttp.
        unfold tools.effectsOf in Hhttp.
        destruct (tools.NewToolsClient f (tools.Address o) w4)
          as [[w5 ev] [e'|c']]; simpl in *;
          rewrite !elem_of_cons; intros [?|[?|[Hp|[?|Hin]]]]; try done;
          try (by apply Hthis); by apply http_not_mkdir in Hin.
      * unfold tools.pure, tools.andThen, tools.attempt.
        cbn [tools.BinaryPath tools.setBinaryPath tools.Address]. fold path.
        destruct (tools.os_Stat path w2) as [w3 [e'|]]; simpl.
        { rewrite !elem_of_cons, elem_of_nil.
          by intros [?|[?|[?|[]]]]. }
        pose proof (NewToolsClient_effects f (tools.Address o) w3) as Hhttp.
        unfold tools.effectsOf in Hhttp.
        destruct (tools.NewToolsClient f (tools.Address o) w3)
          as [[w4 ev] [e'|c']]; simpl in *;
          rewrite !elem_of_cons; intros [?|[?|[?|Hin]]]; try done;
          by apply http_not_mkdir in Hin.
      * unfold tools.pure, tools.andThen, tools.attempt.
        cbn [tools.BinaryPath tools.setBinaryPath tools.Address]. fold path.
        destruct (tools.os_Stat path w2) as [w3 [e'|]]; simpl.
        { rewrite !elem_of_cons, elem_of_nil.
          by intros [?|[?|[?|[]]]]. }
        pose proof (NewToolsClient_effects f (tools.Address o) w3) as Hhttp.
        unfold tools.effectsOf in Hhttp.
        destruct (tools.NewToolsClient f (tools.Address o) w3)
          as [[w4 ev] [e'|c']]; simpl in *;
          rewrite !elem_of_cons; intros [?|[?|[?|Hin]]]; try done;
          by apply http_not_mkdir in Hin.
    + unfold tools.andThen, tools.pure, tools.attempt.
      destruct (tools.os_Stat (tools.BinaryPath o) w) as [w1 [e|]]; simpl.
      { by intros ?%list_elem_of_singleton. }
      pose proof (NewToolsClient_effects f (tools.Address o) w1) as Hhttp.
      unfold tools.effectsOf in Hhttp.
      destruct (tools.NewToolsClient f (tools.Address o) w1)
        as [[w4 ev] [e'|c']]; simpl in *;
        rewrite !elem_of_cons; intros [?|Hin]; try done;
        by apply http_not_mkdir in Hin.
  - intros w1 err Hne Hstat. unfold tools.Complete.
    rewrite decide_False
      by (destruct (tools.BinaryPath o); simpl; [done | lia]).
    unfold tools.andThen, tools.pure, tools.attempt. by rewrite Hstat.
Qed.

(** ** [Download] *)

(** X18: [Download] touches the destination only after a good answer: the
    file is opened (created or truncated) or written only if the request
    went through with a status below 400 and a content length other than
    zero, and then it is the given destination.  A status of 400 or more
    always ends in an error after the request alone. *)
Theorem X18_download_spares_destination c tool os arch dest w :
  let target := tools.downloadURL c tool os arch in
  let outcome := tools.Download c tool os arch dest w in
  (∀ e,
     e ∈ tools.effectsOf outcome → tools.isFileWrite e = true →
     (e = tools.OpenFile dest ∨ ∃ body, e = tools.Copy dest body)
     ∧ ∃ w1 resp,
         tools.http_NewRequest target = None
         ∧ tools.rt_RoundTrip target w = (w1, inr resp)
         ∧ (tools.StatusCode resp < 400)%Z
         ∧ tools.ContentLength resp ≠ 0%Z)
  ∧ (∀ w1 resp,
       tools.http_NewRequest target = None →
       tools.rt_RoundTrip target w = (w1, inr resp) →
       (400 ≤ tools.StatusCode resp)%Z →
       outcome.1 = (w1, [tools.HttpGet target])
       ∧ ∃ err, outcome.2 = inl err).
Proof.
  intros target outcome. subst outcome.
  unfold tools.Download, tools.effectsOf. fold target.
  destruct (tools.http_NewRequest target) as [err|].
  { split; [|done]. intros e Hin. by apply elem_of_nil in Hin. }
  unfold tools.andThen, tools.request.
  destruct (tools.rt_RoundTrip target w) as [w1 [err|resp]] eqn:Hrt.
  { split; [|done]. simpl. intros e Hin%list_elem_of_singleton. by subst. }
  destruct (decide (400 ≤ tools.StatusCode resp)%Z) as [Hbad|Hgood].
  { split.
    - destruct (tools.json_DecodeError _) as [derr|msg]; simpl;
        intros e Hin%list_elem_of_singleton; by subst.
    - intros w1' resp' _ [= <- <-] _.
      destruct (tools.json_DecodeError _) as [derr|msg]; simpl; eauto. }
  split; [|intros w1' resp' _ [= <- <-] ?; lia].
  destruct (decide (tools.ContentLength resp = 0%Z)) as [Hzero|Hsome].
  { simpl. intros e Hin%list_elem_of_singleton. by subst. }
  assert (∃ w0 resp0,
            None = (None : option error)
            ∧ (w1, inr resp) = (w0, (inr resp0 : error + tools.Response))
            ∧ (tools.StatusCode resp0 < 400)%Z
            ∧ tools.ContentLength resp0 ≠ 0%Z) as Hfacts
    by (exists w1, resp; repeat split; [lia | done]).
  destruct (tools.os_OpenFile dest w1) as [w2 [err|]]; simpl.
  - intros e. rewrite !elem_of_cons, elem_of_nil.
    intros [->|[->|[]]] Hw; [done|]. split; [by left | exact Hfacts].
  - destruct (tools.io_Copy dest (tools.Body resp) w2) as [w3 r]. simpl.
    intros e. rewrite !elem_of_cons, elem_of_nil.
    intros [->|[->|[->|[]]]] Hw; [done| |]; (split; [|exact Hfacts]).
    + by left.
    + right. by eexists.
Qed.
End ToolsFacts.

Lemma X10_remove_takes_precedence_witness :
  tools.Run (tools.mkToolsOptions true "odo" "kubectl" "/opt/bin" "" None)
    Machine.used
  = ({| Machine.home := inr "/home/dev";
        Machine.present := ["/home/dev"; "/opt/bin"];
        Machine.entries := Machine.entries Machine.used;
        Machine.online := true; Machine.status := 200;
        Machine.removed := ["/opt/bin/kubectl"]; Machine.saved := [] |},
     [tools.Remove "/opt/bin/kubectl"], inr ()).
Proof.
  by_computing (X10_remove_takes_precedence
                  (tools.mkToolsOptions true "odo" "kubectl" "/opt/bin" ""
                     None) Machine.used).
  discriminate.
Defined.

Lemma X11_available_rows_witness :
  tools.available (Machine.options true "" "") Machine.used
  = (Machine.used,
     [tools.HttpGet "https://tools.example.com/v1/tools/";
      tools.TabWrite tools.header; tools.TabWrite (tools.row Machine.kubectl);
      tools.TabWrite (tools.row Machine.odo);
      tools.TabWrite (tools.row Machine.odo2); tools.TabFlush],
     inr ()).
Proof.
  by_computing (X11_available_rows (Machine.options true "" "")
                  Machine.service Machine.used eq_refl).
Defined.

Lemma X12_install_unknown_tool_witness :
  tools.install (Machine.options false "nope" "") Machine.used
  = (Machine.used, [tools.HttpGet "https://tools.example.com/v1/tools/"],
     inl "tool nope not found").
Proof.
  by_computing (X12_install_unknown_tool (Machine.options false "nope" "")
                  Machine.service Machine.used Machine.used
                  [tools.HttpGet "https://tools.example.com/v1/tools/"]
                  Machine.catalogue eq_refl).
  - reflexivity.
  - apply (bool_decide_unpack _). vm_compute. exact I.
Defined.

Lemma X13_install_first_match_witness :
  tools.install (Machine.options false "odo" "") Machine.used
  = ({| Machine.home := inr "/home/dev";
        Machine.present := ["/home/dev"; "/opt/bin"];
        Machine.entries := Machine.entries Machine.used;
        Machine.online := true; Machine.status := 200;
        Machine.removed := [];
        Machine.saved := [("/opt/bin/odo", "BINARY")] |},
     [tools.HttpGet "https://tools.example.com/v1/tools/";
      tools.HttpGet
        "https://tools.example.com/v1/tools/download/?namespace=tools&name=odo&os=linux&arch=amd64";
      tools.OpenFile "/opt/bin/odo"; tools.Copy "/opt/bin/odo" "BINARY"],
     inr ()).
Proof.
  assert (Forall (λ tool, tools.CLITool.Name tool ≠ "odo")
            [Machine.kubectl; Machine.helm]) as Hpre
    by (apply (bool_decide_unpack _); vm_compute; exact I).
  by_computing (λ Hlist,
                  X13_install_first_match (Machine.options false "odo" "")
                    Machine.service Machine.used Machine.used
                    [tools.HttpGet "https://tools.example.com/v1/tools/"]
                    Machine.catalogue [Machine.kubectl; Machine.helm]
                    Machine.odo [Machine.odo2] eq_refl Hlist eq_refl Hpre
                    eq_refl).
  reflexivity.
Defined.

Lemma X14_installed_rows_witness :
  tools.installed (Machine.options false "" "") Machine.used
  = (Machine.used,
     [tools.HttpGet "https://tools.example.com/v1/tools/";
      tools.ReadDir "/opt/bin"; tools.TabWrite tools.header;
      tools.TabWrite (tools.row Machine.kubectl);
      tools.TabWrite (tools.row Machine.odo2); tools.TabFlush],
     inr ()).
Proof.
  by_computing (λ Hlist,
                  proj1 (X14_installed_rows (Machine.options false "" "")
                           Machine.service Machine.used Machine.used
                           [tools.HttpGet
                              "https://tools.example.com/v1/tools/"]
                           Machine.catalogue eq_refl Hlist)).
  reflexivity.
Defined.

Lemma X15_only_default_path_is_created_witness :
  tools.Complete Machine.factory
    (tools.mkToolsOptions true "" "" "/nowhere" "" None) Machine.fresh
  = (Machine.fresh, [tools.Stat "/nowhere"],
     inl "stat /nowhere: no such file or directory").
Proof.
  apply (proj2 (X15_only_default_path_is_created Machine.factory
                  (tools.mkToolsOptions true "" "" "/nowhere" "" None)
                  Machine.fresh)).
  - discriminate.
  - reflexivity.
Defined.

Lemma X16_explicit_address_no_request_witness :
  tools.NewToolsClient Machine.factory "https://tools.example.com"
    Machine.fresh
  = (Machine.fresh, [],
     inr (tools.mkToolsClient "https://tools.example.com"
            "https://api.example.com:6443")).
Proof.
  destruct (X16_explicit_address_no_request Machine.factory
              "https://tools.example.com" Machine.fresh)
    as (Heffects & Hstate & Hclient); [discriminate|].
  reflexivity.
Defined.

Lemma X17_detect_address_witness :
  tools.TrimPrefix
    (tools.url_Hostname ("https://api.example.com:6443" : tools.URL)) "api."
  = "example.com"
  ∧ ∃ c', (tools.detectAddress Machine.service Machine.fresh).2 = inr c'
          ∧ tools.endpoint c'
            = "https://api-openshift-cli-manager.apps.example.com".
Proof.
  destruct (X17_detect_address Machine.service Machine.fresh)
    as (Hok & _ & Hhost).
  split.
  - apply (Hhost "https://api.example.com:6443" "example.com"); reflexivity.
  - eexists. split; [reflexivity|].
    destruct (Hok _ eq_refl) as (u & resp & m & Hu & Hend & _).
    injection Hu as <-. exact Hend.
Defined.

Lemma X18_download_spares_destination_witness :
  (tools.Download Machine.service Machine.odo "linux" "amd64" "/opt/bin/odo"
     Machine.refused).1
  = (Machine.refused,
     [tools.HttpGet
        "https://tools.example.com/v1/tools/download/?namespace=tools&name=odo&os=linux&arch=amd64"]).
Proof.
  destruct (X18_download_spares_destination Machine.service Machine.odo
              "linux" "amd64" "/opt/bin/odo" Machine.refused) as [_ Hbad].
  by_computing (λ H1 H2 H3,
                  proj1 (Hbad Machine.refused
                           (Machine.answer
                              (tools.downloadURL Machine.service Machine.odo
                                 "linux" "amd64") Machine.refused)
                           H1 H2 H3)).
  - reflexivity.
  - reflexivity.
  - vm_compute. discriminate.
Defined.

(** * Properties of the later [ToolsClient] *)

Section RevisedFacts.
Context {W L I : Type} `{!tools.Host W} `{!revised.Codec L I}.

Lemma fetch_ok {A} target (decode : string → error + A) (w w' : W) ev a :
  revised.fetch target decode w = (w', ev, inr a) →
  ∃ resp,
    tools.http_NewRequest target = None
    ∧ tools.rt_RoundTrip target w = (w', inr resp)
    ∧ (tools.StatusCode resp < 400)%Z
    ∧ decode (tools.Body resp) = inr a
    ∧ ev = [tools.HttpGet target].
Proof.
  unfold revised.fetch, revised.handleResponseError.
  destruct (tools.http_NewRequest target) as [err|]; [done|].
  unfold tools.andThen, tools.request, tools.fail, tools.pure.
  destruct (tools.rt_RoundTrip target w) as [w1 [err|resp]]; [done|].
  destruct (decide (400 ≤ tools.StatusCode resp)%Z) as [Hbad|Hgood].
  { by destruct (tools.json_DecodeError _). }
  destruct (decode (tools.Body resp)) as [err|a'] eqn:Hdecode; [done|].
  intros [= <- <- <-]. exists resp. repeat split; [lia | done].
Qed.

(** X19: the later client decodes an answer only after the status check:
    [List] and [InfoFromDigest] return a value only if the request was
    built, the round trip gave a response with a status below 400 and its
    body decoded to that value; the single effect is the request, to the
    address [List] formats from the escaped platform (none for nil
    options) and [InfoFromDigest] from the digest as given. *)
Theorem X19_value_needs_good_status (c : tools.ToolsClient) opts digest
    (w w' : W) ev :
  (∀ l : L,
     revised.List c opts w = (w', ev, inr l) →
     let target :=
       revised.fmt_Sprintf1
         ("%s/v1/tools/?platform="
            +:+ revised.url_QueryEscape
                  (from_option revised.Platform "" opts))
         (tools.endpoint c) in
     ∃ resp,
       tools.http_NewRequest target = None
       ∧ tools.rt_RoundTrip target w = (w', inr resp)
       ∧ (tools.StatusCode resp < 400)%Z
       ∧ revised.json_DecodeHTTPList (tools.Body resp) = inr l
       ∧ ev = [tools.HttpGet target])
  ∧ (∀ i : I,
       revised.InfoFromDigest c digest w = (w', ev, inr i) →
       let target :=
         tools.endpoint c +:+ "/v1/tools/info/?digest=" +:+ digest in
       ∃ resp,
         tools.http_NewRequest target = None
         ∧ tools.rt_RoundTrip target w = (w', inr resp)
         ∧ (tools.StatusCode resp < 400)%Z
         ∧ revised.json_DecodeHTTPInfo (tools.Body resp) = inr i
         ∧ ev = [tools.HttpGet target]).
Proof.
  split.
  - intros l Hrun target. apply fetch_ok.
    subst target. by destruct opts.
  - intros i Hrun target. by apply fetch_ok.
Qed.

(** X20: in the later client too [Download] touches the destination only
    after a good answer: the file is opened or written only if the
    request went through with a status below 400 and a content length
    other than zero.  A status of 400 or more ends after the request
    alone, in the error of the body when it decodes and in the decoding
    error otherwise. *)
Theorem X20_later_download_spares_destination (c : tools.ToolsClient)
    namespace name platform dest opts (w : W) :
  let target :=
    revised.downloadURL c namespace name platform
      (from_option revised.Version "" opts) in
  let outcome := revised.Download c namespace name platform dest opts w in
  (∀ e,
     e ∈ tools.effectsOf outcome → tools.isFileWrite e = true →
     (e = tools.OpenFile dest ∨ ∃ body, e = tools.Copy dest body)
     ∧ ∃ w1 resp,
         tools.http_NewRequest target = None
         ∧ tools.rt_RoundTrip target w = (w1, inr resp)
         ∧ (tools.StatusCode resp < 400)%Z
         ∧ tools.ContentLength resp ≠ 0%Z)
  ∧ (∀ w1 resp,
       tools.http_NewRequest target = None →
       tools.rt_RoundTrip target w = (w1, inr resp) →
       (400 ≤ tools.StatusCode resp)%Z →
       outcome
       = (w1, [tools.HttpGet target],
          inl (match tools.json_DecodeError (tools.Body resp) with
               | inl err => err
               | inr message => tools.fmt_Errorf message
               end))).
Proof.
  intros target outcome. subst outcome.
  assert (revised.Version (default {| revised.Version := "" |} opts)
          = from_option revised.Version "" opts) as Hversion
    by by destruct opts.
  unfold revised.Download, tools.effectsOf. rewrite Hversion. fold target.
  destruct (tools.http_NewRequest target) as [err|].
  { split; [|done]. intros e Hin. by apply elem_of_nil in Hin. }
  unfold tools.andThen, tools.request, revised.handleResponseError.
  destruct (tools.rt_RoundTrip target w) as [w1 [err|resp]] eqn:Hrt.
  { split; [|done]. simpl. intros e Hin%list_elem_of_singleton. by subst. }
  destruct (decide (400 ≤ tools.StatusCode resp)%Z) as [Hbad|Hgood].
  { split.
    - destruct (tools.json_DecodeError _) as [derr|msg]; simpl;
        intros e Hin%list_elem_of_singleton; by subst.
    - intros w1' resp' _ [= <- <-] _.
      by destruct (tools.json_DecodeError _) as [derr|msg]. }
  split; [|intros w1' resp' _ [= <- <-] ?; lia].
  destruct (decide (tools.ContentLength resp = 0%Z)) as [Hzero|Hsome].
  { simpl. intros e Hin%list_elem_of_singleton. by subst. }
  assert (∃ w0 resp0,
            None = (None : option error)
            ∧ (w1, inr resp) = (w0, (inr resp0 : error + tools.Response))
            ∧ (tools.StatusCode resp0 < 400)%Z
            ∧ tools.ContentLength resp0 ≠ 0%Z) as Hfacts
    by (exists w1, resp; repeat split; [lia | done]).
  destruct (tools.os_OpenFile dest w1) as [w2 [err|]]; simpl.
  - intros e. rewrite !elem_of_cons, elem_of_nil.
    intros [->|[->|[]]] Hw; [done|]. split; [by left | exact Hfacts].
  - destruct (tools.io_Copy dest (tools.Body resp) w2) as [w3 r]. simpl.
    intros e. rewrite !elem_of_cons, elem_of_nil.
    intros [->|[->|[->|[]]]] Hw; [done| |]; (split; [|exact Hfacts]).
    + by left.
    + right. by eexists.
Qed.
End RevisedFacts.

Lemma X19_value_needs_good_status_witness :
  revised.List Machine.service (Some (revised.mkListOptions "linux"))
    Machine.fresh
  = (Machine.fresh,
     [tools.HttpGet "https://tools.example.com/v1/tools/?platform=linux"],
     inr "BINARY")
  ∧ ∃ resp,
      tools.rt_RoundTrip "https://tools.example.com/v1/tools/?platform=linux"
        Machine.fresh
      = (Machine.fresh, inr resp)
      ∧ (tools.StatusCode resp < 400)%Z
      ∧ tools.Body resp = "BINARY".
Proof.
  assert (revised.List Machine.service
            (Some (revised.mkListOptions "linux")) Machine.fresh
          = (Machine.fresh,
             [tools.HttpGet
                "https://tools.example.com/v1/tools/?platform=linux"],
             inr "BINARY")) as Hrun by (vm_compute; reflexivity).
  split; [exact Hrun|].
  destruct (proj1 (X19_value_needs_good_status Machine.service
                     (Some (revised.mkListOptions "linux")) ""
                     Machine.fresh Machine.fresh _) "BINARY" Hrun)
    as (resp & _ & Hrt & Hstatus & Hbody & _).
  exists resp. split; [exact Hrt|]. split; [exact Hstatus|].
  by injection Hbody.
Defined.

Lemma X20_later_download_spares_destination_witness :
  revised.Download Machine.service "tools" "odo" "linux/amd64" "/opt/bin/odo"
    None Machine.refused
  = (Machine.refused,
     [tools.HttpGet
        "https://tools.example.com/v1/tools/download/?namespace=tools&name=odo&platform=linux%2Famd64&version="],
     inl "tool is not available").
Proof.
  destruct (X20_later_download_spares_destination Machine.service "tools"
              "odo" "linux/amd64" "/opt/bin/odo" None Machine.refused)
    as [_ Hbad].
  by_computing (λ H1 H2 H3,
                  Hbad Machine.refused
                    (Machine.answer
                       (revised.downloadURL Machine.service "tools" "odo"
                          "linux/amd64" "")
                       Machine.refused)
                    H1 H2 H3).
  - reflexivity.
  - reflexivity.
  - vm_compute. discriminate.
Defined.
